(** * git-session-orchestrator: a shallow embedding of the monitoring scripts

    The three scripts of the repository are embedded module by module:
    - [GitCoordination]  : scripts/git_coordination.py
    - [SessionMonitor]   : scripts/session_monitor.py
    - [HeartbeatMonitor] : scripts/heartbeat_monitor.py
    ([GitCoordinationJson] holds the JSON report of git_coordination.py; it
    follows [SessionMonitor], which declares the decoded JSON values.)
    Two modules take a script further than its first embedding does:
    [GitSubprocess] lets [subprocess.run] itself raise, and [HeartbeatLoop]
    gives the loop of the heartbeat monitor its sleeps and the rounding of
    its deadline.
    [Py] holds the small part of Python's built-in behaviour the scripts rely
    on (string methods, [int], [sorted], exceptions).  The properties follow
    the definitions, one module per script: [GitCoordinationProps],
    [SessionMonitorProps], [HeartbeatMonitorProps], over [PyFacts].

    What lies outside the scripts is a parameter of the code that calls it:
    the [git] executable (exit status and output per command line), the
    decoders [json.loads] and [datetime.fromisoformat], [os.path.realpath],
    the files a poll finds, and the clock readings of the heartbeat loop.
    A function that can raise returns a [result]; a function that prints
    returns the lines it printed, also when an exception ends it. *)

From Stdlib Require Import ZArith List String Ascii Bool Lia QArith Permutation Sorted.
From Stdlib Require Import DecimalString PrimFloat Qround.
From stdpp Require Import gmap strings.

Set Warnings "-register-all".

Local Open Scope string_scope.
Local Open Scope list_scope.

(* ===================================================================== *)
(** * Python built-ins used by the scripts *)
(* ===================================================================== *)

Module Py.

(** Exceptions the scripts can raise or let through. *)
Inductive exn : Type :=
| RuntimeError
| ValueError
| AttributeError
| KeyError
| OSError.

(** The outcome of a call: a value, or an exception on its way up. *)
Inductive result (A : Type) : Type :=
| Ok (a : A)
| Raise (e : exn).
Arguments Ok {A} a.
Arguments Raise {A} e.

#[global] Instance result_ret : MRet result := fun A a => Ok a.
#[global] Instance result_bind : MBind result := fun A B k r =>
  match r with
  | Ok a => k a
  | Raise e => Raise e
  end.

(** ** Characters.  A [str] is a sequence of code points; the model keeps the
    code points below 256, which is what [ascii] offers. *)

Definition code (c : ascii) : N := N_of_ascii c.

Definition LF : ascii := "010"%char.
Definition CR : ascii := "013"%char.

(** [str.isspace] on one code point: TAB..CR, FS..US, space, NEL, NBSP. *)
Definition is_space (c : ascii) : bool :=
  let n := code c in
  ((9 <=? n) && (n <=? 13) || (28 <=? n) && (n <=? 32) || (n =? 133) || (n =? 160))%N.

(** The boundaries [str.splitlines] cuts at (CR LF counts once). *)
Definition is_linebreak (c : ascii) : bool :=
  let n := code c in
  ((10 <=? n) && (n <=? 13) || (28 <=? n) && (n <=? 30) || (n =? 133))%N.

Definition is_digit (c : ascii) : bool :=
  let n := code c in ((48 <=? n) && (n <=? 57))%N.

(** [str.lower] on one code point: A-Z, and the Latin-1 capitals but the
    multiplication sign. *)
Definition lower_char (c : ascii) : ascii :=
  let n := code c in
  if ((65 <=? n) && (n <=? 90) || (192 <=? n) && (n <=? 222) && negb (n =? 215))%N
  then ascii_of_N (n + 32) else c.

(** ** String methods *)

Definition nonempty (s : string) : bool := negb (s =? "").

Fixpoint lower (s : string) : string :=
  match s with
  | "" => ""
  | String c r => String (lower_char c) (lower r)
  end.

Fixpoint lstrip (s : string) : string :=
  match s with
  | "" => ""
  | String c r => if is_space c then lstrip r else s
  end.

Fixpoint rstrip (s : string) : string :=
  match s with
  | "" => ""
  | String c r =>
      let r' := rstrip r in
      if is_space c && (r' =? "") then "" else String c r'
  end.

(** [s.strip()] *)
Definition strip (s : string) : string := rstrip (lstrip s).

(** [s.split()]: the maximal runs of non-whitespace, in order. *)
Fixpoint split (s : string) : list string :=
  match s with
  | "" => []
  | String c r =>
      if is_space c then split r
      else match r with
           | "" => [String c ""]
           | String c' _ =>
               if is_space c' then String c "" :: split r
               else match split r with
                    | w :: ws => String c w :: ws
                    | [] => [String c ""]
                    end
           end
  end.

(** [sep.join(l)] *)
Definition join (sep : string) (l : list string) : string := String.concat sep l.

(** [s.splitlines()]: lines without their terminators. *)
Fixpoint splitlines (s : string) : list string :=
  match s with
  | "" => []
  | String c r =>
      if Ascii.eqb c CR then
        match r with
        | String c' r' => if Ascii.eqb c' LF then "" :: splitlines r' else "" :: splitlines r
        | "" => [""]
        end
      else if is_linebreak c then "" :: splitlines r
      else match splitlines r with
           | l :: ls => String c l :: ls
           | [] => [String c ""]
           end
  end.

(** Iterating a text-mode file handle opened with the default [newline=None]:
    lines end at LF, CR LF or CR, each handed over as a line ending in LF; a
    last line without terminator is handed over as it is. *)
Fixpoint readlines (s : string) : list string :=
  match s with
  | "" => []
  | String c r =>
      if Ascii.eqb c LF then String LF "" :: readlines r
      else if Ascii.eqb c CR then
        match r with
        | String c' r' =>
            if Ascii.eqb c' LF then String LF "" :: readlines r'
            else String LF "" :: readlines r
        | "" => [String LF ""]
        end
      else match readlines r with
           | l :: ls => String c l :: ls
           | [] => [String c ""]
           end
  end.

(** [s.startswith(p)] and [s.removeprefix(p)] *)
Definition startswith (s p : string) : bool := String.prefix p s.

Definition removeprefix (s p : string) : string :=
  if startswith s p then String.substring (String.length p) (String.length s - String.length p) s
  else s.

(** [s.replace(old, new)] for a one-character [old]. *)
Fixpoint replace_char (old : ascii) (new : string) (s : string) : string :=
  match s with
  | "" => ""
  | String c r =>
      if Ascii.eqb c old then new +:+ replace_char old new r
      else String c (replace_char old new r)
  end.

(** [s[:k]] for any integer [k]: a negative [k] counts from the end. *)
Definition slice_to (s : string) (k : Z) : string :=
  let n := Z.of_nat (String.length s) in
  if (k <? 0)%Z then String.substring 0 (Z.to_nat (n + k)) s
  else String.substring 0 (Z.to_nat k) s.

(** [str(n)] for an integer. *)
Definition str_of_Z (z : Z) : string := NilZero.string_of_int (Z.to_int z).
Definition str_of_nat (n : nat) : string := str_of_Z (Z.of_nat n).
Definition str_of_bool (b : bool) : string := if b then "True" else "False".

(** [int(s)] on a string: surrounding whitespace, an optional sign, then
    decimal digits, single underscores allowed between digits.  (The
    interpreter's configurable cap on the number of digits is not modelled.) *)
Fixpoint parse_digits (acc : Z) (after_digit : bool) (s : string) : option Z :=
  match s with
  | "" => if after_digit then Some acc else None
  | String c r =>
      if is_digit c then parse_digits (acc * 10 + (Z.of_N (code c) - 48)) true r
      else if Ascii.eqb c "_"%char && after_digit then parse_digits acc false r
      else None
  end.

Definition int (s : string) : result Z :=
  let t := strip s in
  let parsed :=
    match t with
    | String "+"%char r => parse_digits 0 false r
    | String "-"%char r => Z.opp <$> parse_digits 0 false r
    | _ => parse_digits 0 false t
    end in
  match parsed with
  | Some z => Ok z
  | None => Raise ValueError
  end.

(** ** Sorting.  [sorted] is stable; so is this insertion sort, for the order
    [le] it is given ([reverse=True] is the converse order, still stable). *)

Fixpoint insert_by {A} (le : A -> A -> bool) (x : A) (l : list A) : list A :=
  match l with
  | [] => [x]
  | y :: t => if le x y then x :: l else y :: insert_by le x t
  end.

Definition sort_by {A} (le : A -> A -> bool) (l : list A) : list A :=
  foldr (insert_by le) [] l.

(** [sorted(l)] on strings: by code points. *)
Definition sorted_strs (l : list string) : list string := sort_by String.leb l.

(** ** Words and single spacing *)

(** No whitespace character in [s]. *)
Fixpoint no_space (s : string) : bool :=
  match s with
  | "" => true
  | String c r => negb (is_space c) && no_space r
  end.

(** A word: not empty, no whitespace in it. *)
Definition word (w : string) : bool := nonempty w && no_space w.

(** [s] holds no whitespace but single space characters, each between two
    other characters; [after_space] tells whether a space (or the start)
    comes just before [s]. *)
Fixpoint single_spaced (after_space : bool) (s : string) : bool :=
  match s with
  | "" => negb after_space
  | String c r =>
      if Ascii.eqb c " "%char then negb after_space && single_spaced true r
      else negb (is_space c) && single_spaced false r
  end.

(** All whitespace runs of [s] are collapsed: [s] is empty, or words joined
    by single spaces. *)
Definition collapsed (s : string) : bool := negb (nonempty s) || single_spaced true s.

(** [c * n] for a one-character string [c]. *)
Fixpoint repeat_char (c : ascii) (n : nat) : string :=
  match n with
  | O => ""
  | S k => String c (repeat_char c k)
  end.

(** [s.ljust(width)]: [s] itself when it is no shorter than [width]. *)
Definition ljust (s : string) (width : nat) : string :=
  s +:+ repeat_char " " (width - String.length s).

End Py.

(* ===================================================================== *)
(** * scripts/git_coordination.py *)
(* ===================================================================== *)

Module GitCoordination.
Import Py.

Definition DEFAULT_MAIN_CANDIDATES : list string := ["main"; "master"; "trunk"].

Record BranchDelta : Type := mkBranchDelta {
  branch : string;
  ahead_of_base : Z;
  behind_base : Z
}.

(** [normalize_base_branch_name] *)
Definition normalize_base_branch_name (base_ref : string) : string :=
  if startswith base_ref "origin/" then removeprefix base_ref "origin/"
  else base_ref.

(** [categorize_branch] *)
Definition categorize_branch (delta : BranchDelta) : string :=
  if (ahead_of_base delta =? 0)%Z && (behind_base delta >? 0)%Z then
    "stale: rebase before new work"
  else if (ahead_of_base delta >? 0)%Z && (behind_base delta >? 0)%Z then
    "diverged: rebase before merge"
  else if (ahead_of_base delta >? 0)%Z && (behind_base delta =? 0)%Z then
    "ahead only: candidate to merge"
  else "in sync with base".

(** The sort key of [branch_deltas], [(behind_base, ahead_of_base, branch)],
    compared as Python compares tuples. *)
Definition key_leb (d1 d2 : BranchDelta) : bool :=
  (behind_base d1 <? behind_base d2)%Z
  || (behind_base d1 =? behind_base d2)%Z
     && ((ahead_of_base d1 <? ahead_of_base d2)%Z
         || (ahead_of_base d1 =? ahead_of_base d2)%Z
            && String.leb (branch d1) (branch d2)).

(** ** Worktrees *)

Record WorktreeState : Type := mkWorktreeState {
  path : string;
  wt_branch : string;      (* the field [branch] of the dataclass *)
  detached : bool;
  prunable : bool;
  dirty : bool
}.

(** [" " in line] *)
Fixpoint has_blank (line : string) : bool :=
  match line with
  | "" => false
  | String c r => Ascii.eqb c " "%char || has_blank r
  end.

(** [line.split(" ", 1)] for a line that holds a space: what stands before
    the first space, and what follows it. *)
Fixpoint split_first_blank (line : string) : string * string :=
  match line with
  | "" => ("", "")
  | String c r =>
      if Ascii.eqb c " "%char then ("", r)
      else let '(key, value) := split_first_blank r in (String c key, value)
  end.

(** The key and the value of one line of the porcelain listing. *)
Definition key_value (line : string) : string * string :=
  if has_blank line then split_first_blank line else (line, "").

(** The [for line in output.splitlines()] loop of [parse_worktree_porcelain],
    with the closing [if current: blocks.append(current)]. *)
Fixpoint porcelain_loop (lines : list string) (current : gmap string string)
  : list (gmap string string) :=
  match lines with
  | [] => if bool_decide (current = ∅) then [] else [current]
  | line :: rest =>
      if negb (nonempty (strip line)) then
        if bool_decide (current = ∅) then porcelain_loop rest current
        else current :: porcelain_loop rest ∅
      else
        let '(key, value) := key_value line in
        porcelain_loop rest (<[key := value]> current)
  end.

(** [parse_worktree_porcelain] *)
Definition parse_worktree_porcelain (output : string) : list (gmap string string) :=
  porcelain_loop (splitlines output) ∅.

(** The branch label [collect_worktrees] gives a block. *)
Definition branch_label (branch_ref : string) (detached : bool) : string :=
  if startswith branch_ref "refs/heads/" then removeprefix branch_ref "refs/heads/"
  else if detached then "(detached)"
  else branch_ref.

(** ** Recommendations *)

Definition is_diverged (d : BranchDelta) : bool :=
  (ahead_of_base d >? 0)%Z && (behind_base d >? 0)%Z.
Definition is_stale (d : BranchDelta) : bool :=
  (ahead_of_base d =? 0)%Z && (behind_base d >? 0)%Z.
Definition is_ahead_only (d : BranchDelta) : bool :=
  (ahead_of_base d >? 0)%Z && (behind_base d =? 0)%Z.

(** [", ".join(d.branch for d in l[:8])] *)
Definition branch_names (l : list BranchDelta) : string :=
  join ", " (map branch (firstn 8 l)).

Definition rec_repo_dirty : string :=
  "Repository root worktree has local changes. Commit or stash before coordinating merges.".
Definition rec_diverged (base_ref names : string) : string :=
  "Rebase diverged branches onto " +:+ base_ref +:+ " before merge: " +:+ names +:+ ".".
Definition rec_stale (base_ref names : string) : string :=
  "Rebase stale branches on top of " +:+ base_ref +:+ " before new commits: "
  +:+ names +:+ ".".
Definition rec_ahead_only (base_ref names : string) : string :=
  "Branches ahead of " +:+ base_ref
  +:+ " and not behind can be validated then merged/cherry-picked: " +:+ names +:+ ".".
Definition rec_dirty_worktrees (names : string) : string :=
  "Dirty worktrees detected. Stash or commit before branch switching: " +:+ names +:+ ".".
Definition rec_prunable : string :=
  "Prunable worktrees exist. Run `git worktree prune` after validating no needed data.".
Definition rec_many_worktrees : string :=
  "High worktree count. Reuse or prune worktrees before creating new ones to reduce coordination risk.".
Definition rec_clean (base_ref : string) : string :=
  "Topology looks clean. Continue with normal branch validation against "
  +:+ base_ref +:+ ".".

(** [recs.append(msg)] under [if cond] *)
Definition advise (cond : bool) (msg : string) : list string :=
  if cond then [msg] else [].

(** [bool(l)] for a list *)
Definition some {A} (l : list A) : bool :=
  match l with [] => false | _ => true end.

(** [recommendations] *)
Definition recommendations (base_ref : string) (repo_dirty : bool)
    (deltas : list BranchDelta) (worktrees : list WorktreeState) : list string :=
  let diverged := List.filter is_diverged deltas in
  let stale := List.filter is_stale deltas in
  let ahead_only := List.filter is_ahead_only deltas in
  let dirty_wts := List.filter dirty worktrees in
  let prunable_wts := List.filter prunable worktrees in
  let recs :=
    advise repo_dirty rec_repo_dirty
    ++ advise (some diverged) (rec_diverged base_ref (branch_names diverged))
    ++ advise (some stale) (rec_stale base_ref (branch_names stale))
    ++ advise (some ahead_only) (rec_ahead_only base_ref (branch_names ahead_only))
    ++ advise (some dirty_wts)
         (rec_dirty_worktrees
            (join ", " (map (fun w => wt_branch w +:+ "@" +:+ path w) (firstn 6 dirty_wts))))
    ++ advise (some prunable_wts) rec_prunable
    ++ advise (10 <? List.length worktrees)%nat rec_many_worktrees in
  match recs with
  | [] => [rec_clean base_ref]
  | _ => recs
  end.

(** What the [try] block of [main] gathers. *)
Record Report : Type := mkReport {
  report_status : string;
  report_base_ref : string;
  report_deltas : list BranchDelta;
  report_worktrees : list WorktreeState;
  report_recs : list string
}.

(** ** print_table

    [l[i]] raises IndexError when [i] is out of range; the scripts catch it
    nowhere.  [None] stands for it. *)

(** [for i, cell in enumerate(row): widths[i] = max(widths[i], len(cell))],
    from the cell of index [i] on. *)
Fixpoint widen (i : nat) (cells : list string) (widths : list nat)
  : option (list nat) :=
  match cells with
  | [] => Some widths
  | cell :: rest =>
      w ← widths !! i;
      widen (S i) rest (<[i := Nat.max w (String.length cell)]> widths)
  end.

(** The [for row in rows] loop around it. *)
Fixpoint column_widths (rows : list (list string)) (widths : list nat)
  : option (list nat) :=
  match rows with
  | [] => Some widths
  | row :: rest => widths' ← widen 0 row widths; column_widths rest widths'
  end.

(** [" | ".join(row[i].ljust(widths[i]) for i in range(n))] *)
Definition padded_line (n : nat) (row : list string) (widths : list nat)
  : option string :=
  cells ← mapM (fun i => cell ← row !! i; w ← widths !! i; Some (ljust cell w))
               (seq 0 n);
  Some (join " | " cells).

(** ["-+-".join("-" * widths[i] for i in range(n))] *)
Definition separator_line (n : nat) (widths : list nat) : option string :=
  cells ← mapM (fun i => w ← widths !! i; Some (repeat_char "-" w)) (seq 0 n);
  Some (join "-+-" cells).

(** The closing loop: one line per row, over the columns [columns row], until
    a row raises.  Here the columns are those of the headers,
    [range(len(headers))]; session_monitor.py takes [range(len(row))]. *)
Fixpoint print_rows (columns : list string -> nat) (rows : list (list string))
    (widths : list nat) : list string * option unit :=
  match rows with
  | [] => ([], Some tt)
  | row :: rest =>
      match padded_line (columns row) row widths with
      | None => ([], None)
      | Some line =>
          let '(printed, r) := print_rows columns rest widths in
          (line :: printed, r)
      end
  end.

(** [print_table]: the lines printed, and whether it returned. *)
Definition print_table (headers : list string) (rows : list (list string))
  : list string * option unit :=
  match rows with
  | [] => (["(no rows)"], Some tt)
  | _ =>
      match column_widths rows (map String.length headers) with
      | None => ([], None)
      | Some widths =>
          let n := List.length headers in
          match padded_line n headers widths with
          | None => ([], None)
          | Some header_line =>
              match separator_line n widths with
              | None => ([header_line], None)
              | Some separator =>
                  let '(printed, r) := print_rows (fun _ => n) rows widths in
                  (header_line :: separator :: printed, r)
              end
          end
      end
  end.

(** The rows of the two tables of [main]. *)
Definition branch_rows (deltas : list BranchDelta) : list (list string) :=
  map (fun d => [branch d; str_of_Z (ahead_of_base d); str_of_Z (behind_base d);
                 categorize_branch d]) deltas.

Definition worktree_rows (worktrees : list WorktreeState) : list (list string) :=
  map (fun w => [wt_branch w; if dirty w then "yes" else "no";
                 if prunable w then "yes" else "no"; path w]) worktrees.

Section Git.

(** The [git] executable, as [subprocess.run] sees it: for a directory
    ([-C dir]) and an argument list, the exit status and the standard output. *)
Variable git : string -> list string -> Z * string.

(** [run_git] *)
Definition run_git (repo_root : string) (args : list string) (check : bool)
  : result string :=
  let '(returncode, stdout) := git repo_root args in
  if check && negb (returncode =? 0)%Z then Raise RuntimeError
  else Ok (strip stdout).

(** [ref_exists] *)
Definition ref_exists (repo_root ref : string) : bool :=
  (fst (git repo_root ["rev-parse"; "--verify"; "--quiet"; ref]) =? 0)%Z.

(** [list_local_branches] *)
Definition list_local_branches (repo_root : string) : result (list string) :=
  out ← run_git repo_root
          ["for-each-ref"; "--format=%(refname:short)"; "refs/heads"] true;
  Ok (sorted_strs (List.filter (fun l => nonempty l) (map strip (splitlines out)))).

(** [detect_base_ref] *)
Definition detect_base_ref (repo_root : string) : result string :=
  branches ← list_local_branches repo_root;
  match find (fun c => bool_decide (c ∈ branches)) DEFAULT_MAIN_CANDIDATES with
  | Some candidate => Ok candidate
  | None =>
    match find (fun c => ref_exists repo_root ("origin/" +:+ c))
               DEFAULT_MAIN_CANDIDATES with
    | Some candidate => Ok ("origin/" +:+ candidate)
    | None =>
      remote_head ← run_git repo_root
                      ["symbolic-ref"; "--quiet"; "refs/remotes/origin/HEAD"] false;
      let candidate := removeprefix remote_head "refs/remotes/" in
      if startswith remote_head "refs/remotes/" && ref_exists repo_root candidate
      then Ok candidate
      else
        current ← run_git repo_root ["rev-parse"; "--abbrev-ref"; "HEAD"] false;
        if nonempty current && negb (current =? "HEAD") then Ok current
        else Raise RuntimeError
    end
  end.

(** [choose_base_ref] *)
Definition choose_base_ref (repo_root requested : string) : result string :=
  let requested := strip requested in
  if nonempty requested && negb (lower requested =? "auto") then
    if ref_exists repo_root requested then Ok requested
    else
      let remote_requested := "origin/" +:+ requested in
      if ref_exists repo_root remote_requested then Ok remote_requested
      else Raise RuntimeError
  else detect_base_ref repo_root.

(** The [for branch in branches] loop of [branch_deltas]; [deltas] is the list
    built so far. *)
Fixpoint deltas_loop (repo_root base_ref base_branch_name : string)
    (branches : list string) (deltas : list BranchDelta)
  : result (list BranchDelta) :=
  match branches with
  | [] => Ok deltas
  | branch :: rest =>
      if branch =? base_branch_name then
        deltas_loop repo_root base_ref base_branch_name rest deltas
      else
        out ← run_git repo_root
                ["rev-list"; "--left-right"; "--count";
                 branch +:+ "..." +:+ base_ref] true;
        let parts := split out in
        if negb (List.length parts =? 2)%nat then
          deltas_loop repo_root base_ref base_branch_name rest deltas
        else
          ahead ← int (nth 0 parts "");
          behind ← int (nth 1 parts "");
          deltas_loop repo_root base_ref base_branch_name rest
            (deltas ++ [mkBranchDelta branch ahead behind])
  end.

(** [branch_deltas] *)
Definition branch_deltas (repo_root base_ref : string)
  : result (list BranchDelta) :=
  branches ← list_local_branches repo_root;
  let base_branch_name := normalize_base_branch_name base_ref in
  deltas ← deltas_loop repo_root base_ref base_branch_name branches [];
  Ok (sort_by (fun d1 d2 => key_leb d2 d1) deltas).

(** [is_dirty]: a failing [git status] counts as clean. *)
Definition is_dirty (path : string) : bool :=
  let '(returncode, stdout) := git path ["status"; "--porcelain"] in
  if negb (returncode =? 0)%Z then false else nonempty (strip stdout).

(** The state [collect_worktrees] builds from one block. *)
Definition worktree_state (block : gmap string string) : WorktreeState :=
  let path := default "" (block !! "worktree") in
  let branch_ref := default "" (block !! "branch") in
  let detached := bool_decide (is_Some (block !! "detached")) in
  let prunable := bool_decide (is_Some (block !! "prunable")) in
  let branch := branch_label branch_ref detached in
  let dirty := if nonempty path then is_dirty path else false in
  mkWorktreeState path branch detached prunable dirty.

(** [collect_worktrees] *)
Definition collect_worktrees (repo_root : string) : result (list WorktreeState) :=
  output ← run_git repo_root ["worktree"; "list"; "--porcelain"] true;
  Ok (map worktree_state (parse_worktree_porcelain output)).

(** The [try] block of [main]. *)
Definition analyze (repo_root main_branch : string) : result Report :=
  repo_status ← run_git repo_root ["status"; "-sb"] true;
  base_ref ← choose_base_ref repo_root main_branch;
  let repo_dirty := is_dirty repo_root in
  deltas ← branch_deltas repo_root base_ref;
  worktrees ← collect_worktrees repo_root;
  Ok (mkReport repo_status base_ref deltas worktrees
        (recommendations base_ref repo_dirty deltas worktrees)).

(** The exit status of [main]: RuntimeError is reported and answered 2, any
    other exception leaves [main]. *)
Definition main_status (repo_root main_branch : string) : result Z :=
  match analyze repo_root main_branch with
  | Ok _ => Ok 0%Z
  | Raise RuntimeError => Ok 2%Z
  | Raise e => Raise e
  end.

End Git.

(** ** Sample repositories *)

Definition out_lines (l : list string) : string :=
  String.concat "" (map (fun s => s +:+ String LF "") l).

(** Local branches [feature-a], [feature-b], [main]; [dev] exists on the
    remote only.  [counts] gives the answer of the count query per range. *)
Definition sample_git (counts : string -> string)
    (repo_root : string) (args : list string) : Z * string :=
  match args with
  | [cmd; a1; a2] =>
      if cmd =? "for-each-ref"
      then (0%Z, out_lines ["main"; "feature-b"; "feature-a"])
      else (128%Z, "")
  | [cmd; a1; a2; a3] =>
      if cmd =? "rev-parse" then
        if bool_decide (a3 ∈ ["main"; "feature-a"; "feature-b"; "origin/main"; "origin/dev"])
        then (0%Z, out_lines ["0123abc"]) else (1%Z, "")
      else if cmd =? "rev-list" then (0%Z, out_lines [counts a3])
      else (128%Z, "")
  | _ => (128%Z, "")
  end.

Definition TAB : string := String "009"%char "".

Definition good_counts (range : string) : string :=
  if range =? "feature-a...main" then "3" +:+ TAB +:+ "0"
  else if range =? "feature-b...main" then "2" +:+ TAB +:+ "2"
  else if range =? "feature-a...origin/main" then "3" +:+ TAB +:+ "1"
  else if range =? "feature-b...origin/main" then "0" +:+ TAB +:+ "4"
  else "0" +:+ TAB +:+ "0".

(** The count query answers two tokens that are no numbers for [feature-a]. *)
Definition garbled_counts (range : string) : string :=
  if range =? "feature-a...main" then "x y" else good_counts range.

(** The count query answers a single token for [feature-a]. *)
Definition short_counts (range : string) : string :=
  if range =? "feature-a...main" then "3" else good_counts range.

(** A repository with three worktrees: the root on [main], one detached, one
    whose directory is gone; [git status] reports changes in the second. *)
Definition sample_listing : string :=
  out_lines ["worktree /repo"; "HEAD 0123abc"; "branch refs/heads/main"; "";
             "worktree /repo/wt-a"; "HEAD 0123abd"; "detached"; "";
             "worktree /repo/wt-gone"; "HEAD 0123abe"; "branch refs/heads/feature-a";
             "prunable gitdir file points to non-existent location"].

Definition sample_git_worktrees (repo_root : string) (args : list string)
  : Z * string :=
  if bool_decide (args = ["worktree"; "list"; "--porcelain"]) then (0%Z, sample_listing)
  else if bool_decide (args = ["status"; "--porcelain"]) then
    if repo_root =? "/repo/wt-a" then (0%Z, out_lines [" M notes.txt"])
    else if repo_root =? "/repo/wt-gone" then (128%Z, "")
    else (0%Z, "")
  else if bool_decide (args = ["status"; "-sb"]) then (0%Z, out_lines ["## main"])
  else sample_git good_counts repo_root args.

(** The same repository with a second remote: [upstream/main] resolves too. *)
Definition sample_git_upstream (repo_root : string) (args : list string)
  : Z * string :=
  if bool_decide (args = ["rev-parse"; "--verify"; "--quiet"; "upstream/main"])
  then (0%Z, out_lines ["0123abc"])
  else sample_git good_counts repo_root args.

End GitCoordination.

(* ===================================================================== *)
(** * scripts/git_coordination.py, when [subprocess.run] itself raises *)
(* ===================================================================== *)

(** [GitCoordination] takes every git invocation to complete.  Here
    [subprocess.run] can also raise, which no function of the script catches
    but [main], and [main] only for RuntimeError: OSError when git cannot be
    started (FileNotFoundError, PermissionError), ValueError when its output
    does not decode as text (UnicodeDecodeError). *)
Module GitSubprocess.
Import Py GitCoordination.

Section Run.

(** [subprocess.run(["git", "-C", dir, *args], text=True, capture_output=True,
    check=False)]: the exit status and the standard output, or the exception
    raised. *)
Variable run : string -> list string -> result (Z * string).

(** [run_git] *)
Definition run_git (repo_root : string) (args : list string) (check : bool)
  : result string :=
  proc ← run repo_root args;
  if check && negb (fst proc =? 0)%Z then Raise RuntimeError
  else Ok (strip (snd proc)).

(** [ref_exists] *)
Definition ref_exists (repo_root ref : string) : result bool :=
  proc ← run repo_root ["rev-parse"; "--verify"; "--quiet"; ref];
  Ok (fst proc =? 0)%Z.

(** [list_local_branches] *)
Definition list_local_branches (repo_root : string) : result (list string) :=
  out ← run_git repo_root
          ["for-each-ref"; "--format=%(refname:short)"; "refs/heads"] true;
  Ok (sorted_strs (List.filter (fun l => nonempty l) (map strip (splitlines out)))).

(** The second loop of [detect_base_ref]: the first candidate whose
    [origin/] ref exists. *)
Fixpoint first_remote (repo_root : string) (candidates : list string)
  : result (option string) :=
  match candidates with
  | [] => Ok None
  | candidate :: rest =>
      found ← ref_exists repo_root ("origin/" +:+ candidate);
      if found : bool then Ok (Some ("origin/" +:+ candidate))
      else first_remote repo_root rest
  end.

(** The end of [detect_base_ref]: the branch checked out, if it has a name. *)
Definition current_branch (repo_root : string) : result string :=
  current ← run_git repo_root ["rev-parse"; "--abbrev-ref"; "HEAD"] false;
  if nonempty current && negb (current =? "HEAD") then Ok current
  else Raise RuntimeError.

(** [detect_base_ref] *)
Definition detect_base_ref (repo_root : string) : result string :=
  branches ← list_local_branches repo_root;
  match find (fun c => bool_decide (c ∈ branches)) DEFAULT_MAIN_CANDIDATES with
  | Some candidate => Ok candidate
  | None =>
      remote ← first_remote repo_root DEFAULT_MAIN_CANDIDATES;
      match remote with
      | Some remote_ref => Ok remote_ref
      | None =>
          remote_head ← run_git repo_root
                          ["symbolic-ref"; "--quiet"; "refs/remotes/origin/HEAD"] false;
          if startswith remote_head "refs/remotes/" then
            let candidate := removeprefix remote_head "refs/remotes/" in
            found ← ref_exists repo_root candidate;
            if found : bool then Ok candidate else current_branch repo_root
          else current_branch repo_root
      end
  end.

(** [choose_base_ref] *)
Definition choose_base_ref (repo_root requested : string) : result string :=
  let requested := strip requested in
  if nonempty requested && negb (lower requested =? "auto") then
    found ← ref_exists repo_root requested;
    if found : bool then Ok requested
    else
      let remote_requested := "origin/" +:+ requested in
      found_remote ← ref_exists repo_root remote_requested;
      if found_remote : bool then Ok remote_requested else Raise RuntimeError
  else detect_base_ref repo_root.

(** The [for branch in branches] loop of [branch_deltas]. *)
Fixpoint deltas_loop (repo_root base_ref base_branch_name : string)
    (branches : list string) (deltas : list BranchDelta)
  : result (list BranchDelta) :=
  match branches with
  | [] => Ok deltas
  | branch :: rest =>
      if branch =? base_branch_name then
        deltas_loop repo_root base_ref base_branch_name rest deltas
      else
        out ← run_git repo_root
                ["rev-list"; "--left-right"; "--count";
                 branch +:+ "..." +:+ base_ref] true;
        let parts := split out in
        if negb (List.length parts =? 2)%nat then
          deltas_loop repo_root base_ref base_branch_name rest deltas
        else
          ahead ← int (nth 0 parts "");
          behind ← int (nth 1 parts "");
          deltas_loop repo_root base_ref base_branch_name rest
            (deltas ++ [mkBranchDelta branch ahead behind])
  end.

(** [branch_deltas] *)
Definition branch_deltas (repo_root base_ref : string)
  : result (list BranchDelta) :=
  branches ← list_local_branches repo_root;
  let base_branch_name := normalize_base_branch_name base_ref in
  deltas ← deltas_loop repo_root base_ref base_branch_name branches [];
  Ok (sort_by (fun d1 d2 => key_leb d2 d1) deltas).

(** [is_dirty]: a failing [git status] counts as clean. *)
Definition is_dirty (path : string) : result bool :=
  proc ← run path ["status"; "--porcelain"];
  if negb (fst proc =? 0)%Z then Ok false else Ok (nonempty (strip (snd proc))).

(** The state [collect_worktrees] builds from one block. *)
Definition worktree_state (block : gmap string string) : result WorktreeState :=
  let path := default "" (block !! "worktree") in
  let branch_ref := default "" (block !! "branch") in
  let detached := bool_decide (is_Some (block !! "detached")) in
  let prunable := bool_decide (is_Some (block !! "prunable")) in
  let branch := branch_label branch_ref detached in
  dirty ← (if nonempty path then is_dirty path else Ok false);
  Ok (mkWorktreeState path branch detached prunable dirty).

(** The [for block in blocks] loop of [collect_worktrees]. *)
Fixpoint worktree_states (blocks : list (gmap string string))
  : result (list WorktreeState) :=
  match blocks with
  | [] => Ok []
  | block :: rest =>
      state ← worktree_state block;
      states ← worktree_states rest;
      Ok (state :: states)
  end.

(** [collect_worktrees] *)
Definition collect_worktrees (repo_root : string) : result (list WorktreeState) :=
  output ← run_git repo_root ["worktree"; "list"; "--porcelain"] true;
  worktree_states (parse_worktree_porcelain output).

(** The [try] block of [main]. *)
Definition analyze (repo_root main_branch : string) : result Report :=
  repo_status ← run_git repo_root ["status"; "-sb"] true;
  base_ref ← choose_base_ref repo_root main_branch;
  repo_dirty ← is_dirty repo_root;
  deltas ← branch_deltas repo_root base_ref;
  worktrees ← collect_worktrees repo_root;
  Ok (mkReport repo_status base_ref deltas worktrees
        (recommendations base_ref repo_dirty deltas worktrees)).

(** The exit status of [main]: RuntimeError is reported and answered 2, any
    other exception leaves [main]. *)
Definition main_status (repo_root main_branch : string) : result Z :=
  match analyze repo_root main_branch with
  | Ok _ => Ok 0%Z
  | Raise RuntimeError => Ok 2%Z
  | Raise e => Raise e
  end.

End Run.



End GitSubprocess.

(* ===================================================================== *)
(** * scripts/session_monitor.py *)
(* ===================================================================== *)

Module SessionMonitor.
Import Py.

(** ** Values decoded by [json.loads] *)

Inductive json : Type :=
| JNull
| JBool (b : bool)
| JInt (z : Z)
| JFloat (f : PrimFloat.float)
| JStr (s : string)
| JList (l : list json)
| JDict (d : list (string * json)).

(** [bool(v)] *)
Definition truthy (v : json) : bool :=
  match v with
  | JNull => false
  | JBool b => b
  | JInt z => negb (z =? 0)%Z
  | JFloat f => negb (PrimFloat.eqb f PrimFloat.zero)
  | JStr s => nonempty s
  | JList l => negb (bool_decide (List.length l = 0%nat))
  | JDict d => negb (bool_decide (List.length d = 0%nat))
  end.

(** [d.get(key)] on a dict given by its items. *)
Fixpoint lookup_key (d : list (string * json)) (key : string) : option json :=
  match d with
  | [] => None
  | (k, v) :: rest => if k =? key then Some v else lookup_key rest key
  end.

(** [d.get(key, default)] *)
Definition dict_get (d : list (string * json)) (key : string) (default : json) : json :=
  match lookup_key d key with
  | Some v => v
  | None => default
  end.

(** [x if isinstance(x, dict) else {}] *)
Definition as_dict (v : json) : list (string * json) :=
  match v with JDict d => d | _ => [] end.

(** [v == s] for a string literal [s] *)
Definition is_str (v : json) (s : string) : bool :=
  match v with JStr t => t =? s | _ => false end.

(** [a or b] *)
Definition py_or (a b : json) : json := if truthy a then a else b.

Record SessionRecord : Type := mkSessionRecord {
  session_id : string;
  started_at : string;
  cwd : string;
  role : string;
  parent_thread_id : string;
  depth : string;
  git_branch : string;
  log_path : string
}.

(** ** The file system as one poll sees it *)

(** A log file.  Offsets are byte offsets ([stat().st_size], [seek],
    [tell]); the text is taken to hold one byte per character, so that a
    position in the text is the offset in the file. *)
Record file : Type := mkFile {
  data : string;            (* the content *)
  readable : bool;          (* [open] succeeds (no OSError) *)
  mtime_in_window : bool    (* modified within the activity window *)
}.

Record world : Type := mkWorld {
  files : gmap string file;        (* the paths that exist *)
  sessions_logs : list string;     (* the .jsonl files under sessions/, as rglob lists them *)
  archived_logs : list string      (* the .jsonl files of archived_sessions/ *)
}.

(** [iter_log_files]: a missing directory lists nothing. *)
Definition iter_log_files (w : world) : list string :=
  sessions_logs w ++ archived_logs w.

(** [is_active]: [stat] on a missing path raises OSError, answered False. *)
Definition is_active (w : world) (path : string) : bool :=
  match files w !! path with
  | Some f => mtime_in_window f
  | None => false
  end.

(** ** Paths: [os.path.commonpath] on two POSIX paths *)

Fixpoint split_on (sep : ascii) (s : string) : list string :=
  match s with
  | "" => [""]
  | String c r =>
      if Ascii.eqb c sep then "" :: split_on sep r
      else match split_on sep r with
           | l :: ls => String c l :: ls
           | [] => [String c ""]
           end
  end.

Definition components (p : string) : list string :=
  List.filter (fun c => nonempty c && negb (c =? ".")) (split_on "/"%char p).

Fixpoint common_prefix (l1 l2 : list string) : list string :=
  match l1, l2 with
  | x :: t1, y :: t2 => if x =? y then x :: common_prefix t1 t2 else []
  | _, _ => []
  end.

Definition commonpath (p1 p2 : string) : result string :=
  let abs1 := startswith p1 "/" in
  let abs2 := startswith p2 "/" in
  if Bool.eqb abs1 abs2 then
    Ok ((if abs1 then "/" else "") +:+ join "/" (common_prefix (components p1) (components p2)))
  else Raise ValueError.

(** A path component: not empty, no separator in it. *)
Fixpoint no_slash (s : string) : bool :=
  match s with
  | "" => true
  | String c r => negb (Ascii.eqb c "/"%char) && no_slash r
  end.

Definition is_component (c : string) : bool := nonempty c && no_slash c.

(** What follows the first component of a joined path. *)
Definition after_first (l : list string) : string :=
  match l with [] => "" | _ => "/" +:+ join "/" l end.

(** ** Summaries *)

(** [normalize_whitespace] *)
Definition normalize_whitespace (text : string) : string := join " " (split text).

(** [truncate] *)
Definition truncate (text : string) (limit : Z) : string :=
  if (Z.of_nat (String.length text) <=? limit)%Z then text
  else slice_to text (limit - 3) +:+ "...".

Section Decoders.

(** [json.loads] on one line: [None] stands for JSONDecodeError. *)
Variable json_loads : string -> option json.

(** [str(v)] and f-string interpolation of a float, list or dict. *)
Variable repr : json -> string.

(** [datetime.fromisoformat(s).astimezone(timezone.utc)] as microseconds since
    the epoch; [None] stands for ValueError. *)
Variable fromisoformat : string -> option Z.

(** [os.path.realpath] *)
Variable realpath : string -> string.

(** [str(v)] *)
Definition py_str (v : json) : string :=
  match v with
  | JNull => "None"
  | JBool b => str_of_bool b
  | JInt z => str_of_Z z
  | JStr s => s
  | _ => repr v
  end.

(** [parse_iso] *)
Definition parse_iso (ts : string) : result Z :=
  let normalized := replace_char "Z"%char "+00:00" ts in
  match fromisoformat normalized with
  | Some t => Ok t
  | None => Raise ValueError
  end.

(** [obj.get]: only a dict has it. *)
Definition attr_get (obj : json) : result (list (string * json)) :=
  match obj with
  | JDict d => Ok d
  | _ => Raise AttributeError
  end.

(** The [for line in handle] loop of [read_session_meta]. *)
Fixpoint scan_session_meta (lines : list string)
  : result (option (list (string * json))) :=
  match lines with
  | [] => Ok None
  | line :: rest =>
      let line := strip line in
      if negb (nonempty line) then scan_session_meta rest
      else match json_loads line with
           | None => scan_session_meta rest
           | Some obj =>
               d ← attr_get obj;
               if is_str (dict_get d "type" JNull) "session_meta" then
                 match dict_get d "payload" (JDict []) with
                 | JDict payload => Ok (Some payload)
                 | _ => scan_session_meta rest
                 end
               else scan_session_meta rest
           end
  end.

(** [read_session_meta] *)
Definition read_session_meta (w : world) (log_path : string)
  : result (option (list (string * json))) :=
  match files w !! log_path with
  | Some f =>
      if readable f then scan_session_meta (readlines (data f)) else Ok None
  | None => Ok None
  end.

(** [to_session_record] *)
Definition to_session_record (log_path : string) (meta : list (string * json))
  : option SessionRecord :=
  let cwd := py_str (dict_get meta "cwd" (JStr "")) in
  let session_id := strip (py_str (dict_get meta "id" (JStr ""))) in
  let started_at := strip (py_str (dict_get meta "timestamp" (JStr ""))) in
  if negb (nonempty session_id) || negb (nonempty started_at) || negb (nonempty cwd)
  then None
  else
    let source := as_dict (dict_get meta "source" (JDict [])) in
    let subagent := as_dict (dict_get source "subagent" (JDict [])) in
    let thread_spawn := as_dict (dict_get subagent "thread_spawn" (JDict [])) in
    let role := if truthy (JDict thread_spawn) then "subagent" else "primary" in
    let parent_thread_id :=
      py_str (py_or (dict_get thread_spawn "parent_thread_id" (JStr "")) (JStr "")) in
    let depth := py_str (py_or (dict_get thread_spawn "depth" (JStr "")) (JStr "")) in
    let git_obj := as_dict (dict_get meta "git" (JDict [])) in
    let git_branch := py_str (py_or (dict_get git_obj "branch" (JStr "")) (JStr "")) in
    Some (mkSessionRecord session_id started_at cwd role parent_thread_id depth
            git_branch log_path).

(** [is_within_root]: ValueError from [commonpath] is answered False. *)
Definition is_within_root (root path : string) : bool :=
  let resolved_root := realpath root in
  let resolved_path := realpath path in
  match commonpath resolved_root resolved_path with
  | Ok common => common =? resolved_root
  | Raise _ => false
  end.

(** The [for path in iter_log_files(...)] loop of [discover_sessions]. *)
Fixpoint collect_sessions (w : world) (project_root : string) (paths : list string)
  : result (list SessionRecord) :=
  match paths with
  | [] => Ok []
  | path :: rest =>
      meta ← read_session_meta w path;
      match meta with
      | None => collect_sessions w project_root rest
      | Some meta =>
          if negb (truthy (JDict meta)) then collect_sessions w project_root rest
          else match to_session_record path meta with
               | None => collect_sessions w project_root rest
               | Some record =>
                   if negb (is_within_root project_root (cwd record))
                   then collect_sessions w project_root rest
                   else results ← collect_sessions w project_root rest;
                        Ok (record :: results)
               end
      end
  end.

(** The keys [sorted] computes, one per record, before it compares any. *)
Fixpoint sort_keys (records : list SessionRecord)
  : result (list (Z * SessionRecord)) :=
  match records with
  | [] => Ok []
  | r :: rest =>
      k ← parse_iso (started_at r);
      ks ← sort_keys rest;
      Ok ((k, r) :: ks)
  end.

(** [discover_sessions] *)
Definition discover_sessions (w : world) (project_root : string)
  : result (list SessionRecord) :=
  results ← collect_sessions w project_root (iter_log_files w);
  keyed ← sort_keys results;
  Ok (map snd (sort_by (fun a b => (fst b <=? fst a)%Z) keyed)).

(** [extract_message_text]: the [for item in content] loop. *)
Fixpoint first_text (content : list json) : string :=
  match content with
  | [] => ""
  | JDict item :: rest =>
      match lookup_key item "text" with
      | Some (JStr text) =>
          if nonempty (strip text) then normalize_whitespace text else first_text rest
      | _ => first_text rest
      end
  | _ :: rest => first_text rest
  end.

Definition extract_message_text (payload : list (string * json)) : string :=
  match dict_get payload "content" (JList []) with
  | JList content => first_text content
  | _ => ""
  end.

(** [summarize_event] *)
Definition summarize_event (obj : json) : result string :=
  d ← attr_get obj;
  let event_type := dict_get d "type" JNull in
  let payload := dict_get d "payload" (JDict []) in
  if is_str event_type "session_meta" then
    match payload with
    | JDict payload =>
        Ok ("session start cwd=" +:+ py_str (dict_get payload "cwd" (JStr "")))
    | _ => Ok "session start"
    end
  else if is_str event_type "turn_context" then
    match payload with
    | JDict payload => Ok ("turn cwd=" +:+ py_str (dict_get payload "cwd" (JStr "")))
    | _ => Ok "turn context"
    end
  else if is_str event_type "response_item" then
    match payload with
    | JDict payload =>
        let item_type := dict_get payload "type" JNull in
        if is_str item_type "function_call" then
          Ok ("tool call " +:+ py_str (dict_get payload "name" (JStr "unknown")))
        else if is_str item_type "function_call_output" then Ok "tool output"
        else if is_str item_type "reasoning" then Ok "reasoning item"
        else if is_str item_type "message" then
          let role := py_str (dict_get payload "role" (JStr "unknown")) in
          let snippet := extract_message_text payload in
          if nonempty snippet
          then Ok ("message " +:+ role +:+ ": " +:+ truncate snippet 100)
          else Ok ("message " +:+ role)
        else Ok ("response item " +:+ py_str item_type)
    | _ => Ok "response item"
    end
  else if is_str event_type "event_msg" then
    match payload with
    | JDict payload =>
        let msg_type := dict_get payload "type" (JStr "") in
        if is_str msg_type "token_count" then Ok ""
        else if truthy msg_type then Ok ("event " +:+ py_str msg_type)
        else Ok "event message"
    | _ => Ok "event message"
    end
  else if truthy event_type then Ok (py_str event_type)
  else Ok "".

(** ** The tail engine of [command_follow] *)

(** What is left of a file's text after [handle.seek(n)]: nothing when [n] is
    past the end. *)
Fixpoint skip (n : nat) (s : string) : string :=
  match n, s with
  | O, _ => s
  | S n', String _ r => skip n' r
  | S _, "" => ""
  end.

(** [handle.tell()] once the handle, positioned at [off], has been read to the
    end: the end of the file, or [off] itself when that lies past the end. *)
Definition tell_at_end (off : nat) (text : string) : nat :=
  Nat.max off (String.length text).

(** The line printed for one event. *)
Definition follow_line (record : option SessionRecord) (path ts summary : string)
  : string :=
  match record with
  | Some record =>
      ts +:+ " | " +:+ session_id record +:+ " | " +:+ role record +:+ " | "
      +:+ cwd record +:+ " | " +:+ summary +:+ " | " +:+ path
  | None => ts +:+ " | unknown | " +:+ summary +:+ " | " +:+ path
  end.

(** The [for line in handle] loop of [command_follow]: the lines printed, and
    whether the loop ran to its end or an exception left it. *)
Fixpoint tail_lines (record : option SessionRecord) (path : string)
    (lines : list string) : list string * result unit :=
  match lines with
  | [] => ([], Ok tt)
  | line :: rest =>
      match json_loads line with
      | None => tail_lines record path rest
      | Some obj =>
          match summarize_event obj with
          | Raise e => ([], Raise e)
          | Ok summary =>
              if negb (nonempty summary) then tail_lines record path rest
              else
                let ts := py_str (dict_get (as_dict obj) "timestamp" (JStr "")) in
                let '(printed, r) := tail_lines record path rest in
                (follow_line record path ts summary :: printed, r)
          end
      end
  end.

(** The body of [with path.open(...) as handle]: seek, read to the end, and
    the position to store. *)
Definition tail_file (cache : gmap string SessionRecord) (path : string)
    (f : file) (off : nat) : list string * result nat :=
  let '(printed, r) := tail_lines (cache !! path) path (readlines (skip off (data f))) in
  (printed, r ≫= fun _ => Ok (tell_at_end off (data f))).

(** One turn of [for path in list(offsets)]. *)
Definition poll_path (w : world) (cache : gmap string SessionRecord)
    (path : string) (offsets : gmap string nat)
  : list string * result (gmap string nat) :=
  match files w !! path with
  | None => ([], Ok (delete path offsets))
  | Some f =>
      if readable f then
        match offsets !! path with
        | None => ([], Raise KeyError)
        | Some off =>
            let '(printed, r) := tail_file cache path f off in
            (printed, r ≫= fun pos => Ok (<[path := pos]> offsets))
        end
      else ([], Ok (delete path offsets))
  end.

Fixpoint poll_paths (w : world) (cache : gmap string SessionRecord)
    (paths : list string) (offsets : gmap string nat)
  : list string * result (gmap string nat) :=
  match paths with
  | [] => ([], Ok offsets)
  | path :: rest =>
      match poll_path w cache path offsets with
      | (printed, Ok offsets1) =>
          let '(printed', r) := poll_paths w cache rest offsets1 in
          (printed ++ printed', r)
      | (printed, Raise e) => (printed, Raise e)
      end
  end.

(** Lines 403-429: every tracked path is visited once. *)
Definition poll_offsets (w : world) (cache : gmap string SessionRecord)
    (offsets : gmap string nat) : list string * result (gmap string nat) :=
  poll_paths w cache (map_to_list offsets).*1 offsets.

(** Lines 393-401: an active log seen for the first time starts at its end,
    or at 0 with [--from-start]. *)
Definition track_new (w : world) (from_start : bool)
    (sessions : list SessionRecord) (offsets : gmap string nat)
  : gmap string nat :=
  fold_left
    (fun offs record =>
       let path := log_path record in
       if negb (is_active w path) then offs
       else match offs !! path, files w !! path with
            | None, Some f =>
                <[path := if from_start then O else String.length (data f)]> offs
            | _, _ => offs
            end)
    sessions offsets.

(** One turn of the [while True] loop of [command_follow]. *)
Definition follow_cycle (w : world) (project_root : string) (recent : Z)
    (from_start : bool) (offsets : gmap string nat)
  : list string * result (gmap string nat) :=
  match discover_sessions w project_root with
  | Raise e => ([], Raise e)
  | Ok found =>
      let sessions := firstn (Z.to_nat (Z.max recent 1)) found in
      let cache :=
        fold_left (fun m record => <[log_path record := record]> m) sessions ∅ in
      poll_offsets w cache (track_new w from_start sessions offsets)
  end.

(** ** last_activity *)

(** The [for line in handle] loop of [last_activity]; [last_ts] and
    [last_summary] are the two variables it updates. *)
Fixpoint activity_loop (lines : list string) (last_ts last_summary : string)
  : result (string * string) :=
  match lines with
  | [] => Ok (last_ts, last_summary)
  | line :: rest =>
      let line := strip line in
      if negb (nonempty line) then activity_loop rest last_ts last_summary
      else match json_loads line with
           | None => activity_loop rest last_ts last_summary
           | Some obj =>
               summary ← summarize_event obj;
               if negb (nonempty summary) then activity_loop rest last_ts last_summary
               else
                 let ts := py_str (dict_get (as_dict obj) "timestamp" (JStr "")) in
                 activity_loop rest (if nonempty ts then ts else last_ts) summary
           end
  end.

(** [last_activity]: the pair (timestamp, summary); a file that cannot be
    opened gives two empty strings. *)
Definition last_activity (w : world) (log_path : string) : result (string * string) :=
  match files w !! log_path with
  | Some f => if readable f then activity_loop (readlines (data f)) "" "" else Ok ("", "")
  | None => Ok ("", "")
  end.

(** A line [read_session_meta] passes over: blank, not decodable, an object
    of another type, or a session_meta whose payload is no object. *)
Definition passes_over (line : string) : bool :=
  let line := strip line in
  negb (nonempty line)
  || match json_loads line with
     | None => true
     | Some (JDict d) =>
         negb (is_str (dict_get d "type" JNull) "session_meta")
         || match dict_get d "payload" (JDict []) with
            | JDict _ => false
            | _ => true
            end
     | Some _ => false
     end.

(** ** The reports of [inventory] and [activity] with [--json]

    The values handed to [json.dumps]; [json.loads] reads them back as they
    are. *)

(** [sessions[: max(args.recent, 0)]] *)
Definition recent_sessions (recent : Z) (sessions : list SessionRecord)
  : list SessionRecord :=
  firstn (Z.to_nat (Z.max recent 0)) sessions.

(** One row of [command_inventory]. *)
Definition inventory_row (w : world) (record : SessionRecord) : json :=
  JDict [("session_id", JStr (session_id record));
         ("started_at", JStr (started_at record));
         ("role", JStr (role record));
         ("parent_thread_id", JStr (parent_thread_id record));
         ("depth", JStr (depth record));
         ("git_branch", JStr (git_branch record));
         ("cwd", JStr (cwd record));
         ("log_path", JStr (log_path record));
         ("active", JBool (is_active w (log_path record)))].

(** What [command_inventory] prints with [--json]. *)
Definition inventory_report (w : world) (project_root : string) (recent : Z)
  : result json :=
  sessions ← discover_sessions w project_root;
  Ok (JDict [("count", JInt (Z.of_nat (List.length sessions)));
             ("recent", JList (map (inventory_row w) (recent_sessions recent sessions)))]).

(** One row of [command_activity], for the last activity found. *)
Definition activity_row (record : SessionRecord) (activity : string * string) : json :=
  JDict [("session_id", JStr (session_id record));
         ("started_at", JStr (started_at record));
         ("cwd", JStr (cwd record));
         ("role", JStr (role record));
         ("git_branch", JStr (git_branch record));
         ("last_timestamp", JStr (fst activity));
         ("last_summary", JStr (snd activity));
         ("log_path", JStr (log_path record))].

(** The [for record in recent] loop of [command_activity]. *)
Fixpoint activity_rows (w : world) (records : list SessionRecord)
  : result (list json) :=
  match records with
  | [] => Ok []
  | record :: rest =>
      activity ← last_activity w (log_path record);
      rows ← activity_rows w rest;
      Ok (activity_row record activity :: rows)
  end.

(** What [command_activity] prints with [--json]. *)
Definition activity_report (w : world) (project_root : string) (recent : Z)
  : result json :=
  sessions ← discover_sessions w project_root;
  rows ← activity_rows w (recent_sessions recent sessions);
  Ok (JDict [("count", JInt (Z.of_nat (List.length sessions)));
             ("activity", JList rows)]).

(** ** Lines of a log, as the tail engine takes them *)

(** The line does not decode, or decodes to an object. *)
Definition well_shaped (line : string) : bool :=
  match json_loads line with
  | Some (JDict _) | None => true
  | Some _ => false
  end.

(** The line decodes and its summary is not empty. *)
Definition emits (line : string) : bool :=
  match json_loads line with
  | Some obj =>
      match summarize_event obj with
      | Ok summary => nonempty summary
      | Raise _ => false
      end
  | None => false
  end.

End Decoders.

(** ** print_table

    The widths are computed as in git_coordination.py; the header and the
    separator are built before anything is printed, and a row is printed
    over its own cells, [range(len(row))].  [None] stands for IndexError. *)
Definition print_table (headers : list string) (rows : list (list string))
  : list string * option unit :=
  match rows with
  | [] => (["(no rows)"], Some tt)
  | _ =>
      match GitCoordination.column_widths rows (map String.length headers) with
      | None => ([], None)
      | Some widths =>
          let n := List.length headers in
          match GitCoordination.padded_line n headers widths,
                GitCoordination.separator_line n widths with
          | Some header_line, Some separator =>
              let '(printed, r) :=
                GitCoordination.print_rows (fun row => List.length row) rows widths in
              (header_line :: separator :: printed, r)
          | _, _ => ([], None)
          end
      end
  end.

(** ** Sample logs *)

Definition DQ : string := String (ascii_of_nat 34) "".
Definition quoted (s : string) : string := DQ +:+ s +:+ DQ.
Definition NL : string := String LF "".

(** A [session_meta] line with the given timestamp and working directory. *)
Definition meta_line (id ts dir : string) : string :=
  "{" +:+ quoted "type" +:+ ":" +:+ quoted "session_meta" +:+ ","
  +:+ quoted "payload" +:+ ":{" +:+ quoted "id" +:+ ":" +:+ quoted id +:+ ","
  +:+ quoted "timestamp" +:+ ":" +:+ quoted ts +:+ ","
  +:+ quoted "cwd" +:+ ":" +:+ quoted dir +:+ "}}".

Definition meta_value (id ts dir : string) : json :=
  JDict [("type", JStr "session_meta");
         ("payload", JDict [("id", JStr id); ("timestamp", JStr ts);
                            ("cwd", JStr dir)])].

(** A [turn_context] line. *)
Definition turn_line (ts dir : string) : string :=
  "{" +:+ quoted "timestamp" +:+ ":" +:+ quoted ts +:+ ","
  +:+ quoted "type" +:+ ":" +:+ quoted "turn_context" +:+ ","
  +:+ quoted "payload" +:+ ":{" +:+ quoted "cwd" +:+ ":" +:+ quoted dir +:+ "}}".

Definition turn_value (ts dir : string) : json :=
  JDict [("timestamp", JStr ts); ("type", JStr "turn_context");
         ("payload", JDict [("cwd", JStr dir)])].

(** A token-count event: it has no summary. *)
Definition token_line : string :=
  "{" +:+ quoted "type" +:+ ":" +:+ quoted "event_msg" +:+ ","
  +:+ quoted "payload" +:+ ":{" +:+ quoted "type" +:+ ":" +:+ quoted "token_count"
  +:+ "}}".

Definition token_value : json :=
  JDict [("type", JStr "event_msg"); ("payload", JDict [("type", JStr "token_count")])].

(** What [json.loads] answers on the sample lines; any other text stands for
    a line that does not decode. *)
Definition sample_table : list (string * json) :=
  [ (meta_line "s-1" "2024-05-01T10:00:00Z" "/x/proj", 
     meta_value "s-1" "2024-05-01T10:00:00Z" "/x/proj");
    (meta_line "s-2" "yesterday" "/x/proj/sub",
     meta_value "s-2" "yesterday" "/x/proj/sub");
    (turn_line "2024-05-01T10:00:05Z" "/x/proj",
     turn_value "2024-05-01T10:00:05Z" "/x/proj");
    (token_line, token_value);
    ("[]", JList []);
    ("42", JInt 42) ].

Definition sample_loads (line : string) : option json :=
  snd <$> List.find (fun kv => fst kv =? strip line) sample_table.

Definition sample_repr (v : json) : string := "<repr>".

Definition sample_fromisoformat (s : string) : option Z :=
  if s =? "2024-05-01T10:00:00+00:00" then Some 1714557600000000%Z else None.

Definition sample_realpath (p : string) : string := p.

Definition log_a : string := "/home/u/.codex/sessions/a.jsonl".
Definition log_b : string := "/home/u/.codex/sessions/b.jsonl".

Definition text_a : string :=
  meta_line "s-1" "2024-05-01T10:00:00Z" "/x/proj" +:+ NL.

Definition sample_world (files : list (string * string)) : world :=
  mkWorld (list_to_map (map (fun pd => (fst pd, mkFile (snd pd) true true)) files))
          (map fst files) [].

Definition text_b : string := meta_line "s-2" "yesterday" "/x/proj/sub" +:+ NL.

(** ** Lines appended between two polls *)

(** A line body: no line terminator inside. *)
Fixpoint no_newline (s : string) : bool :=
  match s with
  | "" => true
  | String c r => negb (Ascii.eqb c LF) && negb (Ascii.eqb c CR) && no_newline r
  end.

(** The text of complete lines: each body followed by LF. *)
Definition complete_lines (bodies : list string) : string :=
  fold_right (fun b rest => b +:+ NL +:+ rest) "" bodies.

End SessionMonitor.

(* ===================================================================== *)
(** * scripts/git_coordination.py: the report as JSON *)
(* ===================================================================== *)

Module GitCoordinationJson.
Import Py GitCoordination.
Module J := SessionMonitor.

(** One item of ["branch_deltas"] in the payload of [as_json]. *)
Definition delta_json (d : BranchDelta) : J.json :=
  J.JDict [("branch", J.JStr (branch d));
           ("ahead_of_base", J.JInt (ahead_of_base d));
           ("behind_base", J.JInt (behind_base d));
           ("category", J.JStr (categorize_branch d))].

(** One item of ["worktrees"] in the payload of [as_json]. *)
Definition worktree_json (w : WorktreeState) : J.json :=
  J.JDict [("path", J.JStr (path w));
           ("branch", J.JStr (wt_branch w));
           ("detached", J.JBool (detached w));
           ("prunable", J.JBool (prunable w));
           ("dirty", J.JBool (dirty w))].

(** The [payload] of [as_json]: the value that [json.dumps] writes, and that
    [json.loads] reads back as it is (strings, integers, booleans, lists and
    dicts with string keys). *)
Definition as_json_payload (base_ref repo_status : string)
    (deltas : list BranchDelta) (worktrees : list WorktreeState)
    (recs : list string) : J.json :=
  J.JDict [("base_ref", J.JStr base_ref);
           ("repo_root_status", J.JStr repo_status);
           ("branch_deltas", J.JList (map delta_json deltas));
           ("worktrees", J.JList (map worktree_json worktrees));
           ("recommendations", J.JList (map J.JStr recs))].

(** What [main] prints with [--json], before [json.dumps]. *)
Definition report_json (r : Report) : J.json :=
  as_json_payload (report_base_ref r) (report_status r) (report_deltas r)
    (report_worktrees r) (report_recs r).

End GitCoordinationJson.

(* ===================================================================== *)
(** * scripts/heartbeat_monitor.py *)
(* ===================================================================== *)

Module HeartbeatMonitor.
Import Py.

Record ActiveSession : Type := mkActiveSession {
  session_id : string;
  role : string;
  branch : string;
  parent_thread_id : string;
  started_at : string;
  last_timestamp : string;
  last_summary : string;
  log_path : string
}.

(** The dict built by [normalize_topology]. *)
Record Topology : Type := mkTopology {
  base_ref : string;
  root_dirty : bool;
  dirty_worktrees : list string;
  prunable_worktrees : list string;
  diverged : list string
}.

#[global] Instance Topology_eq_dec : EqDecision Topology.
Proof. solve_decision. Defined.

(** A printed line: every [print] of the script writes
    [<timestamp> | <kind> | <fields>]. *)
Record Line : Type := mkLine {
  line_ts : string;
  line_kind : string;
  line_fields : string
}.

Definition render (l : Line) : string :=
  line_ts l +:+ " | " +:+ line_kind l +:+ " | " +:+ line_fields l.

Definition of_kind (kind : string) (out : list Line) : list Line :=
  List.filter (fun l => line_kind l =? kind) out.

(** [summarize_roles] *)
Definition summarize_roles (active : list ActiveSession) : nat * nat :=
  (List.length (List.filter (fun item => role item =? "primary") active),
   List.length (List.filter (fun item => role item =? "subagent") active)).

(** ** emit_session_delta *)

Definition set_of (ids : list string) : gset string := list_to_set ids.

(** [sorted(s)] for a set of strings *)
Definition sorted_set (s : gset string) : list string := sorted_strs (elements s).

(** [','.join(l) if l else '-'] *)
Definition join_or_dash (l : list string) : string :=
  match l with [] => "-" | _ => join "," l end.

Definition delta_line (ts : string) (total : nat) (added removed : list string) : Line :=
  mkLine ts "delta.sessions"
    ("total=" +:+ str_of_nat total +:+ " | added=" +:+ join_or_dash added
     +:+ " | removed=" +:+ join_or_dash removed).

Definition detail_line (ts : string) (item : ActiveSession) : Line :=
  mkLine ts "delta.sessions.detail"
    (session_id item +:+ " | role=" +:+ role item +:+ " | branch=" +:+ branch item
     +:+ " | started=" +:+ started_at item +:+ " | last=" +:+ last_timestamp item).

(** [{item.session_id: item for item in active}]: a later item replaces an
    earlier one with the same id. *)
Definition active_by_id (active : list ActiveSession) : gmap string ActiveSession :=
  fold_left (fun m item => <[session_id item := item]> m) active ∅.

(** The [for sid in added[:8]] loop; [by_id[sid]] raises KeyError on a
    missing id. *)
Fixpoint detail_lines (ts : string) (by_id : gmap string ActiveSession)
    (sids : list string) : list Line * result unit :=
  match sids with
  | [] => ([], Ok tt)
  | sid :: rest =>
      match by_id !! sid with
      | None => ([], Raise KeyError)
      | Some item =>
          let '(printed, r) := detail_lines ts by_id rest in
          (detail_line ts item :: printed, r)
      end
  end.

Definition emit_session_delta (ts : string) (prev_ids cur_ids : list string)
    (active : list ActiveSession) : list Line * result unit :=
  let prev := set_of prev_ids in
  let cur := set_of cur_ids in
  let added := sorted_set (cur ∖ prev) in
  let removed := sorted_set (prev ∖ cur) in
  let '(details, r) := detail_lines ts (active_by_id active) (firstn 8 added) in
  (delta_line ts (List.length cur_ids) added removed :: details, r).

(** ** emit_heartbeat *)

Definition heartbeat_line (ts : string) (active : list ActiveSession)
    (topology : Topology) : Line :=
  let '(primary, subagent) := summarize_roles active in
  mkLine ts "heartbeat"
    ("active=" +:+ str_of_nat (List.length active)
     +:+ " | primary=" +:+ str_of_nat primary
     +:+ " | subagent=" +:+ str_of_nat subagent
     +:+ " | base=" +:+ base_ref topology
     +:+ " | root_dirty=" +:+ str_of_bool (root_dirty topology)
     +:+ " | dirty_worktrees=" +:+ str_of_nat (List.length (dirty_worktrees topology))
     +:+ " | diverged=" +:+ str_of_nat (List.length (diverged topology))).

Definition hot_piece (item : ActiveSession) : string :=
  let marker := if role item =? "primary" then "p" else "s" in
  slice_to (session_id item) 8 +:+ ":" +:+ marker +:+ ":" +:+ branch item.

Definition emit_heartbeat (ts : string) (active : list ActiveSession)
    (topology : Topology) : list Line :=
  let hot := firstn 5 active in
  [heartbeat_line ts active topology;
   mkLine ts "heartbeat.sessions"
     (match hot with
      | [] => "none"
      | _ => join ", " (map hot_piece hot)
      end)].

(** ** main *)

Record Args : Type := mkArgs {
  once : bool;
  poll_interval : Q;
  heartbeat_interval : Q
}.

(** The three variables [main] carries from one turn of its loop to the next. *)
Record State : Type := mkState {
  prev_session_ids : list string;
  prev_topology : option Topology;
  next_heartbeat : Q
}.

Definition initial_state : State := mkState [] None 0%Q.

(** The outcome of the [try] block: both loads succeeded, or one raised. *)
Inductive Loaded : Type :=
| LoadFailed (exc : string)
| LoadOk (active : list ActiveSession) (topology : Topology).

(** What one turn of the loop observes: [now_utc()], the two loads, and the
    reading of [time.monotonic()] taken after them. *)
Record Cycle : Type := mkCycle {
  cycle_ts : string;
  loaded : Loaded;
  now_mono : Q
}.

(** How a turn ends: the loop goes on, [main] returns, or an exception that
    nothing catches leaves it. *)
Inductive outcome : Type :=
| Continue (st : State)
| Exit (status : Z)
| Crash (e : exn).

(** [max(a, b)] *)
Definition py_max (a b : Q) : Q := if Qle_bool b a then a else b.

Section Main.

(** [json.dumps(topology, sort_keys=True)] *)
Variable dumps : Topology -> string.

Variable args : Args.

(** [if session_ids != prev_session_ids: ...] *)
Definition sessions_step (ts : string) (st : State) (active : list ActiveSession)
  : list Line * result (list string) :=
  let session_ids := map session_id active in
  if bool_decide (session_ids <> prev_session_ids st) then
    let '(printed, r) := emit_session_delta ts (prev_session_ids st) session_ids active in
    (printed, r ≫= fun _ => Ok session_ids)
  else ([], Ok (prev_session_ids st)).

(** [if prev_topology != topology: ...] *)
Definition topology_step (ts : string) (st : State) (topology : Topology)
  : list Line * option Topology :=
  if bool_decide (prev_topology st <> Some topology) then
    ([mkLine ts "delta.git" (dumps topology)], Some topology)
  else ([], prev_topology st).

(** [if now_mono >= next_heartbeat: ...] *)
Definition heartbeat_step (ts : string) (st : State) (now : Q)
    (active : list ActiveSession) (topology : Topology) : list Line * Q :=
  if Qle_bool (next_heartbeat st) now then
    (emit_heartbeat ts active topology,
     (now + py_max (heartbeat_interval args) 1)%Q)
  else ([], next_heartbeat st).

(** One turn of [while True] (the sleeps between turns print nothing and are
    left out). *)
Definition cycle (st : State) (c : Cycle) : list Line * outcome :=
  let ts := cycle_ts c in
  match loaded c with
  | LoadFailed exc =>
      ([mkLine ts "error" exc], if once args then Exit 2 else Continue st)
  | LoadOk active topology =>
      match sessions_step ts st active with
      | (out1, Raise e) => (out1, Crash e)
      | (out1, Ok ids) =>
          let '(out2, topo) := topology_step ts st topology in
          let '(out3, next) := heartbeat_step ts st (now_mono c) active topology in
          (out1 ++ out2 ++ out3,
           if once args then Exit 0 else Continue (mkState ids topo next))
      end
  end.

(** The loop over the turns observed so far; [Continue] at the end of the
    list means the loop is still going. *)
Fixpoint run (st : State) (cycles : list Cycle) : list Line * outcome :=
  match cycles with
  | [] => ([], Continue st)
  | c :: rest =>
      match cycle st c with
      | (out, Continue st') =>
          let '(out', o) := run st' rest in (out ++ out', o)
      | (out, o) => (out, o)
      end
  end.

(** [main] *)
Definition main (cycles : list Cycle) : list Line * outcome :=
  run initial_state cycles.

End Main.

(** ** normalize_topology

    The report comes from [json.loads]: any decoded value.  Every exception
    raised here is caught by [main] as [Exception]; [None] stands for "an
    exception was raised". *)

Module J := SessionMonitor.

Section Normalize.

(** [repr] of a decoded value, and [int] of a float ([None]: it raises, on
    an infinity or a NaN). *)
Variable repr : J.json -> string.
Variable int_of_float : PrimFloat.float -> option Z.

(** [v.get(key, default)]: only a dict has the method. *)
Definition get (v : J.json) (key : string) (default : J.json) : option J.json :=
  match v with
  | J.JDict d => Some (J.dict_get d key default)
  | _ => None
  end.

(** [int(v)] *)
Definition py_int (v : J.json) : option Z :=
  match v with
  | J.JBool b => Some (if b then 1 else 0)%Z
  | J.JInt z => Some z
  | J.JFloat f => int_of_float f
  | J.JStr s => match int s with Ok z => Some z | Raise _ => None end
  | J.JNull | J.JList _ | J.JDict _ => None
  end.

(** [for row in v]: the items of a list, the characters of a string, the keys
    of a dict; nothing else can be iterated. *)
Definition iterate (v : J.json) : option (list J.json) :=
  match v with
  | J.JList l => Some l
  | J.JStr s => Some (map (fun c => J.JStr (String c "")) (list_ascii_of_string s))
  | J.JDict d => Some (map (fun kv => J.JStr (fst kv)) d)
  | J.JNull | J.JBool _ | J.JInt _ | J.JFloat _ => None
  end.

(** [[f(row) for row in rows if cond(row)]] *)
Fixpoint select (cond : J.json -> option bool) (f : J.json -> option string)
    (rows : list J.json) : option (list string) :=
  match rows with
  | [] => Some []
  | row :: rest =>
      c ← cond row;
      if c : bool then
        x ← f row;
        xs ← select cond f rest;
        Some (x :: xs)
      else select cond f rest
  end.

(** [row.get(key)] as a condition *)
Definition flagged (key : string) (row : J.json) : option bool :=
  J.truthy <$> get row key J.JNull.

(** [str(row.get(key, ""))] *)
Definition str_field (key : string) (row : J.json) : option string :=
  J.py_str repr <$> get row key (J.JStr "").

(** [f"{row.get('branch', '')}@{row.get('path', '')}"] *)
Definition branch_at_path (row : J.json) : option string :=
  b ← str_field "branch" row;
  p ← str_field "path" row;
  Some (b +:+ "@" +:+ p).

(** [int(row.get("ahead_of_base", 0)) > 0 and int(row.get("behind_base", 0)) > 0]:
    the second count is not read when the first is not positive. *)
Definition row_diverged (row : J.json) : option bool :=
  a ← get row "ahead_of_base" (J.JInt 0);
  ahead ← py_int a;
  if (ahead >? 0)%Z then
    b ← get row "behind_base" (J.JInt 0);
    behind ← py_int b;
    Some (behind >? 0)%Z
  else Some false.

(** The lines of the status that are not blank. *)
Definition status_lines (status : string) : list string :=
  List.filter (fun line => nonempty (strip line)) (splitlines status).

(** [normalize_topology] *)
Definition normalize_topology (raw : J.json) : option Topology :=
  status ← get raw "repo_root_status" (J.JStr "");
  let lines := status_lines (J.py_str repr status) in
  worktrees ← get raw "worktrees" (J.JList []);
  rows ← iterate worktrees;
  dirty ← select (flagged "dirty") branch_at_path rows;
  prunable ← select (flagged "prunable") (str_field "path") rows;
  branch_deltas ← get raw "branch_deltas" (J.JList []);
  delta_rows ← iterate branch_deltas;
  diverged ← select row_diverged (str_field "branch") delta_rows;
  base ← get raw "base_ref" (J.JStr "");
  Some (mkTopology (J.py_str repr base)
          (1 <? List.length lines)%nat
          (sorted_strs dirty) (sorted_strs prunable) (sorted_strs diverged)).

(** ** load_active_sessions

    [inventory] and [activity] are what [run_json] answered for the two
    commands. *)

(** A value that can be the key of a dict. *)
Definition hashable (v : J.json) : bool :=
  match v with
  | J.JList _ | J.JDict _ => false
  | _ => true
  end.

(** [{row.get("session_id", ""): row for row in rows}], as the pairs stored,
    the last one first. *)
Fixpoint activity_by_id (rows : list J.json) (stored : list (J.json * J.json))
  : option (list (J.json * J.json)) :=
  match rows with
  | [] => Some stored
  | row :: rest =>
      key ← get row "session_id" (J.JStr "");
      if hashable key then activity_by_id rest ((key, row) :: stored) else None
  end.

(** [activity_by_id.get(sid, {})] for a string [sid]: the row stored last
    under a key equal to [sid], and only a string equals a string. *)
Definition activity_of (by_id : list (J.json * J.json)) (sid : string) : J.json :=
  match List.find (fun kv => J.is_str (fst kv) sid) by_id with
  | Some kv => snd kv
  | None => J.JDict []
  end.

(** The [for row in inventory.get("recent", [])] loop. *)
Fixpoint active_rows (by_id : list (J.json * J.json)) (rows : list J.json)
  : option (list ActiveSession) :=
  match rows with
  | [] => Some []
  | row :: rest =>
      is_active ← flagged "active" row;
      if negb is_active then active_rows by_id rest
      else
        sid ← str_field "session_id" row;
        let arow := activity_of by_id sid in
        role ← str_field "role" row;
        branch ← str_field "git_branch" row;
        parent_thread_id ← str_field "parent_thread_id" row;
        started_at ← str_field "started_at" row;
        last_timestamp ← str_field "last_timestamp" arow;
        last_summary ← str_field "last_summary" arow;
        log_path ← str_field "log_path" row;
        active ← active_rows by_id rest;
        Some (mkActiveSession sid role branch parent_thread_id started_at
                last_timestamp last_summary log_path :: active)
  end.

(** [load_active_sessions], from the two reports on. *)
Definition load_active_sessions (inventory activity : J.json)
  : option (list ActiveSession) :=
  activity_list ← get activity "activity" (J.JList []);
  rows ← iterate activity_list;
  by_id ← activity_by_id rows [];
  recent ← get inventory "recent" (J.JList []);
  recent_rows ← iterate recent;
  active ← active_rows by_id recent_rows;
  Some (sort_by (fun a b => String.leb (started_at b) (started_at a)) active).

End Normalize.

(** ** Sample sessions *)

Definition sample_session (id started : string) : ActiveSession :=
  mkActiveSession id "primary" "main" "" started "" "" ("/logs/" +:+ id).

Definition sample_topology : Topology := mkTopology "main" false [] [] [].

Definition sample_dumps (t : Topology) : string := "{...}".

(** Nine sessions, [s1] the oldest and [s9] the newest, as [load_active_sessions]
    orders them: newest first. *)
Definition nine_sessions : list ActiveSession :=
  map (fun n => sample_session ("s" +:+ n) ("2024-05-01T10:00:0" +:+ n +:+ "Z"))
      ["9"; "8"; "7"; "6"; "5"; "4"; "3"; "2"; "1"].

(** A turn whose loads failed. *)
Definition is_failed (c : Cycle) : bool :=
  match loaded c with LoadFailed _ => true | LoadOk _ _ => false end.

End HeartbeatMonitor.

(* ===================================================================== *)
(** * scripts/heartbeat_monitor.py: the loop with its sleeps and its doubles *)
(* ===================================================================== *)

(** [HeartbeatMonitor] adds clock readings as exact numbers and leaves the
    sleeps between two turns out.  Here the deadline is the sum the machine
    computes, a double again, and every turn of a looping monitor ends with
    its [time.sleep], which raises outside any [try] when its argument is a
    NaN (ValueError) or is too large (OverflowError), as it is for
    [--poll-interval nan], [inf] or [1e30]. *)
Module HeartbeatLoop.
Import Py HeartbeatMonitor.

(** A turn: what [cycle] observes, and whether the [time.sleep] that ends
    the turn returns. *)
Record Turn : Type := mkTurn {
  observed : Cycle;
  sleep_returns : bool
}.

(** How the loop stands after the turns observed: as [outcome] tells, or left
    by the exception of a [time.sleep]. *)
Inductive ending : Type :=
| Ended (o : outcome)
| SleepRaised.

Section Loop.

Variable dumps : Topology -> string.
Variable args : Args.

(** [a + b] on two doubles: the double the machine rounds the sum to. *)
Variable fadd : Q -> Q -> Q.

(** [if now_mono >= next_heartbeat: ...] *)
Definition heartbeat_step (ts : string) (st : State) (now : Q)
    (active : list ActiveSession) (topology : Topology) : list Line * Q :=
  if Qle_bool (next_heartbeat st) now then
    (emit_heartbeat ts active topology,
     fadd now (py_max (heartbeat_interval args) 1))
  else ([], next_heartbeat st).

(** One turn of [while True], up to its sleep. *)
Definition cycle (st : State) (c : Cycle) : list Line * outcome :=
  let ts := cycle_ts c in
  match loaded c with
  | LoadFailed exc =>
      ([mkLine ts "error" exc], if once args then Exit 2 else Continue st)
  | LoadOk active topology =>
      match sessions_step ts st active with
      | (out1, Raise e) => (out1, Crash e)
      | (out1, Ok ids) =>
          let '(out2, topo) := topology_step dumps ts st topology in
          let '(out3, next) := heartbeat_step ts st (now_mono c) active topology in
          (out1 ++ out2 ++ out3,
           if once args then Exit 0 else Continue (mkState ids topo next))
      end
  end.

(** The loop over the turns observed so far: a turn that goes on sleeps, on
    line 209 after a failed load and on line 232 otherwise. *)
Fixpoint run (st : State) (turns : list Turn) : list Line * ending :=
  match turns with
  | [] => ([], Ended (Continue st))
  | t :: rest =>
      match cycle st (observed t) with
      | (out, Continue st') =>
          if sleep_returns t then
            let '(out', e) := run st' rest in (out ++ out', e)
          else (out, SleepRaised)
      | (out, o) => (out, Ended o)
      end
  end.

(** [main] *)
Definition main (turns : list Turn) : list Line * ending :=
  run initial_state turns.

End Loop.

(** A rounded addition for the samples: the sum, rounded to eighths. *)
Definition sample_fadd (a b : Q) : Q :=
  Qmake (Qfloor ((a + b) * 8 + (1 # 2))) 8.

End HeartbeatLoop.

(* ===================================================================== *)
(** * Properties of the built-ins *)
(* ===================================================================== *)

Module PyFacts.
Import Py.

(** ** Facts about the built-ins *)

Lemma insert_by_perm {A} (le : A -> A -> bool) x l :
  Permutation (x :: l) (insert_by le x l).
Proof.
  induction l as [|y t IH]; simpl; [reflexivity|].
  destruct (le x y); [reflexivity|].
  rewrite perm_swap. now constructor.
Qed.

Lemma sort_by_perm {A} (le : A -> A -> bool) l : Permutation l (sort_by le l).
Proof.
  induction l as [|x t IH]; simpl; [constructor|].
  etransitivity; [|apply insert_by_perm]. now constructor.
Qed.

Lemma sort_by_In {A} (le : A -> A -> bool) l x : In x (sort_by le l) <-> In x l.
Proof.
  split; apply Permutation_in; [symmetry|]; apply sort_by_perm.
Qed.

Lemma sort_by_length {A} (le : A -> A -> bool) l :
  List.length (sort_by le l) = List.length l.
Proof. symmetry. apply Permutation_length, sort_by_perm. Qed.

(** ** Words and single spacing *)

Lemma append_empty_r (s : string) : s +:+ "" = s.
Proof.
  induction s as [|c s IH]; [reflexivity|].
  change (String c s +:+ "") with (String c (s +:+ "")). now rewrite IH.
Qed.

Lemma split_words (s : string) : forallb word (split s) = true.
Proof.
  induction s as [|c r IH]; [reflexivity|].
  cbn [split]. destruct (is_space c) eqn:Hc; [exact IH|].
  destruct r as [|c' r']; [cbn; now rewrite Hc|].
  destruct (is_space c') eqn:Hc'.
  - cbn [forallb]. rewrite IH. cbn. now rewrite Hc.
  - destruct (split (String c' r')) as [|w ws]; [cbn; now rewrite Hc|].
    cbn [forallb] in IH |- *. apply andb_prop in IH as [Hw Hws].
    rewrite Hws. unfold word in *. apply andb_prop in Hw as [_ Hw].
    cbn. now rewrite Hc, Hw.
Qed.

Lemma single_spaced_word (w rest : string) (after_space : bool) :
  word w = true ->
  single_spaced after_space (w +:+ rest) = single_spaced false rest.
Proof.
  unfold word. intros H. apply andb_prop in H as [Hne Hns].
  revert after_space. induction w as [|c w IH]; intros after_space; [discriminate|].
  cbn [no_space] in Hns. apply andb_prop in Hns as [Hc Hw].
  change (String c w +:+ rest) with (String c (w +:+ rest)).
  cbn [single_spaced].
  destruct (Ascii.eqb_spec c " "%char) as [->|_]; [discriminate|].
  rewrite Hc. cbn [andb].
  destruct w as [|c' w']; [reflexivity|]. now apply IH.
Qed.

Lemma join_words_single_spaced (w : string) (ws : list string) :
  forallb word (w :: ws) = true -> single_spaced true (join " " (w :: ws)) = true.
Proof.
  revert w. induction ws as [|w' ws IH]; intros w H;
    cbn [forallb] in H; apply andb_prop in H as [Hw Hws].
  - cbn [join String.concat].
    rewrite <- (append_empty_r w). now rewrite single_spaced_word.
  - change (join " " (w :: w' :: ws)) with (w +:+ " " +:+ join " " (w' :: ws)).
    rewrite single_spaced_word by exact Hw.
    change (" " +:+ join " " (w' :: ws)) with (String " "%char (join " " (w' :: ws))).
    cbn [single_spaced]. rewrite Ascii.eqb_refl. cbn [negb andb]. now apply IH.
Qed.

Lemma join_words_collapsed (ws : list string) :
  forallb word ws = true -> collapsed (join " " ws) = true.
Proof.
  destruct ws as [|w ws]; [reflexivity|]. intros H. unfold collapsed.
  rewrite join_words_single_spaced by exact H. apply orb_true_r.
Qed.

Lemma split_word_app (w rest : string) :
  word w = true ->
  match rest with "" => true | String c _ => is_space c end = true ->
  split (w +:+ rest) = w :: split rest.
Proof.
  unfold word. intros H Hrest. apply andb_prop in H as [Hne Hns].
  induction w as [|c w IH]; [discriminate|].
  cbn [no_space] in Hns. apply andb_prop in Hns as [Hc Hw].
  apply negb_true_iff in Hc.
  change (String c w +:+ rest) with (String c (w +:+ rest)).
  cbn [split]. rewrite Hc.
  destruct w as [|c' w'].
  - change ("" +:+ rest) with rest. destruct rest as [|c' r']; [reflexivity|].
    now rewrite Hrest.
  - change (String c' w' +:+ rest) with (String c' (w' +:+ rest)) in *.
    cbn [no_space] in Hw. apply andb_prop in Hw as [Hc' Hw'].
    cbn [no_space] in IH. rewrite Hc', Hw' in IH.
    apply negb_true_iff in Hc'. rewrite Hc'.
    now rewrite IH.
Qed.

Lemma split_join_words (ws : list string) :
  forallb word ws = true -> split (join " " ws) = ws.
Proof.
  induction ws as [|w ws IH]; intros H; [reflexivity|].
  cbn [forallb] in H. apply andb_prop in H as [Hw Hws].
  destruct ws as [|w' ws].
  - cbn [join String.concat].
    rewrite <- (append_empty_r w) at 1. now rewrite split_word_app.
  - change (join " " (w :: w' :: ws)) with (w +:+ String " "%char (join " " (w' :: ws))).
    rewrite split_word_app by (assumption || reflexivity).
    f_equal. change (split (String " "%char (join " " (w' :: ws))))
      with (split (join " " (w' :: ws))).
    now apply IH.
Qed.

(** [sort_by] sorts, for a total order. *)
Section Sorting.
Context {A : Type} (le : A -> A -> bool).
Hypothesis le_total : forall x y, le x y = true \/ le y x = true.

Lemma insert_by_sorted (x : A) (l : list A) :
  Sorted (fun a b => le a b = true) l ->
  Sorted (fun a b => le a b = true) (insert_by le x l).
Proof.
  induction l as [|y t IH]; intros Hs; simpl.
  - repeat constructor.
  - destruct (le x y) eqn:Hxy.
    + constructor; [assumption | now constructor].
    + inversion Hs as [|? ? Ht Hhd]; subst.
      constructor; [now apply IH|].
      destruct t as [|z t']; simpl.
      * constructor. destruct (le_total x y); congruence.
      * destruct (le x z).
        -- constructor. destruct (le_total x y); congruence.
        -- constructor. now inversion Hhd.
Qed.

Lemma sort_by_sorted (l : list A) : Sorted (fun a b => le a b = true) (sort_by le l).
Proof.
  induction l as [|x t IH]; simpl; [constructor | now apply insert_by_sorted].
Qed.

End Sorting.

Lemma leb_trans (a b c : string) :
  String.leb a b = true -> String.leb b c = true -> String.leb a c = true.
Proof.
  intros H1 H2. apply Is_true_true.
  apply Is_true_true in H1, H2.
  exact (transitivity (R := String.le) H1 H2).
Qed.

(** [sorted] on distinct strings: ascending, each one once. *)
Lemma sorted_strs_sorted (l : list string) :
  StronglySorted (fun a b => String.leb a b = true) (sorted_strs l).
Proof.
  apply Sorted_StronglySorted.
  - intros a b c. apply leb_trans.
  - apply sort_by_sorted. apply String.leb_total.
Qed.

Lemma firstn_In' {A} (n : nat) (l : list A) (x : A) : In x (firstn n l) -> In x l.
Proof.
  revert n. induction l as [|y t IH]; intros [|n]; simpl; try tauto.
  intros [->|H]; [now left | right; eauto].
Qed.

(** ** Exceptions propagate through a sequence of calls *)

Lemma bind_Ok_inv {A B} (r : result A) (k : A -> result B) (b : B) :
  r ≫= k = Ok b -> exists a, r = Ok a /\ k a = Ok b.
Proof. destruct r as [a|e]; simpl; [eauto | discriminate]. Qed.

(** ** Lengths of padded and joined strings *)

Lemma str_length_app (a b : string) :
  String.length (a +:+ b) = (String.length a + String.length b)%nat.
Proof. induction a as [|c a IH]; simpl; [reflexivity | now rewrite IH]. Qed.

Lemma length_repeat_char (c : ascii) (n : nat) : String.length (repeat_char c n) = n.
Proof. induction n as [|n IH]; simpl; [reflexivity | now rewrite IH]. Qed.

Lemma length_ljust (s : string) (width : nat) :
  (String.length s <= width)%nat -> String.length (ljust s width) = width.
Proof.
  intros H. unfold ljust. rewrite str_length_app, length_repeat_char. lia.
Qed.

Lemma length_join (sep : string) (l : list string) :
  String.length (join sep l)
  = (list_sum (map String.length l) + String.length sep * (List.length l - 1))%nat.
Proof.
  unfold join. induction l as [|x [|y t] IH]; [simpl; lia | simpl; lia |].
  change (String.concat sep (x :: y :: t)) with (x +:+ sep +:+ String.concat sep (y :: t)).
  rewrite !str_length_app, IH. cbn [map List.length].
  replace (S (S (List.length t)) - 1)%nat with (S (S (List.length t) - 1)) by lia.
  rewrite Nat.mul_succ_r. simpl. lia.
Qed.



End PyFacts.

(* ===================================================================== *)
(** * Properties of scripts/git_coordination.py *)
(* ===================================================================== *)

Module GitCoordinationProps.
Import Py PyFacts GitCoordination.

(** ** categorize_branch *)

Lemma categorize_branch_cases (d : BranchDelta) :
  let a := ahead_of_base d in
  let b := behind_base d in
  ((a = 0 /\ b > 0)%Z /\ categorize_branch d = "stale: rebase before new work")
  \/ ((a > 0 /\ b > 0)%Z /\ categorize_branch d = "diverged: rebase before merge")
  \/ ((a > 0 /\ b = 0)%Z /\ categorize_branch d = "ahead only: candidate to merge")
  \/ ((~ (a = 0 /\ b > 0) /\ ~ (a > 0 /\ b > 0) /\ ~ (a > 0 /\ b = 0))%Z
      /\ categorize_branch d = "in sync with base").
Proof.
  unfold categorize_branch. cbv zeta.
  destruct (Z.eqb_spec (ahead_of_base d) 0), (Z.gtb_spec (behind_base d) 0),
    (Z.gtb_spec (ahead_of_base d) 0), (Z.eqb_spec (behind_base d) 0);
    simpl; try lia; intuition lia.
Qed.

(** C7.  For every (ahead, behind) pair [categorize_branch] is exactly the
    table: behind>0 and ahead=0 gives the stale label; ahead>0 and behind>0 the
    diverged label; ahead>0 and behind=0 the ahead-only label; every other pair
    the in-sync label.  In particular (3,0) is ahead-only, (0,2) stale, (2,2)
    diverged and (0,0) in-sync. *)
Theorem categorize_branch_table (name : string) (ahead behind : Z) :
  let d := mkBranchDelta name ahead behind in
  (categorize_branch d = "stale: rebase before new work"
     <-> (behind > 0 /\ ahead = 0)%Z)
  /\ (categorize_branch d = "diverged: rebase before merge"
     <-> (ahead > 0 /\ behind > 0)%Z)
  /\ (categorize_branch d = "ahead only: candidate to merge"
     <-> (ahead > 0 /\ behind = 0)%Z)
  /\ (categorize_branch d = "in sync with base"
     <-> ~ (behind > 0 /\ ahead = 0)%Z /\ ~ (ahead > 0 /\ behind > 0)%Z
         /\ ~ (ahead > 0 /\ behind = 0)%Z)
  /\ categorize_branch (mkBranchDelta name 3 0) = "ahead only: candidate to merge"
  /\ categorize_branch (mkBranchDelta name 0 2) = "stale: rebase before new work"
  /\ categorize_branch (mkBranchDelta name 2 2) = "diverged: rebase before merge"
  /\ categorize_branch (mkBranchDelta name 0 0) = "in sync with base".
Proof.
  intros d.
  pose proof (categorize_branch_cases d) as H. cbv zeta in H. simpl in H.
  repeat split; try reflexivity; intros;
    destruct H as [[? E]|[[? E]|[[? E]|[? E]]]];
    try (rewrite E in *; (discriminate || reflexivity));
    try lia; try (exfalso; intuition lia).
Qed.

(** ** normalize_base_branch_name *)

Lemma substring_all (s : string) : String.substring 0 (String.length s) s = s.
Proof. induction s as [|c s IH]; simpl; [reflexivity | now rewrite IH]. Qed.

(** The qualifier of the remote [origin] is stripped, once; any other ref is
    its own normalized name. *)
Lemma normalize_strips_origin (name : string) :
  normalize_base_branch_name ("origin/" +:+ name) = name.
Proof.
  unfold normalize_base_branch_name, removeprefix, startswith. simpl.
  change ("" +:+ name) with name.
  assert (String.prefix "" name = true) as -> by now destruct name.
  rewrite Nat.sub_0_r. apply substring_all.
Qed.

Lemma normalize_keeps_other_refs :
  normalize_base_branch_name "main" = "main"
  /\ normalize_base_branch_name "upstream/main" = "upstream/main"
  /\ normalize_base_branch_name "origin/origin/x" = "origin/x".
Proof. repeat split; reflexivity. Qed.

(** ** branch_deltas *)

Section Deltas.
Variable git : string -> list string -> Z * string.
Variables repo_root base_ref base_branch_name : string.

Lemma deltas_loop_excludes (branches : list string) :
  forall deltas res,
    Forall (fun d => branch d <> base_branch_name) deltas ->
    deltas_loop git repo_root base_ref base_branch_name branches deltas = Ok res ->
    Forall (fun d => branch d <> base_branch_name) res.
Proof.
  induction branches as [|b rest IH]; intros deltas res Hacc Hrun; simpl in Hrun.
  - now inversion Hrun; subst.
  - destruct (String.eqb_spec b base_branch_name) as [->|Hne]; [eauto|].
    apply bind_Ok_inv in Hrun as (out & _ & Hrun).
    destruct (negb (List.length (split out) =? 2)%nat); [eauto|].
    apply bind_Ok_inv in Hrun as (ahead & _ & Hrun).
    apply bind_Ok_inv in Hrun as (behind & _ & Hrun).
    eapply IH; [|exact Hrun].
    apply Forall_app; split; [assumption|].
    constructor; [exact Hne | constructor].
Qed.

(** A branch whose count output does not split into exactly two tokens is
    passed over: the loop goes on with the branches that remain. *)
Lemma deltas_loop_skips_token_count (b : string) (rest : list string)
    (deltas : list BranchDelta) (out : string) :
  (b =? base_branch_name) = false ->
  run_git git repo_root
    ["rev-list"; "--left-right"; "--count"; b +:+ "..." +:+ base_ref] true = Ok out ->
  List.length (split out) <> 2%nat ->
  deltas_loop git repo_root base_ref base_branch_name (b :: rest) deltas
  = deltas_loop git repo_root base_ref base_branch_name rest deltas.
Proof.
  intros Hb Hout Hlen. simpl. rewrite Hb, Hout. simpl.
  destruct (Nat.eqb_spec (List.length (split out)) 2); [contradiction|reflexivity].
Qed.

End Deltas.

(** C8 (as the code has it).  Whatever the base ref and the local branches,
    an entry returned by [branch_deltas] never carries the name that
    [normalize_base_branch_name] gives the base ref: the base ref with a
    leading [origin/] stripped, and with nothing else stripped. *)
Theorem branch_deltas_never_names_base
    (git : string -> list string -> Z * string)
    (repo_root base_ref : string) (deltas : list BranchDelta) :
  branch_deltas git repo_root base_ref = Ok deltas ->
  Forall (fun d => branch d <> normalize_base_branch_name base_ref) deltas.
Proof.
  unfold branch_deltas. intros H.
  apply bind_Ok_inv in H as (branches & _ & H).
  apply bind_Ok_inv in H as (unsorted & Hloop & H).
  inversion H; subst; clear H.
  apply deltas_loop_excludes in Hloop; [|constructor].
  rewrite List.Forall_forall in *. intros d Hd.
  apply Hloop. now apply sort_by_In in Hd.
Qed.

Lemma branch_deltas_never_names_base_witness :
  branch_deltas (sample_git good_counts) "/repo" "origin/main"
  = Ok [mkBranchDelta "feature-b" 0 4; mkBranchDelta "feature-a" 3 1]
  /\ Forall (fun d => branch d <> normalize_base_branch_name "origin/main")
       [mkBranchDelta "feature-b" 0 4; mkBranchDelta "feature-a" 3 1].
Proof.
  split; [vm_compute; reflexivity|].
  apply (branch_deltas_never_names_base (sample_git good_counts) "/repo").
  vm_compute; reflexivity.
Defined.

(** C8 (counterexample).  The qualifier of another remote is not stripped:
    the base ref [upstream/main], which [choose_base_ref] returns as it is
    requested, is its own normalized name, and [branch_deltas] lists the local
    branch [main], the base ref without its remote qualifier. *)
Lemma branch_deltas_names_base_of_other_remote :
  choose_base_ref sample_git_upstream "/repo" "upstream/main" = Ok "upstream/main"
  /\ normalize_base_branch_name "upstream/main" = "upstream/main"
  /\ branch_deltas sample_git_upstream "/repo" "upstream/main"
     = Ok [mkBranchDelta "main" 0 0; mkBranchDelta "feature-b" 0 0;
           mkBranchDelta "feature-a" 0 0]
  /\ hd_error (map branch [mkBranchDelta "main" 0 0; mkBranchDelta "feature-b" 0 0;
                            mkBranchDelta "feature-a" 0 0])
     = Some "main"
  /\ normalize_base_branch_name "origin/main" = "main".
Proof. repeat split; vm_compute; reflexivity. Qed.

(** C4 (the defect).  When the count query of [feature-a] answers the two
    tokens [x y], which are no counts, [int] raises [ValueError] and the whole
    of [branch_deltas] fails with it, although [feature-b] has a well-formed
    answer. *)
Theorem branch_deltas_garbled_counts_fatal :
  branch_deltas (sample_git garbled_counts) "/repo" "main" = Raise ValueError
  /\ split (garbled_counts "feature-a...main") = ["x"; "y"]
  /\ branch_deltas (sample_git short_counts) "/repo" "main"
     = Ok [mkBranchDelta "feature-b" 2 2].
Proof. vm_compute. repeat split; reflexivity. Qed.

(** ** choose_base_ref *)

(** C5 (as the code has it).  A requested base ref that, once stripped, is
    neither empty nor "auto" in any letter case resolves to the stripped name
    when that exists; else to its remote-qualified form ["origin/" + name] when
    that exists; else resolution fails, with no automatic detection. *)
Theorem choose_base_ref_explicit
    (git : string -> list string -> Z * string) (repo_root requested : string) :
  let name := strip requested in
  name <> "" -> lower name <> "auto" ->
  (ref_exists git repo_root name = true ->
     choose_base_ref git repo_root requested = Ok name)
  /\ (ref_exists git repo_root name = false ->
      ref_exists git repo_root ("origin/" +:+ name) = true ->
      choose_base_ref git repo_root requested = Ok ("origin/" +:+ name))
  /\ (ref_exists git repo_root name = false ->
      ref_exists git repo_root ("origin/" +:+ name) = false ->
      choose_base_ref git repo_root requested = Raise RuntimeError).
Proof.
  intros name Hne Hauto. unfold choose_base_ref. fold name.
  assert (nonempty name && negb (lower name =? "auto") = true) as ->.
  { unfold nonempty.
    destruct (String.eqb_spec name ""); [contradiction|].
    destruct (String.eqb_spec (lower name) "auto"); [contradiction|reflexivity]. }
  repeat split.
  - intros ->. reflexivity.
  - intros -> ->. reflexivity.
  - intros -> ->. reflexivity.
Qed.

Lemma choose_base_ref_explicit_witness :
  (strip " dev " <> "" /\ lower (strip " dev ") <> "auto")
  /\ choose_base_ref (sample_git good_counts) "/repo" " dev " = Ok "origin/dev".
Proof.
  assert (strip " dev " <> "") as H1 by (vm_compute; discriminate).
  assert (lower (strip " dev ") <> "auto") as H2 by (vm_compute; discriminate).
  split; [split; assumption|].
  apply (choose_base_ref_explicit (sample_git good_counts) "/repo" " dev " H1 H2);
    vm_compute; reflexivity.
Defined.

(** C5 (counterexample).  The ref [dev] is requested and exists only as
    [origin/dev]: resolution answers [origin/dev], not the requested string. *)
Lemma choose_base_ref_not_verbatim :
  ref_exists (sample_git good_counts) "/repo" "dev" = false
  /\ ref_exists (sample_git good_counts) "/repo" "origin/dev" = true
  /\ choose_base_ref (sample_git good_counts) "/repo" "dev" = Ok "origin/dev"
  /\ "origin/dev" <> "dev".
Proof. vm_compute. repeat split; discriminate. Qed.

(** ** parse_worktree_porcelain *)

Lemma porcelain_loop_nonempty (lines : list string) :
  forall current, Forall (fun block => block <> ∅) (porcelain_loop lines current).
Proof.
  induction lines as [|line rest IH]; intros current; cbn [porcelain_loop].
  - case_bool_decide; [constructor | now repeat constructor].
  - destruct (negb (nonempty (strip line))).
    + case_bool_decide; [apply IH | constructor; [assumption | apply IH]].
    + destruct (key_value line). apply IH.
Qed.

Lemma porcelain_loop_blank (l1 l2 : list string) (blank : string) :
  nonempty (strip blank) = false ->
  forall current,
    porcelain_loop (l1 ++ blank :: l2) current
    = porcelain_loop l1 current ++ porcelain_loop l2 ∅.
Proof.
  intros Hb. induction l1 as [|line rest IH]; intros current.
  - cbn [app porcelain_loop]. rewrite Hb. cbn [negb].
    case_bool_decide; [now subst | reflexivity].
  - cbn [app porcelain_loop]. destruct (negb (nonempty (strip line))).
    + case_bool_decide; [apply IH | now rewrite IH].
    + destruct (key_value line). apply IH.
Qed.

(** The parse of a porcelain listing never holds an empty block, however the
    blank lines fall; and a blank line between two runs of lines separates
    their blocks: the parse of the whole is the parse of the first run followed
    by the parse of the second. *)
Theorem parse_worktree_porcelain_blocks (output : string)
    (l1 l2 : list string) (blank : string) :
  Forall (fun block => block <> ∅) (parse_worktree_porcelain output)
  /\ (nonempty (strip blank) = false ->
      porcelain_loop (l1 ++ blank :: l2) ∅
      = porcelain_loop l1 ∅ ++ porcelain_loop l2 ∅).
Proof.
  split; [apply porcelain_loop_nonempty|].
  intros Hb. now apply porcelain_loop_blank.
Qed.

(** ** collect_worktrees *)

(** [collect_worktrees] answers one state per block of the listing, in order.
    A state is marked dirty only when its path is not empty and [git status]
    there succeeds with output; and a block marked detached that names no
    branch is labelled ["(detached)"], never the empty string. *)
Theorem collect_worktrees_states
    (git : string -> list string -> Z * string) (repo_root output : string) :
  run_git git repo_root ["worktree"; "list"; "--porcelain"] true = Ok output ->
  collect_worktrees git repo_root
  = Ok (map (worktree_state git) (parse_worktree_porcelain output))
  /\ (forall states,
        collect_worktrees git repo_root = Ok states ->
        Forall (fun s => dirty s = true ->
                         path s <> "" /\ is_dirty git (path s) = true) states)
  /\ (forall block,
        In block (parse_worktree_porcelain output) ->
        is_Some (block !! "detached") -> block !! "branch" = None ->
        wt_branch (worktree_state git block) = "(detached)").
Proof.
  intros Hrun. unfold collect_worktrees. rewrite Hrun. cbn.
  split; [reflexivity|]. split.
  - intros states H. inversion H; subst; clear H.
    apply List.Forall_forall. intros s Hs.
    apply in_map_iff in Hs as (block & <- & _).
    unfold worktree_state. cbn [dirty path].
    destruct (nonempty (default "" (block !! "worktree"))) eqn:Hp; [|discriminate].
    intros Hd. split; [|exact Hd].
    intros E. rewrite E in Hp. discriminate.
  - intros block _ Hd Hb. unfold worktree_state. cbn [wt_branch].
    rewrite Hb. cbn [default]. unfold branch_label.
    rewrite bool_decide_eq_true_2 by exact Hd. reflexivity.
Qed.

Lemma collect_worktrees_states_witness :
  collect_worktrees sample_git_worktrees "/repo"
  = Ok [mkWorktreeState "/repo" "main" false false false;
        mkWorktreeState "/repo/wt-a" "(detached)" true false true;
        mkWorktreeState "/repo/wt-gone" "feature-a" false true false].
Proof.
  destruct (collect_worktrees_states sample_git_worktrees "/repo"
              (strip sample_listing)) as [H _]; [vm_compute; reflexivity|].
  rewrite H. vm_compute. reflexivity.
Defined.

(** ** recommendations *)

Lemma advise_shape (c1 c2 c3 c4 c5 c6 c7 : bool)
    (m1 m2 m3 m4 m5 m6 m7 clean : string) :
  m1 <> clean -> m2 <> clean -> m3 <> clean -> m4 <> clean ->
  m5 <> clean -> m6 <> clean -> m7 <> clean ->
  let recs := advise c1 m1 ++ advise c2 m2 ++ advise c3 m3 ++ advise c4 m4
              ++ advise c5 m5 ++ advise c6 m6 ++ advise c7 m7 in
  let answer := match recs with [] => [clean] | _ => recs end in
  answer <> []
  /\ (List.length answer <= 7)%nat
  /\ (answer = [clean]
      <-> c1 = false /\ c2 = false /\ c3 = false /\ c4 = false
          /\ c5 = false /\ c6 = false /\ c7 = false).
Proof.
  intros N1 N2 N3 N4 N5 N6 N7.
  destruct c1, c2, c3, c4, c5, c6, c7; cbn;
    (split; [discriminate|]); (split; [lia|]);
    (split; [intros E; inversion E; subst; try contradiction; tauto
            | intros H; decompose [and] H; try discriminate; reflexivity]).
Qed.

Lemma some_false {A} (l : list A) : some l = false <-> l = [].
Proof. destruct l; simpl; split; congruence. Qed.

(** [recommendations] never answers an empty list, and at most seven
    advisories.  It answers the single "clean" advisory exactly when no rule
    fires: the root is clean, no branch is diverged, stale or ahead-only, no
    worktree is dirty or prunable, and there are at most ten worktrees. *)
Theorem recommendations_clean_iff (base_ref : string) (repo_dirty : bool)
    (deltas : list BranchDelta) (worktrees : list WorktreeState) :
  recommendations base_ref repo_dirty deltas worktrees <> []
  /\ (List.length (recommendations base_ref repo_dirty deltas worktrees) <= 7)%nat
  /\ (recommendations base_ref repo_dirty deltas worktrees = [rec_clean base_ref]
      <-> repo_dirty = false
          /\ List.filter is_diverged deltas = []
          /\ List.filter is_stale deltas = []
          /\ List.filter is_ahead_only deltas = []
          /\ List.filter dirty worktrees = []
          /\ List.filter prunable worktrees = []
          /\ (List.length worktrees <= 10)%nat).
Proof.
  assert ((10 <? List.length worktrees)%nat = false
          <-> (List.length worktrees <= 10)%nat) as H7.
  { destruct (Nat.ltb_spec 10 (List.length worktrees)); split; intros; (lia || congruence). }
  destruct (advise_shape repo_dirty
              (some (List.filter is_diverged deltas))
              (some (List.filter is_stale deltas))
              (some (List.filter is_ahead_only deltas))
              (some (List.filter dirty worktrees))
              (some (List.filter prunable worktrees))
              (10 <? List.length worktrees)%nat
              rec_repo_dirty
              (rec_diverged base_ref (branch_names (List.filter is_diverged deltas)))
              (rec_stale base_ref (branch_names (List.filter is_stale deltas)))
              (rec_ahead_only base_ref (branch_names (List.filter is_ahead_only deltas)))
              (rec_dirty_worktrees
                 (join ", " (map (fun w => wt_branch w +:+ "@" +:+ path w)
                               (firstn 6 (List.filter dirty worktrees)))))
              rec_prunable rec_many_worktrees (rec_clean base_ref))
    as (H1 & H2 & H3); try discriminate.
  split; [exact H1|]. split; [exact H2|].
  unfold recommendations. rewrite H3, !some_false, H7. reflexivity.
Qed.

(** ** The order of branch_deltas *)

Lemma key_leb_total (d1 d2 : BranchDelta) :
  key_leb d1 d2 = true \/ key_leb d2 d1 = true.
Proof.
  unfold key_leb.
  destruct (Z.ltb_spec (behind_base d1) (behind_base d2)); [now left|].
  destruct (Z.ltb_spec (behind_base d2) (behind_base d1)); [now right|].
  assert (behind_base d1 = behind_base d2) as -> by lia.
  rewrite Z.eqb_refl. cbn [orb andb].
  destruct (Z.ltb_spec (ahead_of_base d1) (ahead_of_base d2)); [now left|].
  destruct (Z.ltb_spec (ahead_of_base d2) (ahead_of_base d1)); [now right|].
  assert (ahead_of_base d1 = ahead_of_base d2) as -> by lia.
  rewrite Z.eqb_refl. cbn [orb andb]. apply String.leb_total.
Qed.

Lemma deltas_loop_from_branches
    (git : string -> list string -> Z * string)
    (repo_root base_ref base_branch_name : string) (branches : list string) :
  forall deltas res,
    deltas_loop git repo_root base_ref base_branch_name branches deltas = Ok res ->
    (forall d, In d res -> In d deltas \/ In (branch d) branches)
    /\ (List.length res <= List.length deltas + List.length branches)%nat.
Proof.
  induction branches as [|b rest IH]; intros deltas res Hrun; simpl in Hrun.
  - inversion Hrun; subst. split; [auto | lia].
  - assert (forall acc,
              deltas_loop git repo_root base_ref base_branch_name rest acc = Ok res ->
              (forall d, In d acc -> In d deltas \/ branch d = b) ->
              (List.length acc <= S (List.length deltas))%nat ->
              (forall d, In d res -> In d deltas \/ In (branch d) (b :: rest))
              /\ (List.length res <= List.length deltas + List.length (b :: rest))%nat)
      as Hstep.
    { intros acc Hacc Hin Hlen. destruct (IH _ _ Hacc) as [H1 H2]. split.
      - intros d Hd. destruct (H1 d Hd) as [Ha|Hr]; [|right; now right].
        destruct (Hin d Ha) as [?|<-]; [now left | right; now left].
      - cbn [List.length]. lia. }
    destruct (b =? base_branch_name); [apply (Hstep deltas); auto|].
    apply bind_Ok_inv in Hrun as (out & _ & Hrun).
    destruct (negb (List.length (split out) =? 2)%nat); [apply (Hstep deltas); auto|].
    apply bind_Ok_inv in Hrun as (ahead & _ & Hrun).
    apply bind_Ok_inv in Hrun as (behind & _ & Hrun).
    apply (Hstep _ Hrun).
    + intros d Hd. apply in_app_or in Hd as [?|[<-|[]]]; [now left | now right].
    + rewrite length_app. cbn. lia.
Qed.

(** What [branch_deltas] returns is in descending order of
    (behind, ahead, name); each entry is for a local branch, and there are no
    more entries than local branches. *)
Theorem branch_deltas_sorted
    (git : string -> list string -> Z * string)
    (repo_root base_ref : string) (deltas : list BranchDelta) :
  branch_deltas git repo_root base_ref = Ok deltas ->
  Sorted (fun d1 d2 => key_leb d2 d1 = true) deltas
  /\ exists branches,
       list_local_branches git repo_root = Ok branches
       /\ Forall (fun d => In (branch d) branches) deltas
       /\ (List.length deltas <= List.length branches)%nat.
Proof.
  unfold branch_deltas. intros H.
  apply bind_Ok_inv in H as (branches & Hb & H).
  apply bind_Ok_inv in H as (unsorted & Hloop & H).
  inversion H; subst; clear H. split.
  - apply (sort_by_sorted (fun d1 d2 => key_leb d2 d1)).
    intros x y. destruct (key_leb_total x y); auto.
  - exists branches. split; [exact Hb|].
    destruct (deltas_loop_from_branches _ _ _ _ _ _ _ Hloop) as [Hin Hlen].
    split.
    + apply List.Forall_forall. intros d Hd. apply sort_by_In in Hd.
      destruct (Hin d Hd) as [[]|?]. assumption.
    + rewrite sort_by_length. cbn in Hlen. lia.
Qed.

Lemma branch_deltas_sorted_witness :
  Sorted (fun d1 d2 => key_leb d2 d1 = true)
    [mkBranchDelta "feature-b" 0 4; mkBranchDelta "feature-a" 3 1].
Proof.
  apply (branch_deltas_sorted (sample_git good_counts) "/repo" "origin/main").
  vm_compute; reflexivity.
Defined.

(** ** list_local_branches *)

(** The local branches come back in ascending order; they are the stripped,
    non-blank lines of the listing, and none is the empty name. *)
Theorem list_local_branches_sorted
    (git : string -> list string -> Z * string)
    (repo_root : string) (branches : list string) :
  list_local_branches git repo_root = Ok branches ->
  StronglySorted (fun a b => String.leb a b = true) branches
  /\ Forall (fun b => b <> "") branches
  /\ exists out,
       run_git git repo_root
         ["for-each-ref"; "--format=%(refname:short)"; "refs/heads"] true = Ok out
       /\ forall b, In b branches
                    <-> b <> "" /\ exists line, In line (splitlines out) /\ strip line = b.
Proof.
  unfold list_local_branches. intros H.
  apply bind_Ok_inv in H as (out & Hout & H). inversion H; subst; clear H.
  assert (forall b,
            In b (sorted_strs (List.filter (fun l => nonempty l)
                                 (map strip (splitlines out))))
            <-> b <> "" /\ exists line, In line (splitlines out) /\ strip line = b)
    as Hin.
  { intros b. unfold sorted_strs. rewrite sort_by_In, filter_In, in_map_iff.
    unfold nonempty. destruct (String.eqb_spec b ""); cbn; split.
    - intros [_ ?]. discriminate.
    - intros [? _]. contradiction.
    - intros [(line & ? & ?) _]. split; eauto.
    - intros [_ (line & ? & ?)]. split; eauto. }
  split; [apply sorted_strs_sorted|]. split.
  - apply List.Forall_forall. intros b Hb. now apply Hin in Hb as [? _].
  - exists out. split; [exact Hout | exact Hin].
Qed.

Lemma list_local_branches_sorted_witness :
  StronglySorted (fun a b => String.leb a b = true) ["feature-a"; "feature-b"; "main"].
Proof.
  apply (list_local_branches_sorted (sample_git good_counts) "/repo").
  vm_compute; reflexivity.
Defined.

(** ** Automatic detection of the base ref *)

Section Detect.
Variable git : string -> list string -> Z * string.
Variable repo_root : string.

Lemma choose_base_ref_auto (requested : string) :
  strip requested = "" \/ lower (strip requested) = "auto" ->
  choose_base_ref git repo_root requested = detect_base_ref git repo_root.
Proof.
  intros H. unfold choose_base_ref.
  destruct H as [-> | ->]; [reflexivity|].
  rewrite String.eqb_refl. now rewrite andb_false_r.
Qed.

End Detect.

(** A request that is blank or "auto" in any letter case is resolved by
    detection, which ranks the local branches main, master, trunk before any
    remote ref: a local main wins; without it a local master; without both a
    local trunk; and only with none of the three local, [origin/main] when it
    exists. *)
Theorem auto_base_ref_prefers_local
    (git : string -> list string -> Z * string)
    (repo_root requested : string) (branches : list string) :
  strip requested = "" \/ lower (strip requested) = "auto" ->
  list_local_branches git repo_root = Ok branches ->
  (In "main" branches -> choose_base_ref git repo_root requested = Ok "main")
  /\ (~ In "main" branches -> In "master" branches ->
      choose_base_ref git repo_root requested = Ok "master")
  /\ (~ In "main" branches -> ~ In "master" branches -> In "trunk" branches ->
      choose_base_ref git repo_root requested = Ok "trunk")
  /\ (~ In "main" branches -> ~ In "master" branches -> ~ In "trunk" branches ->
      ref_exists git repo_root "origin/main" = true ->
      choose_base_ref git repo_root requested = Ok "origin/main").
Proof.
  intros Hreq Hb. rewrite (choose_base_ref_auto git repo_root requested Hreq).
  unfold detect_base_ref. rewrite Hb. cbn [mbind result_bind].
  unfold DEFAULT_MAIN_CANDIDATES. cbn [find].
  repeat split.
  - intros H1. rewrite bool_decide_eq_true_2 by now apply list_elem_of_In.
    reflexivity.
  - intros H1 H2.
    rewrite bool_decide_eq_false_2 by now rewrite list_elem_of_In.
    rewrite bool_decide_eq_true_2 by now apply list_elem_of_In.
    reflexivity.
  - intros H1 H2 H3.
    rewrite !bool_decide_eq_false_2 by now rewrite list_elem_of_In.
    rewrite bool_decide_eq_true_2 by now apply list_elem_of_In.
    reflexivity.
  - intros H1 H2 H3 Hr.
    rewrite !bool_decide_eq_false_2 by now rewrite list_elem_of_In.
    change ("origin/" +:+ "main") with "origin/main". rewrite Hr. reflexivity.
Qed.

Lemma auto_base_ref_prefers_local_witness :
  choose_base_ref (sample_git good_counts) "/repo" " Auto " = Ok "main".
Proof.
  destruct (auto_base_ref_prefers_local (sample_git good_counts) "/repo" " Auto "
              ["feature-a"; "feature-b"; "main"]) as [H _].
  - right. vm_compute. reflexivity.
  - vm_compute. reflexivity.
  - apply H. right. right. now left.
Defined.

(** ** The exit status of main *)

Section Raised.
Variable run : string -> list string -> result (Z * string).
Variable repo_root : string.















End Raised.


(** ** print_table *)

Lemma widen_spec (cells : list string) :
  forall (i : nat) (widths widths' : list nat),
    widen i cells widths = Some widths' ->
    List.length widths' = List.length widths
    /\ (forall j w, widths !! j = Some w ->
          exists w', widths' !! j = Some w' /\ (w <= w')%nat)
    /\ (forall k c, cells !! k = Some c ->
          exists w', widths' !! (i + k)%nat = Some w' /\ (String.length c <= w')%nat).
Proof.
  induction cells as [|cell rest IH]; intros i widths widths' H; cbn [widen] in H.
  - inversion H; subst. split; [reflexivity|]. split; [eauto|]. intros k c Hk.
    now rewrite lookup_nil in Hk.
  - apply bind_Some in H as (w & Hw & H).
    destruct (IH _ _ _ H) as (Hlen & Hmono & Hcells).
    rewrite length_insert in Hlen. split; [exact Hlen|].
    assert (forall j v, widths !! j = Some v ->
              exists w', widths' !! j = Some w' /\ (v <= w')%nat) as Hmono'.
    { intros j v Hj. destruct (decide (i = j)) as [<-|Hne].
      - destruct (Hmono i (Nat.max w (String.length cell))) as (w' & Hw' & Hle).
        { apply list_lookup_insert_eq. now apply lookup_lt_Some in Hw. }
        exists w'. split; [exact Hw'|]. rewrite Hw in Hj. inversion Hj; subst. lia.
      - apply Hmono. now rewrite list_lookup_insert_ne. }
    split; [exact Hmono'|].
    intros [|k] c Hk; cbn in Hk.
    + inversion Hk; subst c. rewrite Nat.add_0_r.
      destruct (Hmono i (Nat.max w (String.length cell))) as (w' & Hw' & Hle).
      { apply list_lookup_insert_eq. now apply lookup_lt_Some in Hw. }
      exists w'. split; [exact Hw' | lia].
    + replace (i + S k)%nat with (S i + k)%nat by lia. now apply Hcells.
Qed.

Lemma widen_is_Some (cells : list string) :
  forall (i : nat) (widths : list nat),
    is_Some (widen i cells widths)
    <-> cells = [] \/ (i + List.length cells <= List.length widths)%nat.
Proof.
  induction cells as [|cell rest IH]; intros i widths; cbn [widen].
  - split; [now left | eauto].
  - destruct (widths !! i) as [w|] eqn:Hw; cbn.
    + rewrite IH, length_insert. apply lookup_lt_Some in Hw. cbn [List.length].
      split.
      * intros [->|H]; right; cbn; lia.
      * intros [?|H]; [discriminate|]. destruct rest; [now left | right; cbn in *; lia].
    + apply lookup_ge_None in Hw. split; [intros [? ?]; discriminate|].
      intros [?|H]; [discriminate | cbn in H; lia].
Qed.

Lemma column_widths_spec (rows : list (list string)) :
  forall widths widths' : list nat,
    column_widths rows widths = Some widths' ->
    List.length widths' = List.length widths
    /\ (forall j w, widths !! j = Some w ->
          exists w', widths' !! j = Some w' /\ (w <= w')%nat)
    /\ (forall row, In row rows ->
          forall k c, row !! k = Some c ->
            exists w', widths' !! k = Some w' /\ (String.length c <= w')%nat).
Proof.
  induction rows as [|row rest IH]; intros widths widths' H; cbn [column_widths] in H.
  - inversion H; subst. split; [reflexivity|]. split; [eauto|]. intros row [].
  - apply bind_Some in H as (ws1 & H1 & H).
    destruct (widen_spec _ _ _ _ H1) as (Hlen1 & Hmono1 & Hcells1).
    destruct (IH _ _ H) as (Hlen & Hmono & Hrows).
    split; [congruence|]. split.
    + intros j w Hj. destruct (Hmono1 j w Hj) as (w1 & Hw1 & Hle1).
      destruct (Hmono j w1 Hw1) as (w' & Hw' & Hle). exists w'. split; [exact Hw' | lia].
    + intros r [<-|Hin] k c Hk; [|now apply (Hrows r Hin)].
      destruct (Hcells1 k c Hk) as (w1 & Hw1 & Hle1). cbn in Hw1.
      destruct (Hmono k w1 Hw1) as (w' & Hw' & Hle). exists w'. split; [exact Hw' | lia].
Qed.

Lemma column_widths_is_Some (rows : list (list string)) :
  forall widths : list nat,
    is_Some (column_widths rows widths)
    <-> Forall (fun row => (List.length row <= List.length widths)%nat) rows.
Proof.
  induction rows as [|row rest IH]; intros widths; cbn [column_widths].
  - split; [constructor | eauto].
  - destruct (widen 0 row widths) as [ws1|] eqn:H1; cbn.
    + destruct (widen_spec _ _ _ _ H1) as (Hlen1 & _ & _).
      rewrite IH, Hlen1, List.Forall_cons_iff.
      assert (is_Some (widen 0 row widths)) as Hs by (rewrite H1; eauto).
      apply widen_is_Some in Hs.
      split; [|tauto]. intros H. split; [|exact H].
      destruct Hs as [->|Hs]; cbn in *; lia.
    + split; [intros [? ?]; discriminate|].
      rewrite List.Forall_cons_iff. intros [Hle _].
      assert (is_Some (widen 0 row widths)) as [? Hs]
        by (apply widen_is_Some; right; cbn; lia).
      congruence.
Qed.

Lemma padded_cells (row : list string) :
  forall widths : list nat,
    (List.length row <= List.length widths)%nat ->
    (forall k c, row !! k = Some c ->
       exists w, widths !! k = Some w /\ (String.length c <= w)%nat) ->
    map String.length (zip_with ljust row widths) = firstn (List.length row) widths.
Proof.
  induction row as [|c rest IH]; intros widths Hlen Hb; [reflexivity|].
  destruct widths as [|w ws]; [cbn in Hlen; lia|].
  destruct (Hb 0%nat c eq_refl) as (w' & Hw' & Hle). cbn in Hw'. inversion Hw'; subst w'.
  cbn [zip_with map List.length firstn]. rewrite length_ljust by exact Hle.
  f_equal. apply IH; [cbn in Hlen; lia|].
  intros k c' Hk. exact (Hb (S k) c' Hk).
Qed.

Lemma padded_line_length (row : list string) (widths : list nat) :
  (List.length row <= List.length widths)%nat ->
  (forall k c, row !! k = Some c ->
     exists w, widths !! k = Some w /\ (String.length c <= w)%nat) ->
  exists line,
    padded_line (List.length row) row widths = Some line
    /\ String.length line
       = (list_sum (firstn (List.length row) widths) + 3 * (List.length row - 1))%nat.
Proof.
  intros Hlen Hb. unfold padded_line.
  assert (mapM (fun i => cell ← row !! i; w ← widths !! i; Some (ljust cell w))
               (seq 0 (List.length row))
          = Some (zip_with ljust row widths)) as Hm.
  { apply mapM_Some. apply Forall2_same_length_lookup_2.
    - rewrite length_seq, length_zip_with. lia.
    - intros i x y Hx Hy. apply lookup_seq in Hx as [-> _]. cbn.
      apply lookup_zip_with_Some in Hy as (c & w & -> & Hc & Hw).
      rewrite Hc. cbn. rewrite Hw. reflexivity. }
  rewrite Hm. cbn. eexists. split; [reflexivity|].
  rewrite length_join, (padded_cells row widths Hlen Hb), length_zip_with.
  cbn. f_equal. lia.
Qed.

Lemma padded_line_short (n : nat) (row : list string) (widths : list nat) :
  (List.length row < n)%nat -> padded_line n row widths = None.
Proof.
  intros H. unfold padded_line.
  assert (mapM (fun i => cell ← row !! i; w ← widths !! i; Some (ljust cell w)) (seq 0 n)
          = None) as ->; [|reflexivity].
  apply mapM_None. apply List.Exists_exists. exists (List.length row). split.
  - apply list_elem_of_In. apply elem_of_seq. lia.
  - rewrite (lookup_ge_None_2 row (List.length row)) by lia. reflexivity.
Qed.

Lemma separator_line_length (widths : list nat) :
  exists line,
    separator_line (List.length widths) widths = Some line
    /\ String.length line = (list_sum widths + 3 * (List.length widths - 1))%nat.
Proof.
  unfold separator_line.
  assert (mapM (fun i => w ← widths !! i; Some (repeat_char "-" w))
               (seq 0 (List.length widths))
          = Some (map (repeat_char "-") widths)) as Hm.
  { apply mapM_Some. apply Forall2_same_length_lookup_2.
    - now rewrite length_seq, length_map.
    - intros i x y Hx Hy. apply lookup_seq in Hx as [-> _]. cbn.
      rewrite list_lookup_fmap in Hy.
      destruct (widths !! i) as [w|]; [|discriminate]. cbn in Hy |- *. congruence. }
  rewrite Hm. cbn. eexists. split; [reflexivity|].
  rewrite length_join, map_map, length_map.
  rewrite (map_ext _ (fun w => w) (length_repeat_char "-")), map_id. reflexivity.
Qed.

(** The closing loop over rows that fit the widths: every line has the width
    of the table when the row has all its cells. *)
Lemma print_rows_full (n : nat) (columns : list string -> nat)
    (widths : list nat) (rows : list (list string)) :
  List.length widths = n ->
  (forall row, In row rows -> List.length row = n /\ columns row = n) ->
  (forall row, In row rows ->
     forall k c, row !! k = Some c ->
       exists w, widths !! k = Some w /\ (String.length c <= w)%nat) ->
  exists lines,
    print_rows columns rows widths = (lines, Some tt)
    /\ List.length lines = List.length rows
    /\ Forall (fun line => String.length line = (list_sum widths + 3 * (n - 1))%nat) lines.
Proof.
  intros Hn. induction rows as [|row rest IH]; intros Hlen Hb.
  - exists []. repeat split; constructor.
  - destruct IH as (lines & Hp & Hl & Hf).
    { intros r Hr. apply Hlen. now right. }
    { intros r Hr. apply Hb. now right. }
    destruct (Hlen row (or_introl eq_refl)) as [Hrow Hcol].
    destruct (padded_line_length row widths) as (line & Hline & Hw).
    { lia. } { apply Hb. now left. }
    rewrite Hrow in Hline, Hw.
    cbn [print_rows]. rewrite Hcol, Hline, Hp.
    exists (line :: lines). split; [reflexivity|]. split; [cbn; lia|].
    constructor; [|exact Hf].
    rewrite Hw. rewrite <- Hn at 1. now rewrite firstn_all.
Qed.

(** The closing loop of git_coordination.py returns only when no row is
    short of cells. *)
Lemma print_rows_returns (n : nat) (rows : list (list string)) (widths : list nat) :
  snd (print_rows (fun _ => n) rows widths) = Some tt ->
  Forall (fun row => (n <= List.length row)%nat) rows.
Proof.
  induction rows as [|row rest IH]; intros H; [constructor|].
  cbn [print_rows] in H.
  destruct (padded_line n row widths) eqn:Hrow; [|discriminate].
  destruct (print_rows _ rest widths) as [printed r]. cbn [snd] in H, IH.
  constructor; [|now apply IH].
  destruct (Nat.lt_ge_cases (List.length row) n); [|assumption].
  rewrite padded_line_short in Hrow by assumption. discriminate.
Qed.

(** [print_table] returns exactly when every row has as many cells as there
    are headers: a longer row raises IndexError before anything is printed, a
    shorter one when its line is built.  A table that is printed is aligned:
    the header, the separator and the rows, two lines more than there are
    rows, all have the same length.  The two tables of [main] are of that
    kind. *)
Theorem print_table_aligned (headers : list string) (rows : list (list string)) :
  (snd (print_table headers rows) = Some tt
   <-> Forall (fun row => List.length row = List.length headers) rows)
  /\ (rows <> [] ->
      Forall (fun row => List.length row = List.length headers) rows ->
      exists width,
        Forall (fun line => String.length line = width) (fst (print_table headers rows))
        /\ List.length (fst (print_table headers rows)) = (2 + List.length rows)%nat)
  /\ (forall deltas,
        snd (print_table ["branch"; "ahead"; "behind"; "category"] (branch_rows deltas))
        = Some tt)
  /\ (forall worktrees,
        snd (print_table ["branch"; "dirty"; "prunable"; "path"] (worktree_rows worktrees))
        = Some tt).
Proof.
  assert (forall hs rs,
            rs <> [] ->
            Forall (fun row => List.length row = List.length hs) rs ->
            exists width lines,
              print_table hs rs = (lines, Some tt)
              /\ Forall (fun line => String.length line = width) lines
              /\ List.length lines = (2 + List.length rs)%nat) as Hfull.
  { intros hs rs Hne Hall. unfold print_table.
    destruct rs as [|r0 rs0] eqn:Ers; [contradiction|]. rewrite <- Ers in *. clear Hne.
    assert (is_Some (column_widths rs (map String.length hs))) as [widths Hw].
    { apply column_widths_is_Some. eapply List.Forall_impl; [|exact Hall].
      intros row Hrow. cbn in Hrow. rewrite length_map. lia. }
    rewrite Hw. destruct (column_widths_spec _ _ _ Hw) as (Hlen & Hmono & Hrows).
    rewrite length_map in Hlen.
    destruct (padded_line_length hs widths) as (header & Hh & Hhl); [lia| |].
    { intros k c Hk. apply (Hmono k (String.length c)).
      rewrite list_lookup_fmap, Hk. reflexivity. }
    rewrite Hh. destruct (separator_line_length widths) as (sep & Hs & Hsl).
    rewrite Hlen in Hs. rewrite Hs.
    destruct (print_rows_full (List.length hs) (fun _ => List.length hs) widths rs Hlen)
      as (lines & Hp & Hl & Hf).
    { intros row Hin. rewrite List.Forall_forall in Hall. split; [now apply Hall | reflexivity]. }
    { exact Hrows. }
    rewrite Hp. exists (list_sum widths + 3 * (List.length hs - 1))%nat.
    eexists. split; [reflexivity|]. split; [|cbn; lia].
    constructor; [now rewrite Hhl, <- Hlen, firstn_all|].
    constructor; [now rewrite Hsl, Hlen | exact Hf]. }
  assert (forall hs rs,
            Forall (fun row => List.length row = List.length hs) rs ->
            snd (print_table hs rs) = Some tt) as Hok.
  { intros hs [|r0 rs0] Hall; [reflexivity|].
    destruct (Hfull hs (r0 :: rs0)) as (w & lines & -> & _); [discriminate | exact Hall|].
    reflexivity. }
  split; [|split; [|split]].
  - split; [|apply Hok].
    intros H. unfold print_table in H.
    destruct rows as [|r0 rs0] eqn:Ers; [constructor|]. rewrite <- Ers in *.
    destruct (column_widths rows (map String.length headers)) as [widths|] eqn:Hw;
      [|discriminate].
    assert (Forall (fun row => (List.length row <= List.length headers)%nat) rows) as Hle.
    { rewrite <- (length_map String.length headers). apply column_widths_is_Some. eauto. }
    destruct (padded_line _ headers widths); [|discriminate].
    destruct (separator_line _ widths); [|discriminate].
    destruct (print_rows _ rows widths) as [printed r] eqn:Hp. cbn [snd] in H. subst r.
    pose proof (print_rows_returns (List.length headers) rows widths) as Hge.
    rewrite Hp in Hge. specialize (Hge eq_refl).
    rewrite List.Forall_forall in Hle, Hge. apply List.Forall_forall.
    intros row Hin. specialize (Hle row Hin). specialize (Hge row Hin). lia.
  - intros Hne Hall. destruct (Hfull headers rows Hne Hall) as (w & lines & -> & Hf & Hl).
    exists w. split; assumption.
  - intros deltas. apply Hok. unfold branch_rows.
    apply List.Forall_forall. intros row Hin. apply in_map_iff in Hin as (d & <- & _).
    reflexivity.
  - intros worktrees. apply Hok. unfold worktree_rows.
    apply List.Forall_forall. intros row Hin. apply in_map_iff in Hin as (d & <- & _).
    reflexivity.
Qed.

End GitCoordinationProps.

(* ===================================================================== *)
(** * Properties of scripts/session_monitor.py *)
(* ===================================================================== *)

Module SessionMonitorProps.
Import Py PyFacts SessionMonitor.

(** ** Strings: lengths *)

Lemma length_append (a b : string) :
  String.length (a +:+ b) = (String.length a + String.length b)%nat.
Proof. induction a as [|c a IH]; simpl; [reflexivity | now rewrite IH]. Qed.

Lemma length_substring_0 (n : nat) (s : string) :
  (n <= String.length s)%nat -> String.length (String.substring 0 n s) = n.
Proof.
  revert n. induction s as [|c s IH]; intros [|n] H; simpl in *; try reflexivity; try lia.
  rewrite IH; [reflexivity | lia].
Qed.

(** ** truncate *)

Lemma truncate_short (text : string) (limit : Z) :
  (Z.of_nat (String.length text) <= limit)%Z -> truncate text limit = text.
Proof.
  intros H. unfold truncate.
  destruct (Z.leb_spec (Z.of_nat (String.length text)) limit); [reflexivity | lia].
Qed.

Lemma truncate_long (text : string) (limit : Z) :
  (3 <= limit < Z.of_nat (String.length text))%Z ->
  truncate text limit = String.substring 0 (Z.to_nat (limit - 3)) text +:+ "..."
  /\ Z.of_nat (String.length (truncate text limit)) = limit.
Proof.
  intros H. unfold truncate, slice_to.
  destruct (Z.leb_spec (Z.of_nat (String.length text)) limit); [lia|].
  destruct (Z.ltb_spec (limit - 3) 0); [lia|].
  split; [reflexivity|].
  rewrite length_append, length_substring_0 by lia. simpl. lia.
Qed.

(** [normalize_whitespace] keeps the words and puts single spaces between
    them. *)
Lemma normalize_whitespace_collapses (text : string) :
  collapsed (normalize_whitespace text) = true
  /\ split (normalize_whitespace text) = split text.
Proof.
  unfold normalize_whitespace. split.
  - apply join_words_collapsed, split_words.
  - apply split_join_words, split_words.
Qed.

(** C6 (as the code has it).  [truncate] leaves whitespace alone: collapsing
    whitespace runs to single spaces is the work of [normalize_whitespace],
    which keeps the words of the text.  [truncate] hands a text no longer
    than the limit back unchanged; a longer one, for a limit of at least 3,
    comes back as its first limit-3 characters followed by "...", limit
    characters in all: 150 characters under limit 100 give 100 characters
    ending in "...", 5 characters under limit 100 come back unchanged.  The
    same holds of a text that went through [normalize_whitespace] first. *)
Theorem truncate_cuts_to_limit (text : string) (limit : Z) :
  ((Z.of_nat (String.length text) <= limit)%Z -> truncate text limit = text)
  /\ ((3 <= limit < Z.of_nat (String.length text))%Z ->
      truncate text limit = String.substring 0 (Z.to_nat (limit - 3)) text +:+ "..."
      /\ Z.of_nat (String.length (truncate text limit)) = limit)
  /\ (String.length text = 150%nat ->
      truncate text 100 = String.substring 0 97 text +:+ "..."
      /\ String.length (truncate text 100) = 100%nat)
  /\ (String.length text = 5%nat -> truncate text 100 = text)
  /\ (collapsed (normalize_whitespace text) = true
      /\ split (normalize_whitespace text) = split text)
  /\ (let t := normalize_whitespace text in
      ((Z.of_nat (String.length t) <= limit)%Z -> truncate t limit = t)
      /\ ((3 <= limit < Z.of_nat (String.length t))%Z ->
          truncate t limit = String.substring 0 (Z.to_nat (limit - 3)) t +:+ "..."
          /\ Z.of_nat (String.length (truncate t limit)) = limit)).
Proof.
  split; [apply truncate_short|].
  split; [apply truncate_long|].
  split; [|split; [|split; [apply normalize_whitespace_collapses|]]].
  - intros H. destruct (truncate_long text 100) as [E L]; [lia|].
    split; [exact E | lia].
  - intros H. apply truncate_short. lia.
  - cbv zeta. split; [apply truncate_short | apply truncate_long].
Qed.

(** C6 (counterexample).  A run of two spaces goes through [truncate]
    untouched; [normalize_whitespace] is what collapses it.  And under a limit
    below 3 the slice counts from the end: six characters under limit 2 come
    back as five characters and the marker. *)
Lemma truncate_keeps_whitespace_runs :
  truncate "a  b" 100 = "a  b"
  /\ normalize_whitespace "a  b" = "a b"
  /\ truncate "abcdef" 2 = "abcde...".
Proof. repeat split; reflexivity. Qed.

(** ** The tail engine *)

Section Tail.
Variable json_loads : string -> option json.
Variable repr : json -> string.
Variable w : world.
Variable cache : gmap string SessionRecord.

Lemma skip_past_end (off : nat) (text : string) :
  (String.length text <= off)%nat -> skip off text = "".
Proof.
  revert off. induction text as [|c r IH]; intros [|off] H; simpl in *;
    try reflexivity; try lia.
  apply IH. lia.
Qed.

Lemma skip_append (a b : string) : skip (String.length a) (a +:+ b) = b.
Proof. induction a as [|c a IH]; simpl; [now destruct b | exact IH]. Qed.

(** A turn of the loop touches the cursor of its own path only. *)
Lemma poll_path_other (p q : string) (offsets offsets1 : gmap string nat)
    (printed : list string) :
  poll_path json_loads repr w cache p offsets = (printed, Ok offsets1) ->
  q <> p -> offsets1 !! q = offsets !! q.
Proof.
  unfold poll_path. intros H Hq.
  destruct (files w !! p) as [f|].
  - destruct (readable f).
    + destruct (offsets !! p) as [off|]; [|discriminate].
      destruct (tail_file json_loads repr cache p f off) as [pr [pos|e]];
        simpl in H; [|discriminate].
      inversion H; subst. now rewrite lookup_insert_ne.
    + inversion H; subst. now rewrite lookup_delete_ne.
  - inversion H; subst. now rewrite lookup_delete_ne.
Qed.

Lemma poll_paths_other (paths : list string) (q : string) :
  forall (offsets offsets' : gmap string nat) (printed : list string),
    poll_paths json_loads repr w cache paths offsets = (printed, Ok offsets') ->
    q ∉ paths -> offsets' !! q = offsets !! q.
Proof.
  induction paths as [|p rest IH]; intros offsets offsets' printed H Hq; simpl in H.
  - now inversion H.
  - apply not_elem_of_cons in Hq as [Hqp Hq].
    destruct (poll_path json_loads repr w cache p offsets) as [pr [offsets1|e]] eqn:Hp;
      [|discriminate].
    destruct (poll_paths json_loads repr w cache rest offsets1) as [pr' r'] eqn:Hrest.
    inversion H; subst.
    rewrite (IH _ _ _ Hrest Hq). eapply poll_path_other; eauto.
Qed.

(** What a turn does depends on the cursor of its path alone. *)
Lemma poll_path_lookup (p : string) (offsets offsets1 : gmap string nat)
    (printed : list string) (off : nat) (f : file) :
  poll_path json_loads repr w cache p offsets = (printed, Ok offsets1) ->
  offsets !! p = Some off -> files w !! p = Some f -> readable f = true ->
  tail_file json_loads repr cache p f off = (printed, Ok (tell_at_end off (data f)))
  /\ offsets1 !! p = Some (tell_at_end off (data f)).
Proof.
  unfold poll_path. intros H Hoff Hf Hr. rewrite Hf, Hr, Hoff in H.
  destruct (tail_file json_loads repr cache p f off) as [pr [pos|e]] eqn:Ht;
    simpl in H; [|discriminate].
  inversion H; subst; clear H.
  unfold tail_file in Ht.
  destruct (tail_lines json_loads repr (cache !! p) p (readlines (skip off (data f))))
    as [pr' [[]|e]]; simpl in Ht; [|discriminate].
  inversion Ht; subst. split; [reflexivity|]. apply lookup_insert_eq.
Qed.

(** In a poll that runs to its end, each tracked path gets its turn, on the
    cursor it had when the poll began; what the turn prints is part of what
    the poll prints. *)
Lemma poll_paths_visit (paths : list string) (p : string) :
  forall (offsets offsets' : gmap string nat) (printed : list string),
    NoDup paths -> p ∈ paths ->
    poll_paths json_loads repr w cache paths offsets = (printed, Ok offsets') ->
    exists offsets0 offsets1 pr before after,
      offsets0 !! p = offsets !! p
      /\ poll_path json_loads repr w cache p offsets0 = (pr, Ok offsets1)
      /\ offsets' !! p = offsets1 !! p
      /\ printed = before ++ pr ++ after.
Proof.
  induction paths as [|h rest IH]; intros offsets offsets' printed Hnd Hin H.
  - now apply elem_of_nil in Hin.
  - simpl in H. apply NoDup_cons in Hnd as [Hh Hnd].
    destruct (poll_path json_loads repr w cache h offsets) as [pr [offsets1|e]] eqn:Hp;
      [|discriminate].
    destruct (poll_paths json_loads repr w cache rest offsets1) as [pr' r'] eqn:Hrest.
    inversion H; subst; clear H.
    destruct (decide (p = h)) as [->|Hne].
    + exists offsets, offsets1, pr, [], pr'. repeat split; auto.
      eapply poll_paths_other; eauto.
    + apply elem_of_cons in Hin as [?|Hin]; [contradiction|].
      destruct (IH _ _ _ Hnd Hin Hrest)
        as (o0 & o1 & pr1 & before & after & E0 & E1 & E2 & E3).
      exists o0, o1, pr1, (pr ++ before), after. repeat split; auto.
      * rewrite E0. eapply poll_path_other; eauto.
      * rewrite E3. now rewrite <- app_assoc.
Qed.

(** The poll as a whole, at one tracked, readable file: the lines of its turn
    are printed, and its cursor becomes what [tell] reports. *)
Lemma poll_offsets_at (offsets offsets' : gmap string nat) (printed : list string)
    (p : string) (off : nat) (f : file) :
  poll_offsets json_loads repr w cache offsets = (printed, Ok offsets') ->
  offsets !! p = Some off -> files w !! p = Some f -> readable f = true ->
  exists pr before after,
    tail_file json_loads repr cache p f off = (pr, Ok (tell_at_end off (data f)))
    /\ printed = before ++ pr ++ after
    /\ offsets' !! p = Some (tell_at_end off (data f)).
Proof.
  unfold poll_offsets. intros H Hoff Hf Hr.
  assert (p ∈ (map_to_list offsets).*1) as Hin.
  { apply list_elem_of_fmap. exists (p, off). split; [reflexivity|].
    now apply elem_of_map_to_list. }
  destruct (poll_paths_visit _ p _ _ _ (NoDup_fst_map_to_list offsets) Hin H)
    as (o0 & o1 & pr & before & after & E0 & E1 & E2 & E3).
  rewrite Hoff in E0.
  destruct (poll_path_lookup _ _ _ _ _ _ E1 E0 Hf Hr) as [Ht Ho].
  exists pr, before, after. repeat split; auto. now rewrite E2.
Qed.

End Tail.

(** ** Lines appended between two polls *)

Lemma readlines_cons (c : ascii) (r : string) :
  readlines (String c r)
  = if Ascii.eqb c LF then String LF "" :: readlines r
    else if Ascii.eqb c CR then
      match r with
      | String c' r' =>
          if Ascii.eqb c' LF then String LF "" :: readlines r'
          else String LF "" :: readlines r
      | "" => [String LF ""]
      end
    else match readlines r with
         | l :: ls => String c l :: ls
         | [] => [String c ""]
         end.
Proof. reflexivity. Qed.

Lemma readlines_body (b rest : string) :
  no_newline b = true ->
  readlines (b +:+ NL +:+ rest) = (b +:+ NL) :: readlines rest.
Proof.
  induction b as [|c b IH]; intros H.
  - reflexivity.
  - cbn [no_newline] in H.
    apply andb_prop in H as [H Hb]. apply andb_prop in H as [Hlf Hcr].
    apply negb_true_iff in Hlf, Hcr.
    change (String c b +:+ NL +:+ rest) with (String c (b +:+ NL +:+ rest)).
    change (String c b +:+ NL) with (String c (b +:+ NL)).
    rewrite readlines_cons, Hlf, Hcr, (IH Hb). reflexivity.
Qed.

Lemma readlines_complete (bodies : list string) :
  forallb no_newline bodies = true ->
  readlines (complete_lines bodies) = map (fun b => b +:+ NL) bodies.
Proof.
  induction bodies as [|b rest IH]; intros H; [reflexivity|].
  cbn [forallb] in H. apply andb_prop in H as [Hb Hrest].
  cbn [complete_lines fold_right map].
  rewrite (readlines_body b _ Hb). f_equal. now apply IH.
Qed.

Section Appended.
Variable json_loads : string -> option json.
Variable repr : json -> string.

Lemma summarize_event_dict (d : list (string * json)) :
  exists summary, summarize_event repr (JDict d) = Ok summary.
Proof.
  unfold summarize_event. cbn [attr_get mbind result_bind].
  repeat match goal with
         | |- context [if ?b then _ else _] => destruct b
         | |- context [match ?x with _ => _ end] => destruct x
         end; eauto.
Qed.

Lemma tail_lines_count (record : option SessionRecord) (path : string)
    (lines : list string) :
  forallb (well_shaped json_loads) lines = true ->
  exists printed,
    tail_lines json_loads repr record path lines = (printed, Ok tt)
    /\ List.length printed = List.length (List.filter (emits json_loads repr) lines).
Proof.
  induction lines as [|line rest IH]; intros H.
  - exists []. split; reflexivity.
  - cbn [forallb] in H. apply andb_prop in H as [Hl Hrest].
    destruct (IH Hrest) as (printed & Ht & Hn).
    unfold well_shaped in Hl. cbn [tail_lines List.filter]. unfold emits at 1.
    destruct (json_loads line) as [obj|]; [|eauto].
    destruct obj; try discriminate.
    destruct (summarize_event_dict d) as (summary & Hs). rewrite Hs.
    destruct (nonempty summary); cbn [negb]; [|eauto].
    rewrite Ht. eexists. split; [reflexivity|]. cbn [List.length]. now rewrite Hn.
Qed.

(** The tail round trip on well-shaped input.  When the lines appended since
    the previous poll are complete and each either fails to decode or decodes
    to an object, the
    file's turn prints one entry per line that decodes with a non-empty
    summary, so at most one per line, and the position it hands back is the
    end of the file; a poll that runs to its end stores that position. *)
Theorem tail_appended_lines (w : world) (cache : gmap string SessionRecord)
    (offsets offsets' : gmap string nat) (printed : list string)
    (path : string) (f : file) (old : string) (bodies : list string) :
  offsets !! path = Some (String.length old) ->
  files w !! path = Some f -> readable f = true ->
  data f = old +:+ complete_lines bodies ->
  forallb no_newline bodies = true ->
  forallb (well_shaped json_loads) (map (fun b => b +:+ NL) bodies) = true ->
  exists pr,
    tail_file json_loads repr cache path f (String.length old)
    = (pr, Ok (String.length (data f)))
    /\ List.length pr
       = List.length (List.filter (emits json_loads repr) (map (fun b => b +:+ NL) bodies))
    /\ (List.length pr <= List.length bodies)%nat
    /\ (poll_offsets json_loads repr w cache offsets = (printed, Ok offsets') ->
        offsets' !! path = Some (String.length (data f))
        /\ exists before after, printed = before ++ pr ++ after).
Proof.
  intros Hoff Hf Hr Hdata Hnl Hws.
  destruct (tail_lines_count (cache !! path) path _ Hws) as (pr & Ht & Hn).
  assert (tell_at_end (String.length old) (data f) = String.length (data f)) as Htell.
  { unfold tell_at_end. rewrite Hdata, length_append. lia. }
  assert (tail_file json_loads repr cache path f (String.length old)
          = (pr, Ok (String.length (data f)))) as Hfile.
  { unfold tail_file. rewrite Htell.
    rewrite Hdata at 1. rewrite skip_append, (readlines_complete _ Hnl), Ht.
    reflexivity. }
  exists pr. split; [exact Hfile|]. split; [exact Hn|]. split.
  - rewrite Hn. etransitivity; [apply List.filter_length_le|].
    now rewrite length_map.
  - intros Hpoll.
    destruct (poll_offsets_at _ _ _ _ _ _ _ _ _ _ Hpoll Hoff Hf Hr)
      as (pr' & before & after & Ht' & Hp & Ho).
    rewrite Hfile in Ht'. inversion Ht'; subst pr'.
    rewrite Htell in Ho. split; [exact Ho | eauto].
Qed.

End Appended.

Lemma tail_appended_lines_witness :
  forallb no_newline [turn_line "2024-05-01T10:00:05Z" "/x/proj"; token_line; "junk"]
  = true
  /\ exists pr,
       tail_file sample_loads sample_repr ∅ log_a
         (mkFile (text_a +:+ complete_lines
                               [turn_line "2024-05-01T10:00:05Z" "/x/proj";
                                token_line; "junk"]) true true)
         (String.length text_a)
       = (pr, Ok (String.length
                    (text_a +:+ complete_lines
                                  [turn_line "2024-05-01T10:00:05Z" "/x/proj";
                                   token_line; "junk"])))
       /\ (List.length pr <= 3)%nat.
Proof.
  pose (bodies := [turn_line "2024-05-01T10:00:05Z" "/x/proj"; token_line; "junk"]).
  pose (f := mkFile (text_a +:+ complete_lines bodies) true true).
  assert (forallb no_newline bodies = true) as Hnl by (vm_compute; reflexivity).
  assert (forallb (well_shaped sample_loads) (map (fun b => b +:+ NL) bodies) = true)
    as Hws by (vm_compute; reflexivity).
  assert (({[log_a := String.length text_a]} : gmap string nat) !! log_a
          = Some (String.length text_a)) as Hoff by (vm_compute; reflexivity).
  assert (files (sample_world [(log_a, text_a +:+ complete_lines bodies)]) !! log_a
          = Some f) as Hf by (vm_compute; reflexivity).
  split; [exact Hnl|].
  destruct (tail_appended_lines sample_loads sample_repr
              (sample_world [(log_a, text_a +:+ complete_lines bodies)]) ∅
              {[log_a := String.length text_a]} ∅ [] log_a f text_a bodies
              Hoff Hf eq_refl eq_refl Hnl Hws) as (pr & Ht & _ & Hl & _).
  exists pr. split; [exact Ht | exact Hl].
Defined.

(** C1 (as the code has it).  In a poll that runs to its end, a tracked,
    readable file whose stored offset lies past its end is read from that
    offset as it stands (no clipping, no reset): nothing is read or printed,
    and the same offset, still past the end, is stored again.  A stored offset
    within the file is replaced by the file's size. *)
Theorem tail_offset_past_end_is_kept
    (json_loads : string -> option json) (repr : json -> string)
    (w : world) (cache : gmap string SessionRecord)
    (offsets offsets' : gmap string nat) (printed : list string)
    (path : string) (off : nat) (f : file) :
  poll_offsets json_loads repr w cache offsets = (printed, Ok offsets') ->
  offsets !! path = Some off -> files w !! path = Some f -> readable f = true ->
  ((String.length (data f) < off)%nat ->
     skip off (data f) = ""
     /\ tail_file json_loads repr cache path f off = ([], Ok off)
     /\ offsets' !! path = Some off)
  /\ ((off <= String.length (data f))%nat ->
     offsets' !! path = Some (String.length (data f))).
Proof.
  intros H Hoff Hf Hr.
  destruct (poll_offsets_at _ _ _ _ _ _ _ _ _ _ H Hoff Hf Hr)
    as (pr & before & after & Ht & _ & Ho).
  unfold tell_at_end in *. split; intros Hlt.
  - assert (skip off (data f) = "") as Hs by (apply skip_past_end; lia).
    replace (Nat.max off (String.length (data f))) with off in * by lia.
    repeat split; auto.
    unfold tail_file. rewrite Hs. simpl. unfold tell_at_end.
    now replace (Nat.max off (String.length (data f))) with off by lia.
  - now replace (Nat.max off (String.length (data f)))
      with (String.length (data f)) in Ho by lia.
Qed.

Lemma tail_offset_past_end_is_kept_witness :
  (String.length ("ab" +:+ NL) < 10)%nat
  /\ tail_file sample_loads sample_repr ∅ log_a (mkFile ("ab" +:+ NL) true true) 10
     = ([], Ok 10%nat)
  /\ ({[log_a := 10%nat]} : gmap string nat) !! log_a = Some 10%nat.
Proof.
  assert (String.length ("ab" +:+ NL) < 10)%nat as Hlt by (vm_compute; lia).
  split; [exact Hlt|].
  assert (poll_offsets sample_loads sample_repr (sample_world [(log_a, "ab" +:+ NL)]) ∅
            {[log_a := 10%nat]} = ([], Ok {[log_a := 10%nat]})) as Hpoll
    by (vm_compute; reflexivity).
  assert (({[log_a := 10%nat]} : gmap string nat) !! log_a = Some 10%nat) as Hoff
    by (vm_compute; reflexivity).
  assert (files (sample_world [(log_a, "ab" +:+ NL)]) !! log_a
          = Some (mkFile ("ab" +:+ NL) true true)) as Hf
    by (vm_compute; reflexivity).
  destruct (tail_offset_past_end_is_kept _ _ _ _ _ _ _ _ _ _ Hpoll Hoff Hf eq_refl)
    as [H _].
  destruct (H Hlt) as (_ & H1 & H2). split; assumption.
Defined.

(** C1 (counterexample).  A three-byte file tracked at offset 10: the poll
    stores 10 again, which exceeds the size of the file. *)
Lemma tail_offset_exceeds_size_after_poll :
  poll_offsets sample_loads sample_repr (sample_world [(log_a, "ab" +:+ NL)]) ∅
    {[log_a := 10%nat]}
  = ([], Ok {[log_a := 10%nat]})
  /\ String.length ("ab" +:+ NL) = 3%nat
  /\ (3 < 10)%nat.
Proof. split; [vm_compute; reflexivity | split; [reflexivity | lia]]. Qed.

(** C3 (the defect).  Two complete lines are appended to a tracked log: a
    turn-context record and the line [[]], which is JSON but no object.  The
    poll prints the first and then leaves with AttributeError: no offset is
    stored for the file. *)
Theorem tail_non_object_line_raises :
  sample_loads ("[]" +:+ NL) = Some (JList [])
  /\ summarize_event sample_repr (JList []) = Raise AttributeError
  /\ poll_offsets sample_loads sample_repr
       (sample_world
          [(log_a, text_a +:+ turn_line "2024-05-01T10:00:05Z" "/x/proj" +:+ NL
                   +:+ "[]" +:+ NL)]) ∅
       {[log_a := String.length text_a]}
     = (["2024-05-01T10:00:05Z | unknown | turn cwd=/x/proj | " +:+ log_a],
        Raise AttributeError).
Proof. repeat split; vm_compute; reflexivity. Qed.

(** ** discover_sessions *)

Section Discovery.
Variable json_loads : string -> option json.
Variable repr : json -> string.
Variable fromisoformat : string -> option Z.
Variable realpath : string -> string.
Variable w : world.
Variable project_root : string.

Lemma to_session_record_empty (path : string) :
  to_session_record repr path [] = None.
Proof. reflexivity. Qed.

(** A log whose first session_meta record is kept ends up among the results,
    when the pass over the logs runs to its end. *)
Lemma collect_sessions_keeps (paths : list string) (path : string)
    (meta : list (string * json)) (record : SessionRecord) :
  In path paths ->
  read_session_meta json_loads w path = Ok (Some meta) ->
  to_session_record repr path meta = Some record ->
  is_within_root realpath project_root (cwd record) = true ->
  forall results,
    collect_sessions json_loads repr realpath w project_root paths = Ok results ->
    In record results.
Proof.
  intros Hin Hmeta Hrec Hroot.
  assert (truthy (JDict meta) = true) as Hmt.
  { destruct meta; [now rewrite to_session_record_empty in Hrec | reflexivity]. }
  induction paths as [|p rest IH]; intros results Hrun; [contradiction|].
  cbn [collect_sessions] in Hrun.
  apply bind_Ok_inv in Hrun as (m & Hm & Hrun).
  destruct Hin as [->|Hin].
  - rewrite Hmeta in Hm. inversion Hm; subst m; clear Hm.
    rewrite Hmt, Hrec, Hroot in Hrun. simpl in Hrun.
    apply bind_Ok_inv in Hrun as (rs & _ & Hrun).
    inversion Hrun; subst. now left.
  - destruct m as [m|]; [|now apply IH].
    destruct (negb (truthy (JDict m))); [now apply IH|].
    destruct (to_session_record repr p m) as [r|]; [|now apply IH].
    destruct (negb (is_within_root realpath project_root (cwd r))); [now apply IH|].
    apply bind_Ok_inv in Hrun as (rs & Hrs & Hrun).
    inversion Hrun; subst. right. now apply IH.
Qed.

(** [sorted] computes every key: one start time that does not parse makes it
    raise. *)
Lemma sort_keys_raises (records : list SessionRecord) (record : SessionRecord) :
  In record records ->
  parse_iso fromisoformat (started_at record) = Raise ValueError ->
  sort_keys fromisoformat records = Raise ValueError.
Proof.
  intros Hin Hbad. induction records as [|r rest IH]; [contradiction|].
  simpl. destruct (parse_iso fromisoformat (started_at r)) as [k|e] eqn:Hk.
  - destruct Hin as [->|Hin]; [congruence|].
    simpl. now rewrite IH.
  - unfold parse_iso in Hk.
    destruct (fromisoformat _); [discriminate | now inversion Hk].
Qed.

End Discovery.

(** C9.  If the logs hold one session_meta record that is kept (it has an id,
    a non-empty timestamp and a working directory inside the project root) and
    whose timestamp does not parse as ISO-8601, the whole discovery pass ends
    in an exception instead of a list of sessions: the parse done for sorting
    is not fault-isolated. *)
Theorem discover_sessions_bad_timestamp_raises
    (json_loads : string -> option json) (repr : json -> string)
    (fromisoformat : string -> option Z) (realpath : string -> string)
    (w : world) (project_root path : string)
    (meta : list (string * json)) (record : SessionRecord) :
  In path (iter_log_files w) ->
  read_session_meta json_loads w path = Ok (Some meta) ->
  to_session_record repr path meta = Some record ->
  is_within_root realpath project_root (cwd record) = true ->
  parse_iso fromisoformat (started_at record) = Raise ValueError ->
  started_at record <> ""
  /\ exists e,
       discover_sessions json_loads repr fromisoformat realpath w project_root
       = Raise e.
Proof.
  intros Hin Hmeta Hrec Hroot Hbad. split.
  - unfold to_session_record in Hrec.
    destruct (nonempty (strip (py_str repr (dict_get meta "id" (JStr ""))))),
      (nonempty (strip (py_str repr (dict_get meta "timestamp" (JStr ""))))) eqn:Hts,
      (nonempty (py_str repr (dict_get meta "cwd" (JStr ""))));
      simpl in Hrec; try discriminate.
    inversion Hrec; subst; simpl. intros E. rewrite E in Hts. discriminate.
  - unfold discover_sessions.
    destruct (collect_sessions json_loads repr realpath w project_root (iter_log_files w))
      as [results|e] eqn:Hc; [|now exists e].
    exists ValueError. simpl.
    rewrite (sort_keys_raises fromisoformat results record); [reflexivity| |exact Hbad].
    eapply collect_sessions_keeps; eauto.
Qed.

Lemma discover_sessions_bad_timestamp_raises_witness :
  discover_sessions sample_loads sample_repr sample_fromisoformat sample_realpath
    (sample_world [(log_a, text_a)]) "/x/proj"
  = Ok [mkSessionRecord "s-1" "2024-05-01T10:00:00Z" "/x/proj" "primary" "" "" "" log_a]
  /\ "yesterday" <> ""
  /\ exists e,
       discover_sessions sample_loads sample_repr sample_fromisoformat sample_realpath
         (sample_world [(log_a, text_a); (log_b, text_b)]) "/x/proj"
       = Raise e.
Proof.
  split; [vm_compute; reflexivity|].
  apply (discover_sessions_bad_timestamp_raises sample_loads sample_repr
           sample_fromisoformat sample_realpath
           (sample_world [(log_a, text_a); (log_b, text_b)]) "/x/proj" log_b
           [("id", JStr "s-2"); ("timestamp", JStr "yesterday");
            ("cwd", JStr "/x/proj/sub")]
           (mkSessionRecord "s-2" "yesterday" "/x/proj/sub" "primary" "" "" "" log_b)).
  - right. left. reflexivity.
  - vm_compute; reflexivity.
  - vm_compute; reflexivity.
  - vm_compute; reflexivity.
  - vm_compute; reflexivity.
Defined.

(** ** is_within_root *)

Lemma append_cons (c : ascii) (a b : string) : String c a +:+ b = String c (a +:+ b).
Proof. reflexivity. Qed.

Lemma append_nil (b : string) : "" +:+ b = b.
Proof. reflexivity. Qed.

Lemma split_on_no_slash (s : string) : forallb no_slash (split_on "/"%char s) = true.
Proof.
  induction s as [|c r IH]; [reflexivity|].
  cbn [split_on]. destruct (Ascii.eqb c "/"%char) eqn:Hc; [cbn; exact IH|].
  destruct (split_on "/"%char r) as [|l ls]; cbn in *; rewrite Hc; [reflexivity|].
  exact IH.
Qed.

Lemma components_are_components (p : string) :
  forallb is_component (components p) = true.
Proof.
  unfold components. pose proof (split_on_no_slash p) as H.
  induction (split_on "/"%char p) as [|c l IH]; [reflexivity|].
  cbn [forallb] in H. apply andb_prop in H as [Hc Hl].
  cbn [List.filter]. destruct (nonempty c && negb (c =? ".")) eqn:Hk; [|now apply IH].
  cbn [forallb]. rewrite (IH Hl). unfold is_component.
  apply andb_prop in Hk as [-> _]. now rewrite Hc.
Qed.

Lemma common_prefix_components (l1 l2 : list string) :
  forallb is_component l1 = true ->
  forallb is_component (common_prefix l1 l2) = true.
Proof.
  revert l2. induction l1 as [|x t IH]; intros [|y t2] H; try reflexivity.
  cbn [forallb] in H. apply andb_prop in H as [Hx Ht].
  cbn [common_prefix]. destruct (x =? y); [|reflexivity].
  cbn [forallb]. now rewrite Hx, IH.
Qed.

Lemma common_prefix_all (l1 l2 : list string) :
  common_prefix l1 l2 = l1 <-> exists rest, l2 = l1 ++ rest.
Proof.
  revert l2. induction l1 as [|x t IH]; intros l2.
  - split; [exists l2; reflexivity | now destruct l2].
  - destruct l2 as [|y t2]; cbn [common_prefix].
    + split; [discriminate | intros [rest H]; discriminate].
    + destruct (String.eqb_spec x y) as [->|Hne].
      * split.
        -- intros H. inversion H as [H']. rewrite H'.
           apply IH in H' as [rest ->]. now exists rest.
        -- intros [rest H]. inversion H; subst. f_equal. apply IH. eauto.
      * split; [discriminate | intros [rest H]; inversion H; congruence].
Qed.

Lemma join_cons (c : string) (l : list string) :
  join "/" (c :: l) = c +:+ after_first l.
Proof. destruct l; cbn; [now rewrite append_empty_r | reflexivity]. Qed.

Lemma component_app_inj (c1 c2 rest1 rest2 : string) :
  no_slash c1 = true -> no_slash c2 = true ->
  match rest1 with "" => True | String c _ => c = "/"%char end ->
  match rest2 with "" => True | String c _ => c = "/"%char end ->
  c1 +:+ rest1 = c2 +:+ rest2 -> c1 = c2 /\ rest1 = rest2.
Proof.
  revert c2. induction c1 as [|a c1 IH]; intros [|b c2] H1 H2 R1 R2 E.
  - now rewrite !append_nil in E.
  - rewrite append_nil, append_cons in E. subst rest1. cbn in R1. subst b.
    cbn in H2. discriminate.
  - rewrite append_nil, append_cons in E. subst rest2. cbn in R2. subst a.
    cbn in H1. discriminate.
  - rewrite !append_cons in E. inversion E; subst.
    cbn [no_slash] in H1, H2.
    apply andb_prop in H1 as [_ H1]. apply andb_prop in H2 as [_ H2].
    destruct (IH c2 H1 H2 R1 R2) as [-> ->]; auto.
Qed.

Lemma after_first_shape (l : list string) :
  match after_first l with "" => True | String c _ => c = "/"%char end.
Proof. destruct l; cbn; [exact I | reflexivity]. Qed.

Lemma join_components_inj (l1 : list string) :
  forall l2,
    forallb is_component l1 = true -> forallb is_component l2 = true ->
    join "/" l1 = join "/" l2 -> l1 = l2.
Proof.
  induction l1 as [|c1 t1 IH]; intros [|c2 t2] H1 H2 E; try reflexivity.
  - rewrite join_cons in E. cbn [forallb] in H2. apply andb_prop in H2 as [Hc _].
    unfold is_component in Hc. apply andb_prop in Hc as [Hne _].
    destruct c2; [discriminate|]. rewrite append_cons in E. discriminate.
  - rewrite join_cons in E. cbn [forallb] in H1. apply andb_prop in H1 as [Hc _].
    unfold is_component in Hc. apply andb_prop in Hc as [Hne _].
    destruct c1; [discriminate|]. rewrite append_cons in E. discriminate.
  - rewrite !join_cons in E.
    cbn [forallb] in H1, H2.
    apply andb_prop in H1 as [Hc1 Ht1]. apply andb_prop in H2 as [Hc2 Ht2].
    unfold is_component in Hc1, Hc2.
    apply andb_prop in Hc1 as [_ Hs1]. apply andb_prop in Hc2 as [_ Hs2].
    destruct (component_app_inj c1 c2 _ _ Hs1 Hs2
                (after_first_shape t1) (after_first_shape t2) E) as [-> Et].
    f_equal. destruct t1 as [|x1 t1'], t2 as [|x2 t2']; try reflexivity;
      try discriminate.
    unfold after_first in Et. inversion Et as [Ej].
    now apply IH.
Qed.

(** Containment is decided on path components, not on characters: for a
    resolved root in normal form (["/"] followed by its components joined by
    ["/"]) and an absolute resolved path, [is_within_root] holds exactly when
    the components of the root are the first components of the path. *)
Theorem is_within_root_components (realpath : string -> string) (root path : string) :
  realpath root = "/" +:+ join "/" (components (realpath root)) ->
  startswith (realpath path) "/" = true ->
  (is_within_root realpath root path = true
   <-> exists rest, components (realpath path) = components (realpath root) ++ rest).
Proof.
  intros Hroot Hpath. unfold is_within_root, commonpath.
  assert (startswith (realpath root) "/" = true) as Hr.
  { rewrite Hroot. unfold startswith. rewrite append_cons, append_nil. cbn.
    now destruct (join "/" (components (realpath root))). }
  rewrite Hr, Hpath. cbn [Bool.eqb].
  rewrite <- common_prefix_all.
  set (cp := common_prefix (components (realpath root)) (components (realpath path))).
  split.
  - intros E. apply String.eqb_eq in E. pose proof (eq_trans E Hroot) as E'.
    rewrite !append_cons, !append_nil in E'. inversion E' as [Ej].
    apply join_components_inj in Ej; [exact Ej | |apply components_are_components].
    apply common_prefix_components, components_are_components.
  - intros ->. apply String.eqb_eq. symmetry. exact Hroot.
Qed.

Lemma is_within_root_components_witness :
  is_within_root sample_realpath "/x/proj" "/x/proj/sub" = true
  /\ is_within_root sample_realpath "/x/proj" "/x/proj2/sub" = false.
Proof.
  split; [|vm_compute; reflexivity].
  apply (is_within_root_components sample_realpath "/x/proj" "/x/proj/sub");
    [vm_compute; reflexivity | vm_compute; reflexivity |].
  exists ["sub"]. vm_compute. reflexivity.
Defined.

(** ** to_session_record *)

(** A record that [to_session_record] builds has a non-empty id, start time
    and working directory and carries the path of its log; its role is
    "primary" or "subagent", and a primary record has neither parent thread
    nor depth. *)
Theorem to_session_record_fields (repr : json -> string) (path : string)
    (meta : list (string * json)) (record : SessionRecord) :
  to_session_record repr path meta = Some record ->
  session_id record <> "" /\ started_at record <> "" /\ cwd record <> ""
  /\ log_path record = path
  /\ (role record = "subagent"
      \/ role record = "primary"
         /\ parent_thread_id record = "" /\ depth record = "").
Proof.
  unfold to_session_record.
  destruct (nonempty (strip (py_str repr (dict_get meta "id" (JStr ""))))) eqn:Hid,
    (nonempty (strip (py_str repr (dict_get meta "timestamp" (JStr ""))))) eqn:Hts,
    (nonempty (py_str repr (dict_get meta "cwd" (JStr "")))) eqn:Hcwd;
    cbn [negb orb]; try discriminate.
  intros H. inversion H; subst; clear H. cbn.
  repeat split; try (intros E; rewrite E in *; discriminate).
  set (spawn := as_dict _).
  destruct spawn as [|kv spawn']; [right | left]; repeat split; reflexivity.
Qed.

Lemma to_session_record_fields_witness :
  to_session_record sample_repr log_a
    [("id", JStr "s-1"); ("timestamp", JStr "2024-05-01T10:00:00Z");
     ("cwd", JStr "/x/proj")]
  = Some (mkSessionRecord "s-1" "2024-05-01T10:00:00Z" "/x/proj" "primary"
            "" "" "" log_a)
  /\ session_id (mkSessionRecord "s-1" "2024-05-01T10:00:00Z" "/x/proj" "primary"
                   "" "" "" log_a) <> "".
Proof.
  split; [reflexivity|].
  apply (to_session_record_fields sample_repr log_a
           [("id", JStr "s-1"); ("timestamp", JStr "2024-05-01T10:00:00Z");
            ("cwd", JStr "/x/proj")]
           (mkSessionRecord "s-1" "2024-05-01T10:00:00Z" "/x/proj" "primary"
              "" "" "" log_a) eq_refl).
Defined.

(** ** read_session_meta *)

Section Meta.
Variable json_loads : string -> option json.

(** [read_session_meta] stops at the first session_meta record whose payload
    is an object: the lines before it are passed over, the lines after it are
    not looked at, whatever they hold. *)
Theorem scan_session_meta_stops (before after : list string) (line : string)
    (d payload : list (string * json)) :
  forallb (passes_over json_loads) before = true ->
  strip line <> "" ->
  json_loads (strip line) = Some (JDict d) ->
  is_str (dict_get d "type" JNull) "session_meta" = true ->
  dict_get d "payload" (JDict []) = JDict payload ->
  scan_session_meta json_loads (before ++ line :: after) = Ok (Some payload).
Proof.
  intros Hb Hne Hl Ht Hp.
  induction before as [|l rest IH]; cbn [app scan_session_meta].
  - unfold nonempty. destruct (String.eqb_spec (strip line) ""); [contradiction|].
    cbn [negb]. rewrite Hl. cbn. rewrite Ht, Hp. reflexivity.
  - cbn [forallb] in Hb. apply andb_prop in Hb as [Hl1 Hrest].
    unfold passes_over in Hl1.
    destruct (negb (nonempty (strip l))); [now apply IH|].
    cbn [orb] in Hl1.
    destruct (json_loads (strip l)) as [obj|]; [|now apply IH].
    destruct obj; try discriminate. cbn.
    destruct (is_str (dict_get d0 "type" JNull) "session_meta"); [|now apply IH].
    cbn [negb orb] in Hl1.
    destruct (dict_get d0 "payload" (JDict [])); try discriminate; now apply IH.
Qed.

End Meta.

Lemma scan_session_meta_stops_witness :
  scan_session_meta sample_loads
    (["not json" +:+ NL; NL] ++ text_a :: ["[]" +:+ NL])
  = Ok (Some [("id", JStr "s-1"); ("timestamp", JStr "2024-05-01T10:00:00Z");
              ("cwd", JStr "/x/proj")]).
Proof.
  apply (scan_session_meta_stops sample_loads ["not json" +:+ NL; NL] ["[]" +:+ NL]
           text_a
           [("type", JStr "session_meta");
            ("payload", JDict [("id", JStr "s-1");
                               ("timestamp", JStr "2024-05-01T10:00:00Z");
                               ("cwd", JStr "/x/proj")])]);
    try (vm_compute; reflexivity).
  vm_compute. discriminate.
Defined.

(** ** last_activity *)

Section Activity.
Variable json_loads : string -> option json.
Variable repr : json -> string.

Lemma activity_loop_app (l1 l2 : list string) :
  forall ts summary,
    activity_loop json_loads repr (l1 ++ l2) ts summary
    = activity_loop json_loads repr l1 ts summary
        ≫= fun st => activity_loop json_loads repr l2 (fst st) (snd st).
Proof.
  induction l1 as [|line rest IH]; intros ts summary; cbn [app activity_loop].
  - reflexivity.
  - destruct (negb (nonempty (strip line))); [apply IH|].
    destruct (json_loads (strip line)) as [obj|]; [|apply IH].
    destruct (summarize_event repr obj) as [s|e]; cbn; [|reflexivity].
    destruct (negb (nonempty s)); apply IH.
Qed.

(** The last summary that is not empty wins, and the timestamp is the last
    one that is not empty, so it may come from an earlier line than the
    summary.  A further line that is blank, does not decode or has an empty
    summary changes nothing; a further line with a summary replaces the
    summary, and the timestamp only if it has one. *)
Theorem last_activity_last_wins (lines : list string) (line : string)
    (ts summary : string) :
  activity_loop json_loads repr lines "" "" = Ok (ts, summary) ->
  (strip line = "" \/ json_loads (strip line) = None ->
     activity_loop json_loads repr (lines ++ [line]) "" "" = Ok (ts, summary))
  /\ (forall obj,
        strip line <> "" -> json_loads (strip line) = Some obj ->
        summarize_event repr obj = Ok "" ->
        activity_loop json_loads repr (lines ++ [line]) "" "" = Ok (ts, summary))
  /\ (forall obj s,
        strip line <> "" -> json_loads (strip line) = Some obj ->
        summarize_event repr obj = Ok s -> s <> "" ->
        let t := py_str repr (dict_get (as_dict obj) "timestamp" (JStr "")) in
        activity_loop json_loads repr (lines ++ [line]) "" ""
        = Ok (if nonempty t then t else ts, s)).
Proof.
  intros Hrun. rewrite activity_loop_app, Hrun. cbn [mbind result_bind fst snd].
  cbn [activity_loop]. unfold nonempty.
  split; [|split].
  - intros [-> | ->]; [reflexivity|].
    destruct (strip line =? ""); reflexivity.
  - intros obj Hne Hl Hs.
    destruct (String.eqb_spec (strip line) ""); [contradiction|].
    cbn [negb]. rewrite Hl, Hs. reflexivity.
  - intros obj s Hne Hl Hs Hs'. cbv zeta.
    destruct (String.eqb_spec (strip line) ""); [contradiction|].
    cbn [negb]. rewrite Hl, Hs. cbn [mbind result_bind].
    destruct (String.eqb_spec s ""); [contradiction|]. reflexivity.
Qed.

End Activity.

Lemma last_activity_last_wins_witness :
  last_activity sample_loads sample_repr
    (sample_world
       [(log_a, turn_line "2024-05-01T10:00:05Z" "/x/proj" +:+ NL +:+ text_a)]) log_a
  = Ok ("2024-05-01T10:00:05Z", "session start cwd=/x/proj").
Proof.
  destruct (last_activity_last_wins sample_loads sample_repr
              [turn_line "2024-05-01T10:00:05Z" "/x/proj" +:+ NL] text_a
              "2024-05-01T10:00:05Z" "turn cwd=/x/proj") as (_ & _ & H);
    [vm_compute; reflexivity|].
  specialize (H (meta_value "s-1" "2024-05-01T10:00:00Z" "/x/proj")
                "session start cwd=/x/proj").
  vm_compute. vm_compute in H. apply H; (reflexivity || discriminate).
Defined.

(** ** Cursors: first observation *)

Section Track.
Variable w : world.
Variable from_start : bool.

Lemma track_new_keeps (sessions : list SessionRecord) :
  forall (offsets : gmap string nat) (p : string) (off : nat),
    offsets !! p = Some off ->
    track_new w from_start sessions offsets !! p = Some off.
Proof.
  unfold track_new.
  induction sessions as [|r rest IH]; intros offsets p off H; cbn [fold_left];
    [exact H|].
  apply IH. destruct (negb (is_active w (log_path r))); [exact H|].
  destruct (offsets !! log_path r) eqn:Hr; [exact H|].
  destruct (files w !! log_path r); [|exact H].
  rewrite lookup_insert_ne; [exact H|]. congruence.
Qed.

Lemma track_new_untouched (sessions : list SessionRecord) :
  forall (offsets : gmap string nat) (p : string),
    offsets !! p = None ->
    (forall r, In r sessions -> log_path r = p -> is_active w p = false) ->
    track_new w from_start sessions offsets !! p = None.
Proof.
  unfold track_new.
  induction sessions as [|r rest IH]; intros offsets p H Hin; cbn [fold_left];
    [exact H|].
  apply IH.
  - destruct (negb (is_active w (log_path r))) eqn:Ha; [exact H|].
    destruct (offsets !! log_path r) eqn:Hr; [exact H|].
    destruct (files w !! log_path r); [|exact H].
    rewrite lookup_insert_ne; [exact H|].
    intros E. pose proof (Hin r (or_introl eq_refl) E) as Hp.
    rewrite E, Hp in Ha. discriminate.
  - intros r0 Hr0 E. apply (Hin r0); [now right | exact E].
Qed.

Lemma track_new_starts (sessions : list SessionRecord) :
  forall (offsets : gmap string nat) (r : SessionRecord) (f : file),
    In r sessions ->
    offsets !! log_path r = None ->
    files w !! log_path r = Some f -> mtime_in_window f = true ->
    track_new w from_start sessions offsets !! log_path r
    = Some (if from_start then O else String.length (data f)).
Proof.
  induction sessions as [|r0 rest IH]; intros offsets r f Hin Hoff Hf Ha;
    [contradiction|].
  unfold track_new. cbn [fold_left]. fold (track_new w from_start rest).
  destruct (decide (log_path r0 = log_path r)) as [E|Hne].
  - rewrite E. unfold is_active. rewrite Hf, Ha, Hoff. cbn [negb].
    apply track_new_keeps. apply lookup_insert_eq.
  - destruct Hin as [->|Hin]; [contradiction|].
    apply IH; auto.
    destruct (negb (is_active w (log_path r0))); [exact Hoff|].
    destruct (offsets !! log_path r0); [exact Hoff|].
    destruct (files w !! log_path r0); [|exact Hoff].
    now rewrite lookup_insert_ne.
Qed.

End Track.

(** The first-observation step never moves a cursor that exists.  It starts
    a cursor for the log of a listed session that is active and has none: at
    the size of the file, or at 0 with [--from-start].  A path that no active
    listed session has as its log gets no cursor. *)
Theorem track_new_first_observation (w : world) (from_start : bool)
    (sessions : list SessionRecord) (offsets : gmap string nat) (p : string) :
  (forall off, offsets !! p = Some off ->
     track_new w from_start sessions offsets !! p = Some off)
  /\ (forall r f,
        In r sessions -> log_path r = p -> offsets !! p = None ->
        files w !! p = Some f -> mtime_in_window f = true ->
        track_new w from_start sessions offsets !! p
        = Some (if from_start then O else String.length (data f)))
  /\ (offsets !! p = None ->
      (forall r, In r sessions -> log_path r = p -> is_active w p = false) ->
      track_new w from_start sessions offsets !! p = None).
Proof.
  split; [|split].
  - intros off. apply track_new_keeps.
  - intros r f Hin <-. now apply track_new_starts.
  - apply track_new_untouched.
Qed.

(** ** Cursors: files that are gone *)

(** In a poll that runs to its end, the cursor of a path that no longer
    exists, or that cannot be opened, is dropped; and a path without cursor
    gets none: the poll never starts a cursor. *)
Theorem poll_drops_vanished
    (json_loads : string -> option json) (repr : json -> string)
    (w : world) (cache : gmap string SessionRecord)
    (offsets offsets' : gmap string nat) (printed : list string) (p : string) :
  poll_offsets json_loads repr w cache offsets = (printed, Ok offsets') ->
  (offsets !! p = None -> offsets' !! p = None)
  /\ (files w !! p = None -> offsets' !! p = None)
  /\ (forall f, files w !! p = Some f -> readable f = false -> offsets' !! p = None).
Proof.
  unfold poll_offsets. intros H.
  assert (offsets !! p = None -> offsets' !! p = None) as Hnone.
  { intros Hp. rewrite (poll_paths_other _ _ _ _ _ _ _ _ _ H); [exact Hp|].
    intros Hin. apply list_elem_of_fmap in Hin as ([k v] & -> & Hkv).
    apply elem_of_map_to_list in Hkv. cbn in Hp. congruence. }
  assert (forall pr offsets0 offsets1,
            poll_path json_loads repr w cache p offsets0 = (pr, Ok offsets1) ->
            (files w !! p = None
             \/ exists f, files w !! p = Some f /\ readable f = false) ->
            offsets1 !! p = None) as Hdrop.
  { intros pr o0 o1 Hp Hf. unfold poll_path in Hp.
    destruct Hf as [Hf|(f & Hf & Hr)]; rewrite Hf in Hp; [|rewrite Hr in Hp];
      inversion Hp; subst; apply lookup_delete_eq. }
  assert (files w !! p = None
          \/ (exists f, files w !! p = Some f /\ readable f = false) ->
          offsets' !! p = None) as Hgone.
  { intros Hf. destruct (offsets !! p) as [off|] eqn:Hoff; [|now apply Hnone].
    assert (p ∈ (map_to_list offsets).*1) as Hin.
    { apply list_elem_of_fmap. exists (p, off). split; [reflexivity|].
      now apply elem_of_map_to_list. }
    destruct (poll_paths_visit _ _ _ _ _ p _ _ _
                (NoDup_fst_map_to_list offsets) Hin H)
      as (o0 & o1 & pr & before & after & _ & E1 & E2 & _).
    rewrite E2. eapply Hdrop; eauto. }
  split; [exact Hnone|]. split.
  - intros Hf. apply Hgone. now left.
  - intros f Hf Hr. apply Hgone. right. eauto.
Qed.

Lemma poll_drops_vanished_witness :
  poll_offsets sample_loads sample_repr (sample_world [(log_a, text_a)]) ∅
    {[log_b := 7%nat]}
  = ([], Ok ∅)
  /\ (∅ : gmap string nat) !! log_b = None.
Proof.
  assert (poll_offsets sample_loads sample_repr (sample_world [(log_a, text_a)]) ∅
            {[log_b := 7%nat]} = ([], Ok ∅)) as H by (vm_compute; reflexivity).
  split; [exact H|].
  destruct (poll_drops_vanished _ _ _ _ _ _ _ log_b H) as (_ & Hgone & _).
  apply Hgone. vm_compute. reflexivity.
Defined.

(** ** What discovery returns *)

Section Discovered.
Variable json_loads : string -> option json.
Variable repr : json -> string.
Variable fromisoformat : string -> option Z.
Variable realpath : string -> string.
Variable w : world.
Variable project_root : string.

Lemma to_session_record_origin (path : string) (meta : list (string * json))
    (record : SessionRecord) :
  to_session_record repr path meta = Some record ->
  log_path record = path /\ session_id record <> "".
Proof.
  unfold to_session_record.
  destruct (nonempty (strip (py_str repr (dict_get meta "id" (JStr ""))))) eqn:Hid;
    cbn [negb orb]; [|discriminate].
  destruct (negb _ || negb _); [discriminate|].
  intros H. inversion H; subst; clear H. cbn. split; [reflexivity|].
  intros E. rewrite E in Hid. discriminate.
Qed.

Lemma collect_sessions_sound (paths : list string) :
  forall results,
    collect_sessions json_loads repr realpath w project_root paths = Ok results ->
    Forall (fun r => In (log_path r) paths
                     /\ is_within_root realpath project_root (cwd r) = true
                     /\ session_id r <> "") results
    /\ (List.length results <= List.length paths)%nat.
Proof.
  induction paths as [|p rest IH]; intros results H; cbn [collect_sessions] in H.
  - inversion H; subst. split; [constructor | reflexivity].
  - assert (forall rs,
              collect_sessions json_loads repr realpath w project_root rest = Ok rs ->
              Forall (fun r => In (log_path r) (p :: rest)
                               /\ is_within_root realpath project_root (cwd r) = true
                               /\ session_id r <> "") rs
              /\ (List.length rs <= List.length (p :: rest))%nat) as Hrest.
    { intros rs Hrs. destruct (IH rs Hrs) as [Hf Hl]. split; [|cbn; lia].
      eapply List.Forall_impl; [|exact Hf]. intros r (? & ? & ?).
      repeat split; auto. now right. }
    apply bind_Ok_inv in H as (m & _ & H).
    destruct m as [meta|]; [|now apply Hrest].
    destruct (negb (truthy (JDict meta))); [now apply Hrest|].
    destruct (to_session_record repr p meta) as [r|] eqn:Hr; [|now apply Hrest].
    destruct (is_within_root realpath project_root (cwd r)) eqn:Hroot;
      cbn [negb] in H; [|now apply Hrest].
    apply bind_Ok_inv in H as (rs & Hrs & H). inversion H; subst; clear H.
    destruct (Hrest rs Hrs) as [Hf _]. destruct (IH rs Hrs) as [_ Hl].
    destruct (to_session_record_origin _ _ _ Hr) as [Hp Hid].
    split; [|cbn; lia].
    constructor; [|exact Hf]. repeat split; auto. left. now rewrite Hp.
Qed.

Lemma sort_keys_keyed (records : list SessionRecord) :
  forall keyed,
    sort_keys fromisoformat records = Ok keyed ->
    map snd keyed = records
    /\ Forall (fun kr => parse_iso fromisoformat (started_at (snd kr)) = Ok (fst kr))
         keyed.
Proof.
  induction records as [|r rest IH]; intros keyed H; cbn [sort_keys] in H.
  - inversion H; subst. split; [reflexivity | constructor].
  - apply bind_Ok_inv in H as (k & Hk & H).
    apply bind_Ok_inv in H as (ks & Hks & H). inversion H; subst; clear H.
    destruct (IH ks Hks) as [Hm Hf]. split; [cbn; now rewrite Hm|].
    constructor; [exact Hk | exact Hf].
Qed.

End Discovered.

(** When discovery returns, its records are in descending order of their
    parsed start times; each one comes from a listed log, lies inside the
    project root and has an id; and every kept record is there, once per log
    that holds it (no deduplication): the result is a permutation of what the
    pass over the logs collected. *)
Theorem discover_sessions_sorted
    (json_loads : string -> option json) (repr : json -> string)
    (fromisoformat : string -> option Z) (realpath : string -> string)
    (w : world) (project_root : string) (results : list SessionRecord) :
  discover_sessions json_loads repr fromisoformat realpath w project_root = Ok results ->
  (exists keyed,
     results = map snd keyed
     /\ StronglySorted (fun a b => (fst b <= fst a)%Z) keyed
     /\ Forall (fun kr => parse_iso fromisoformat (started_at (snd kr)) = Ok (fst kr))
          keyed)
  /\ Forall (fun r => In (log_path r) (iter_log_files w)
                      /\ is_within_root realpath project_root (cwd r) = true
                      /\ session_id r <> "") results
  /\ (exists collected,
        collect_sessions json_loads repr realpath w project_root (iter_log_files w)
        = Ok collected
        /\ Permutation collected results)
  /\ (List.length results <= List.length (iter_log_files w))%nat.
Proof.
  unfold discover_sessions. intros H.
  apply bind_Ok_inv in H as (collected & Hc & H).
  apply bind_Ok_inv in H as (keyed & Hk & H). inversion H; subst; clear H.
  destruct (sort_keys_keyed _ _ _ Hk) as [Hm Hf].
  destruct (collect_sessions_sound _ _ _ _ _ _ _ Hc) as [Hs Hl].
  set (sorted := sort_by (fun a b => (fst b <=? fst a)%Z) keyed).
  assert (Permutation collected (map snd sorted)) as Hperm.
  { rewrite <- Hm. apply Permutation_map. apply sort_by_perm. }
  split; [|split; [|split]].
  - exists sorted. split; [reflexivity|]. split.
    + apply Sorted_StronglySorted; [intros a b c; lia|].
      assert (Sorted (fun a b => (fst b <=? fst a)%Z = true) sorted) as Hsorted.
      { apply (sort_by_sorted (fun a b => (fst b <=? fst a)%Z)).
        intros x y. destruct (Z.leb_spec (fst y) (fst x)); [now left|].
        right. apply Z.leb_le. lia. }
      clear -Hsorted. induction Hsorted as [|a l Hl IH Hhd]; constructor; auto.
      destruct Hhd; constructor. now apply Z.leb_le.
    + apply List.Forall_forall. intros kr Hin. apply sort_by_In in Hin.
      rewrite List.Forall_forall in Hf. now apply Hf.
  - apply List.Forall_forall. intros r Hin.
    rewrite List.Forall_forall in Hs. apply Hs.
    eapply Permutation_in; [symmetry; exact Hperm | exact Hin].
  - exists collected. split; [exact Hc | exact Hperm].
  - rewrite <- (Permutation_length Hperm). exact Hl.
Qed.

Lemma discover_sessions_sorted_witness :
  discover_sessions sample_loads sample_repr sample_fromisoformat sample_realpath
    (sample_world [(log_a, text_a)]) "/x/proj"
  = Ok [mkSessionRecord "s-1" "2024-05-01T10:00:00Z" "/x/proj" "primary" "" "" "" log_a]
  /\ (List.length
        [mkSessionRecord "s-1" "2024-05-01T10:00:00Z" "/x/proj" "primary" "" "" "" log_a]
      <= List.length (iter_log_files (sample_world [(log_a, text_a)])))%nat.
Proof.
  assert (discover_sessions sample_loads sample_repr sample_fromisoformat
            sample_realpath (sample_world [(log_a, text_a)]) "/x/proj"
          = Ok [mkSessionRecord "s-1" "2024-05-01T10:00:00Z" "/x/proj" "primary"
                  "" "" "" log_a]) as H by (vm_compute; reflexivity).
  split; [exact H|].
  apply (discover_sessions_sorted _ _ _ _ _ _ _ H).
Defined.

(** ** The text of a message summary *)

Lemma first_text_collapsed (content : list json) : collapsed (first_text content) = true.
Proof.
  induction content as [|item rest IH]; [reflexivity|].
  cbn [first_text]. destruct item; try exact IH.
  destruct (lookup_key d "text") as [[]|]; try exact IH.
  destruct (nonempty (strip s)); [|exact IH].
  apply normalize_whitespace_collapses.
Qed.

Lemma truncate_length_le (text : string) (limit : Z) :
  (3 <= limit)%Z -> (Z.of_nat (String.length (truncate text limit)) <= limit)%Z.
Proof.
  intros H. destruct (Z.le_gt_cases (Z.of_nat (String.length text)) limit) as [Hle|Hgt].
  - now rewrite truncate_short.
  - destruct (truncate_long text limit) as [_ ->]; lia.
Qed.

(** The text a message contributes to its summary has its whitespace runs
    collapsed and, once truncated, at most 100 characters: the summary of a
    message item is "message <role>", followed by ": " and that text when
    there is any. *)
Theorem message_summary_bounded (repr : json -> string)
    (d payload : list (string * json)) :
  let snippet := extract_message_text payload in
  let role := py_str repr (dict_get payload "role" (JStr "unknown")) in
  collapsed snippet = true
  /\ (String.length (truncate snippet 100) <= 100)%nat
  /\ (is_str (dict_get d "type" JNull) "response_item" = true ->
      dict_get d "payload" (JDict []) = JDict payload ->
      is_str (dict_get payload "type" JNull) "message" = true ->
      summarize_event repr (JDict d)
      = Ok (if nonempty snippet
            then "message " +:+ role +:+ ": " +:+ truncate snippet 100
            else "message " +:+ role)).
Proof.
  intros snippet role. split; [|split].
  - unfold snippet, extract_message_text.
    destruct (dict_get payload "content" (JList [])); try reflexivity.
    apply first_text_collapsed.
  - pose proof (truncate_length_le snippet 100). lia.
  - intros Ht Hp Hm. unfold summarize_event. cbn [attr_get mbind result_bind].
    destruct (dict_get d "type" JNull) as [| | | |t| |]; try discriminate.
    cbn [is_str] in Ht |- *. apply String.eqb_eq in Ht. subst t.
    cbn [String.eqb Ascii.eqb Bool.eqb]. rewrite Hp.
    destruct (dict_get payload "type" JNull) as [| | | |t| |]; try discriminate.
    cbn [is_str] in Hm |- *. apply String.eqb_eq in Hm. subst t.
    cbn [String.eqb Ascii.eqb Bool.eqb]. fold snippet role.
    destruct (nonempty snippet); reflexivity.
Qed.

(** ** Which events have no summary *)

Lemma str_of_Z_nonempty (z : Z) : str_of_Z z <> "".
Proof.
  unfold str_of_Z. destruct (Z.to_int z) as [u|u]; cbn; [|discriminate].
  destruct u; discriminate.
Qed.

Lemma prefixed_nonempty (c : ascii) (s t : string) : String c s +:+ t <> "".
Proof. rewrite append_cons. discriminate. Qed.

Lemma nonempty_false (s : string) : nonempty s = false <-> s = "".
Proof.
  unfold nonempty. destruct (String.eqb_spec s ""); cbn; split; congruence.
Qed.

Lemma py_str_truthy_nonempty (repr : json -> string) (v : json) :
  (forall x, repr x <> "") -> truthy v = true -> py_str repr v <> "".
Proof.
  intros Hrepr Ht. destruct v; cbn [py_str truthy] in *;
    try apply Hrepr; try discriminate.
  - subst b. discriminate.
  - apply str_of_Z_nonempty.
  - intros E. apply nonempty_false in E. congruence.
Qed.

(** [summarize_event] never raises on a JSON object, and the objects it gives
    no summary are the token counts (an [event_msg] whose payload is an object
    of type [token_count]) and the objects with no type, or a falsy one: every
    other object has a summary, which is not empty.  ([repr] of a value is
    never the empty string.) *)
Theorem summarize_event_empty_iff (repr : json -> string) (d : list (string * json)) :
  (forall v, repr v <> "") ->
  (exists summary, summarize_event repr (JDict d) = Ok summary)
  /\ (summarize_event repr (JDict d) = Ok ""
      <-> (is_str (dict_get d "type" JNull) "event_msg" = true
           /\ exists payload,
                dict_get d "payload" (JDict []) = JDict payload
                /\ is_str (dict_get payload "type" (JStr "")) "token_count" = true)
          \/ truthy (dict_get d "type" JNull) = false).
Proof.
  intros Hrepr. unfold summarize_event. cbn [attr_get mbind result_bind].
  set (t := dict_get d "type" JNull). set (p := dict_get d "payload" (JDict [])).
  assert (forall s : string, Ok s = Ok "" -> s = "") as Hinv by (intros s E; now inversion E).
  assert (forall (c : ascii) (s u : string) (P : Prop),
            Ok (String c s +:+ u) = Ok "" -> P) as Hpre.
  { intros c s u P E. apply Hinv in E. now apply prefixed_nonempty in E. }
  assert (forall P : Prop,
            truthy t = true -> Ok (py_str repr t) = Ok "" -> P) as Hstr.
  { intros P Ht E. apply Hinv in E. now apply py_str_truthy_nonempty in E. }
  destruct (is_str t "session_meta") eqn:E1.
  { assert (truthy t = true) as Ht
      by (destruct t; try discriminate; cbn in E1; apply String.eqb_eq in E1; now subst).
    assert (is_str t "event_msg" = false) as Hm
      by (destruct t; try discriminate; cbn in E1; apply String.eqb_eq in E1; now subst).
    split; [destruct p; eauto|]. rewrite Ht, Hm.
    split; [|intros [[? _]|?]; discriminate].
    destruct p; first [apply Hpre | discriminate]. }
  destruct (is_str t "turn_context") eqn:E2.
  { assert (truthy t = true) as Ht
      by (destruct t; try discriminate; cbn in E2; apply String.eqb_eq in E2; now subst).
    assert (is_str t "event_msg" = false) as Hm
      by (destruct t; try discriminate; cbn in E2; apply String.eqb_eq in E2; now subst).
    split; [destruct p; eauto|]. rewrite Ht, Hm.
    split; [|intros [[? _]|?]; discriminate].
    destruct p; first [apply Hpre | discriminate]. }
  destruct (is_str t "response_item") eqn:E3.
  { assert (truthy t = true) as Ht
      by (destruct t; try discriminate; cbn in E3; apply String.eqb_eq in E3; now subst).
    assert (is_str t "event_msg" = false) as Hm
      by (destruct t; try discriminate; cbn in E3; apply String.eqb_eq in E3; now subst).
    rewrite Ht, Hm.
    split.
    - destruct p; eauto.
      repeat match goal with |- context [if ?b then _ else _] => destruct b end; eauto.
    - split; [|intros [[? _]|?]; discriminate].
      destruct p; try discriminate.
      repeat match goal with |- context [if ?b then _ else _] => destruct b end;
        first [apply Hpre | discriminate]. }
  destruct (is_str t "event_msg") eqn:E4.
  { assert (truthy t = true) as Ht
      by (destruct t; try discriminate; cbn in E4; apply String.eqb_eq in E4; now subst).
    rewrite Ht. split.
    - destruct p; eauto.
      repeat match goal with |- context [if ?b then _ else _] => destruct b end; eauto.
    - destruct p as [| | | | | |payload];
        try (split; [discriminate | intros [(_ & ? & ? & _)|?]; discriminate]).
      destruct (is_str (dict_get payload "type" (JStr "")) "token_count") eqn:E5.
      + split; [|reflexivity]. intros _. left. split; [reflexivity|]. eauto.
      + split.
        * destruct (truthy (dict_get payload "type" (JStr "")));
            first [apply Hpre | discriminate].
        * intros [(_ & q & Hq & Hc)|?]; [|discriminate].
          inversion Hq; subst q. congruence. }
  split; [destruct (truthy t); eauto|].
  destruct (truthy t) eqn:Ht.
  - split; [now apply Hstr | intros [[? _]|?]; discriminate].
  - split; [now right | reflexivity].
Qed.

Lemma summarize_event_empty_iff_witness :
  (forall v, sample_repr v <> "")
  /\ summarize_event sample_repr token_value = Ok "".
Proof.
  assert (forall v, sample_repr v <> "") as Hrepr by (intros v; discriminate).
  split; [exact Hrepr|].
  destruct (summarize_event_empty_iff sample_repr
              [("type", JStr "event_msg");
               ("payload", JDict [("type", JStr "token_count")])] Hrepr) as [_ [_ H]].
  apply H. left. split; [reflexivity|].
  exists [("type", JStr "token_count")]. split; reflexivity.
Defined.

(** ** print_table *)

Lemma print_rows_own_cells (widths : list nat) (rows : list (list string)) :
  Forall (fun row => (List.length row <= List.length widths)%nat) rows ->
  (forall row, In row rows ->
     forall k c, row !! k = Some c ->
       exists w, widths !! k = Some w /\ (String.length c <= w)%nat) ->
  exists lines,
    GitCoordination.print_rows (fun row => List.length row) rows widths
    = (lines, Some tt)
    /\ List.length lines = List.length rows.
Proof.
  induction rows as [|row rest IH]; intros Hlen Hb.
  - exists []. split; reflexivity.
  - inversion Hlen as [|? ? Hrow Hrest]; subst.
    destruct IH as (lines & Hp & Hl); [exact Hrest | intros r Hr; apply Hb; now right|].
    destruct (GitCoordinationProps.padded_line_length row widths Hrow)
      as (line & Hline & _); [apply Hb; now left|].
    cbn [GitCoordination.print_rows]. rewrite Hline, Hp.
    exists (line :: lines). split; [reflexivity | cbn; lia].
Qed.

(** The table of session_monitor.py prints a row over the cells the row has:
    [print_table] returns exactly when no row has more cells than there are
    headers, and then prints two lines more than there are rows; a row short
    of cells gives a shorter line, no exception.  When every row has a cell
    for every header, all the lines have the same length. *)
Theorem print_table_own_cells (headers : list string) (rows : list (list string)) :
  (snd (print_table headers rows) = Some tt
   <-> Forall (fun row => (List.length row <= List.length headers)%nat) rows)
  /\ (rows <> [] ->
      Forall (fun row => (List.length row <= List.length headers)%nat) rows ->
      List.length (fst (print_table headers rows)) = (2 + List.length rows)%nat)
  /\ (rows <> [] ->
      Forall (fun row => List.length row = List.length headers) rows ->
      exists width,
        Forall (fun line => String.length line = width) (fst (print_table headers rows))).
Proof.
  assert (forall widths,
            rows <> [] ->
            GitCoordination.column_widths rows (map String.length headers) = Some widths ->
            exists header separator,
              GitCoordination.padded_line (List.length headers) headers widths
              = Some header
              /\ GitCoordination.separator_line (List.length headers) widths
                 = Some separator
              /\ String.length header
                 = (list_sum widths + 3 * (List.length headers - 1))%nat
              /\ String.length separator
                 = (list_sum widths + 3 * (List.length headers - 1))%nat
              /\ List.length widths = List.length headers
              /\ (forall row, In row rows ->
                    forall k c, row !! k = Some c ->
                      exists w, widths !! k = Some w /\ (String.length c <= w)%nat)
              /\ print_table headers rows
                 = (header :: separator
                    :: fst (GitCoordination.print_rows (fun row => List.length row)
                              rows widths),
                    snd (GitCoordination.print_rows (fun row => List.length row)
                           rows widths))) as Hshape.
  { intros widths Hne Hw.
    destruct (GitCoordinationProps.column_widths_spec _ _ _ Hw) as (Hlen & Hmono & Hrows).
    rewrite length_map in Hlen.
    destruct (GitCoordinationProps.padded_line_length headers widths)
      as (header & Hh & Hhl); [lia| |].
    { intros k c Hk. apply (Hmono k (String.length c)).
      rewrite list_lookup_fmap, Hk. reflexivity. }
    destruct (GitCoordinationProps.separator_line_length widths) as (sep & Hs & Hsl).
    rewrite Hlen in Hs, Hsl. rewrite <- Hlen, firstn_all, Hlen in Hhl.
    exists header, sep. repeat split; try assumption.
    unfold print_table. destruct rows as [|r0 rs0] eqn:Ers; [contradiction|].
    rewrite <- Ers in *. rewrite Hw, Hh, Hs.
    now destruct (GitCoordination.print_rows _ rows widths). }
  split; [|split].
  - destruct rows as [|r0 rs0] eqn:Ers; [split; [constructor | reflexivity]|].
    rewrite <- Ers in *. assert (rows <> []) as Hne by (rewrite Ers; discriminate).
    split.
    + intros H. rewrite <- (length_map String.length headers).
      apply GitCoordinationProps.column_widths_is_Some.
      unfold print_table in H. rewrite Ers in H. rewrite <- Ers in H.
      destruct (GitCoordination.column_widths rows (map String.length headers));
        [eauto | discriminate].
    + intros Hall.
      assert (is_Some (GitCoordination.column_widths rows (map String.length headers)))
        as [widths Hw]
        by (apply GitCoordinationProps.column_widths_is_Some; now rewrite length_map).
      destruct (Hshape widths Hne Hw) as (h & s & _ & _ & _ & _ & Hlen & Hb & ->).
      cbn [snd]. destruct (print_rows_own_cells widths rows) as (lines & -> & _);
        [now rewrite Hlen | exact Hb | reflexivity].
  - intros Hne Hall.
    assert (is_Some (GitCoordination.column_widths rows (map String.length headers)))
      as [widths Hw]
      by (apply GitCoordinationProps.column_widths_is_Some; now rewrite length_map).
    destruct (Hshape widths Hne Hw) as (h & s & _ & _ & _ & _ & Hlen & Hb & ->).
    cbn [fst]. destruct (print_rows_own_cells widths rows) as (lines & -> & Hl);
      [now rewrite Hlen | exact Hb |]. cbn. lia.
  - intros Hne Hall.
    assert (is_Some (GitCoordination.column_widths rows (map String.length headers)))
      as [widths Hw].
    { apply GitCoordinationProps.column_widths_is_Some. rewrite length_map.
      eapply List.Forall_impl; [|exact Hall]. intros row Hrow. cbn in Hrow. lia. }
    destruct (Hshape widths Hne Hw) as (h & s & _ & _ & Hhl & Hsl & Hlen & Hb & ->).
    cbn [fst].
    destruct (GitCoordinationProps.print_rows_full (List.length headers)
                (fun row => List.length row) widths rows Hlen) as (lines & -> & _ & Hf).
    { intros row Hin. rewrite List.Forall_forall in Hall.
      split; now apply Hall. }
    { exact Hb. }
    exists (list_sum widths + 3 * (List.length headers - 1))%nat. cbn [fst].
    constructor; [exact Hhl|]. constructor; [exact Hsl | exact Hf].
Qed.

End SessionMonitorProps.

(* ===================================================================== *)
(** * Properties of scripts/heartbeat_monitor.py *)
(* ===================================================================== *)

Module HeartbeatMonitorProps.
Import Py PyFacts HeartbeatMonitor.

(** ** Sets of session ids *)

Lemma set_of_In (l : list string) (x : string) : x ∈ set_of l <-> In x l.
Proof. unfold set_of. rewrite elem_of_list_to_set. apply list_elem_of_In. Qed.

Lemma sorted_set_In (s : gset string) (x : string) : In x (sorted_set s) <-> x ∈ s.
Proof.
  unfold sorted_set, sorted_strs. rewrite sort_by_In, <- list_elem_of_In.
  apply elem_of_elements.
Qed.

Lemma sorted_set_NoDup (s : gset string) : NoDup (sorted_set s).
Proof.
  apply NoDup_ListNoDup.
  eapply Permutation_NoDup; [apply sort_by_perm | apply NoDup_ListNoDup, NoDup_elements].
Qed.

Lemma sorted_diff_In (l1 l2 : list string) (x : string) :
  In x (sorted_set (set_of l1 ∖ set_of l2)) <-> In x l1 /\ ~ In x l2.
Proof.
  rewrite sorted_set_In, elem_of_difference, !set_of_In. reflexivity.
Qed.

(** ** emit_session_delta never misses an id when called by [main] *)

Lemma active_by_id_fold (active : list ActiveSession) :
  forall (m : gmap string ActiveSession) (sid : string),
    In sid (map session_id active) \/ is_Some (m !! sid) ->
    exists item,
      fold_left (fun m item => <[session_id item := item]> m) active m !! sid = Some item
      /\ ((In item active /\ session_id item = sid) \/ m !! sid = Some item).
Proof.
  induction active as [|a rest IH]; intros m sid H; simpl.
  - destruct H as [[]|[item Hm]]. exists item. auto.
  - destruct (IH (<[session_id a := a]> m) sid) as (item & Hf & Hi).
    { destruct (decide (session_id a = sid)) as [<-|Hne].
      - right. rewrite lookup_insert_eq. eauto.
      - destruct H as [[?|?]|?]; [contradiction | now left |].
        right. now rewrite lookup_insert_ne. }
    exists item. split; [exact Hf|].
    destruct Hi as [[Hin Hs]|Hm]; [left; split; [now right | exact Hs]|].
    destruct (decide (session_id a = sid)) as [<-|Hne].
    + rewrite lookup_insert_eq in Hm. inversion Hm; subst. left. split; [now left | reflexivity].
    + rewrite lookup_insert_ne in Hm by assumption. now right.
Qed.

Lemma active_by_id_lookup (active : list ActiveSession) (sid : string) :
  In sid (map session_id active) ->
  exists item,
    active_by_id active !! sid = Some item /\ session_id item = sid /\ In item active.
Proof.
  intros H. destruct (active_by_id_fold active ∅ sid) as (item & Hf & Hi); [now left|].
  exists item. split; [exact Hf|].
  destruct Hi as [[? ?]|Hm]; [now split|]. now rewrite lookup_empty in Hm.
Qed.

Lemma detail_lines_found (ts : string) (by_id : gmap string ActiveSession)
    (P : string -> ActiveSession -> Prop) (sids : list string) :
  (forall sid, In sid sids -> exists item, by_id !! sid = Some item /\ P sid item) ->
  exists items,
    Forall2 P sids items
    /\ detail_lines ts by_id sids = (map (detail_line ts) items, Ok tt).
Proof.
  induction sids as [|sid rest IH]; intros H; simpl.
  - exists []. split; [constructor | reflexivity].
  - destruct (H sid) as (item & Hl & Hp); [now left|].
    destruct IH as (items & Hf & Hd); [intros; apply H; now right|].
    exists (item :: items). rewrite Hl, Hd. split; [now constructor | reflexivity].
Qed.

Lemma emit_session_delta_ok (ts : string) (prev : list string)
    (active : list ActiveSession) :
  let ids := map session_id active in
  let added := sorted_set (set_of ids ∖ set_of prev) in
  let removed := sorted_set (set_of prev ∖ set_of ids) in
  exists items,
    Forall2 (fun sid item => session_id item = sid /\ In item active)
      (firstn 8 added) items
    /\ emit_session_delta ts prev ids active
       = (delta_line ts (List.length ids) added removed :: map (detail_line ts) items,
          Ok tt).
Proof.
  intros ids added removed. unfold emit_session_delta. fold ids added removed.
  destruct (detail_lines_found ts (active_by_id active)
              (fun sid item => session_id item = sid /\ In item active)
              (firstn 8 added)) as (items & Hf & Hd).
  { intros sid Hin. apply firstn_In' in Hin.
    apply sorted_diff_In in Hin as [Hin _].
    destruct (active_by_id_lookup active sid Hin) as (item & ? & ? & ?). eauto. }
  exists items. rewrite Hd. split; [exact Hf | reflexivity].
Qed.

(** ** Kinds of the lines a turn prints *)

Lemma of_kind_app (kind : string) (l1 l2 : list Line) :
  of_kind kind (l1 ++ l2) = of_kind kind l1 ++ of_kind kind l2.
Proof. apply List.filter_app. Qed.

Lemma of_kind_cons (kind : string) (l : Line) (ls : list Line) :
  of_kind kind (l :: ls)
  = if line_kind l =? kind then l :: of_kind kind ls else of_kind kind ls.
Proof. reflexivity. Qed.

Lemma of_kind_details (kind ts : string) (items : list ActiveSession) :
  kind <> "delta.sessions.detail" ->
  of_kind kind (map (detail_line ts) items) = [].
Proof.
  intros H. induction items as [|i rest IH]; [reflexivity|].
  cbn [map]. rewrite of_kind_cons.
  change (line_kind (detail_line ts i)) with "delta.sessions.detail".
  destruct (String.eqb_spec "delta.sessions.detail" kind); [congruence | exact IH].
Qed.

Lemma of_kind_details_same (ts : string) (items : list ActiveSession) :
  of_kind "delta.sessions.detail" (map (detail_line ts) items)
  = map (detail_line ts) items.
Proof.
  induction items as [|i rest IH]; [reflexivity|].
  cbn [map]. rewrite of_kind_cons, IH. reflexivity.
Qed.

Lemma heartbeat_line_kind (ts : string) (active : list ActiveSession)
    (topology : Topology) :
  line_kind (heartbeat_line ts active topology) = "heartbeat".
Proof. reflexivity. Qed.

Section Turn.
Variable dumps : Topology -> string.
Variable args : Args.

Lemma of_kind_topology_step (kind ts : string) (st : State) (topology : Topology) :
  kind <> "delta.git" -> of_kind kind (fst (topology_step dumps ts st topology)) = [].
Proof.
  intros H. unfold topology_step. destruct (bool_decide _); [|reflexivity].
  cbn [fst]. rewrite of_kind_cons. cbn [line_kind].
  destruct (String.eqb_spec "delta.git" kind); [congruence | reflexivity].
Qed.

Lemma of_kind_heartbeat_step (kind ts : string) (st : State) (now : Q)
    (active : list ActiveSession) (topology : Topology) :
  kind <> "heartbeat" -> kind <> "heartbeat.sessions" ->
  of_kind kind (fst (heartbeat_step args ts st now active topology)) = [].
Proof.
  intros H1 H2. unfold heartbeat_step. destruct (Qle_bool _ _); [|reflexivity].
  cbn [fst]. unfold emit_heartbeat.
  rewrite !of_kind_cons, heartbeat_line_kind. cbn [line_kind].
  destruct (String.eqb_spec "heartbeat" kind); [congruence|].
  destruct (String.eqb_spec "heartbeat.sessions" kind); [congruence | reflexivity].
Qed.

(** A turn whose loads succeeded prints the three blocks in order and never
    ends in an exception. *)
Lemma cycle_loaded (st : State) (ts : string) (now : Q)
    (active : list ActiveSession) (topology : Topology) :
  exists out1 ids,
    sessions_step ts st active = (out1, Ok ids)
    /\ cycle dumps args st (mkCycle ts (LoadOk active topology) now)
       = (out1 ++ fst (topology_step dumps ts st topology)
               ++ fst (heartbeat_step args ts st now active topology),
          if once args then Exit 0
          else Continue
                 (mkState ids (snd (topology_step dumps ts st topology))
                    (snd (heartbeat_step args ts st now active topology)))).
Proof.
  unfold cycle. simpl.
  assert (exists out1 ids, sessions_step ts st active = (out1, Ok ids)) as (out1 & ids & Hs).
  { unfold sessions_step. destruct (bool_decide _); [|eauto].
    destruct (emit_session_delta_ok ts (prev_session_ids st) active) as (items & _ & He).
    cbv zeta in He. rewrite He. simpl. eauto. }
  exists out1, ids. split; [exact Hs|]. rewrite Hs.
  destruct (topology_step dumps ts st topology), (heartbeat_step args ts st now active topology).
  reflexivity.
Qed.

End Turn.

(** C2 (as the code has it).  In a turn whose loads succeeded, a session delta
    record is printed exactly when the list of active session ids (in the
    order of the sessions, repeats included) differs from the list kept from
    the previous turn; that is so in particular whenever the two sets of ids
    differ.  The record lists the added and the removed ids in ascending
    order, each once (previous {A,B}, current {B,C}: added [C], removed [A]),
    and is followed by one detail line for each of the first 8 added ids in
    that order, each for an active session with that id. *)
Theorem session_delta_on_id_list_change
    (dumps : Topology -> string) (args : Args) (st : State) (ts : string)
    (now : Q) (active : list ActiveSession) (topology : Topology) :
  let out := fst (cycle dumps args st (mkCycle ts (LoadOk active topology) now)) in
  let prev := prev_session_ids st in
  let ids := map session_id active in
  let added := sorted_set (set_of ids ∖ set_of prev) in
  let removed := sorted_set (set_of prev ∖ set_of ids) in
  (ids = prev ->
     of_kind "delta.sessions" out = [] /\ of_kind "delta.sessions.detail" out = [])
  /\ (ids <> prev ->
      exists items rest,
        Forall2 (fun sid item => session_id item = sid /\ In item active)
          (firstn 8 added) items
        /\ out = delta_line ts (List.length ids) added removed
                 :: map (detail_line ts) items ++ rest
        /\ of_kind "delta.sessions" rest = []
        /\ of_kind "delta.sessions.detail" rest = [])
  /\ (set_of ids <> set_of prev -> ids <> prev)
  /\ (StronglySorted (fun a b => String.leb a b = true) added /\ NoDup added
      /\ forall x, In x added <-> In x ids /\ ~ In x prev)
  /\ (StronglySorted (fun a b => String.leb a b = true) removed /\ NoDup removed
      /\ forall x, In x removed <-> In x prev /\ ~ In x ids)
  /\ sorted_set (set_of ["B"; "C"] ∖ set_of ["A"; "B"]) = ["C"]
  /\ sorted_set (set_of ["A"; "B"] ∖ set_of ["B"; "C"]) = ["A"].
Proof.
  intros out prev ids added removed.
  destruct (cycle_loaded dumps args st ts now active topology)
    as (out1 & ids' & Hs & Hc).
  assert (out = out1 ++ fst (topology_step dumps ts st topology)
                     ++ fst (heartbeat_step args ts st now active topology)) as Hout
    by (unfold out; now rewrite Hc).
  assert (forall kind, kind <> "delta.git" -> kind <> "heartbeat" ->
            kind <> "heartbeat.sessions" ->
            of_kind kind (fst (topology_step dumps ts st topology)
                          ++ fst (heartbeat_step args ts st now active topology)) = [])
    as Hrest.
  { intros kind H1 H2 H3.
    now rewrite of_kind_app, of_kind_topology_step, of_kind_heartbeat_step. }
  unfold sessions_step in Hs. fold ids prev in Hs.
  split; [|split; [|split; [|split; [|split; [|split]]]]].
  - intros E. rewrite bool_decide_eq_false_2 in Hs by (intros N; now apply N).
    inversion Hs; subst out1. rewrite Hout. simpl app.
    split; apply Hrest; discriminate.
  - intros N. rewrite bool_decide_eq_true_2 in Hs by exact N.
    destruct (emit_session_delta_ok ts prev active) as (items & Hf & He).
    cbv zeta in He. fold ids added removed in He. rewrite He in Hs.
    simpl in Hs. inversion Hs; subst out1.
    exists items, (fst (topology_step dumps ts st topology)
                   ++ fst (heartbeat_step args ts st now active topology)).
    split; [exact Hf|]. split; [now rewrite Hout|].
    split; apply Hrest; discriminate.
  - intros N E. apply N. now rewrite E.
  - split; [apply sorted_strs_sorted|]. split; [apply sorted_set_NoDup|].
    intros x. apply sorted_diff_In.
  - split; [apply sorted_strs_sorted|]. split; [apply sorted_set_NoDup|].
    intros x. apply sorted_diff_In.
  - vm_compute; reflexivity.
  - vm_compute; reflexivity.
Qed.

(** C2 (counterexample).  The ids [B, A] follow [A, B], or [A, A] (one id
    found in two logs) follows [A]: the sets are equal, yet a delta record
    with nothing added or removed is printed.  And when nine sessions appear
    at once, the detail lines are those of [s1]..[s8], the first eight ids in
    ascending order: [s9], the most recently started, has none. *)
Lemma session_delta_reorder_and_cap :
  set_of ["B"; "A"] = set_of ["A"; "B"]
  /\ of_kind "delta.sessions"
       (fst (cycle sample_dumps (mkArgs true 5 20)
               (mkState ["A"; "B"] (Some sample_topology) 0)
               (mkCycle "T" (LoadOk [sample_session "B" "t2"; sample_session "A" "t1"]
                               sample_topology) 3)))
     = [delta_line "T" 2 [] []]
  /\ set_of ["A"; "A"] = set_of ["A"]
  /\ of_kind "delta.sessions"
       (fst (cycle sample_dumps (mkArgs true 5 20)
               (mkState ["A"] (Some sample_topology) 0)
               (mkCycle "T" (LoadOk [sample_session "A" "t1"; sample_session "A" "t1"]
                               sample_topology) 3)))
     = [delta_line "T" 2 [] []]
  /\ hd_error nine_sessions = Some (sample_session "s9" "2024-05-01T10:00:09Z")
  /\ of_kind "delta.sessions.detail"
       (fst (cycle sample_dumps (mkArgs true 5 20) initial_state
               (mkCycle "T" (LoadOk nine_sessions sample_topology) 3)))
     = map (fun n => detail_line "T"
                       (sample_session ("s" +:+ n) ("2024-05-01T10:00:0" +:+ n +:+ "Z")))
           ["1"; "2"; "3"; "4"; "5"; "6"; "7"; "8"].
Proof. repeat split; vm_compute; reflexivity. Qed.

(** ** The heartbeat of the first turn that completes *)

Section Loop.
Variable dumps : Topology -> string.
Variable args : Args.

(** Turns whose loads fail print their error line and leave the state as it
    was. *)
Lemma run_failed_prefix (st : State) (failed rest : list Cycle) :
  once args = false ->
  forallb is_failed failed = true ->
  exists errors,
    run dumps args st (failed ++ rest)
    = (errors ++ fst (run dumps args st rest), snd (run dumps args st rest)).
Proof.
  intros Honce. induction failed as [|c failed IH]; intros Hf.
  - exists []. simpl. now destruct (run dumps args st rest).
  - simpl in Hf. apply andb_prop in Hf as [Hc Hf].
    destruct (IH Hf) as (errors & E).
    unfold is_failed in Hc. destruct (loaded c) as [exc|] eqn:Hl; [|discriminate].
    exists (mkLine (cycle_ts c) "error" exc :: errors).
    simpl. unfold cycle. rewrite Hl, Honce, E. reflexivity.
Qed.

(** With the deadline still at its initial 0, a clock that is not negative
    makes the heartbeat due. *)
Lemma heartbeat_step_initial (st : State) (ts : string) (now : Q)
    (active : list ActiveSession) (topology : Topology) :
  next_heartbeat st = 0%Q -> (0 <= now)%Q ->
  fst (heartbeat_step args ts st now active topology) = emit_heartbeat ts active topology.
Proof.
  intros Hn Hnow. unfold heartbeat_step. rewrite Hn.
  apply Qle_bool_iff in Hnow. now rewrite Hnow.
Qed.

End Loop.

(** C10.  In the first turn whose loads succeed, a heartbeat is printed
    whatever the heartbeat interval, provided the monotonic clock reads no
    less than 0: after any number of failed turns when the monitor loops; and
    a single-shot run that returns 0 has loaded its data in its one turn and
    ends its output with the heartbeat. *)
Theorem first_completed_cycle_emits_heartbeat
    (dumps : Topology -> string) (args : Args)
    (failed rest : list Cycle) (c : Cycle) :
  forallb is_failed failed = true ->
  (0 <= now_mono c)%Q ->
  (forall active topology,
     loaded c = LoadOk active topology ->
     once args = false ->
     exists before after,
       fst (main dumps args (failed ++ c :: rest))
       = before ++ emit_heartbeat (cycle_ts c) active topology ++ after)
  /\ (forall out,
        once args = true ->
        main dumps args (c :: rest) = (out, Exit 0) ->
        exists active topology before,
          loaded c = LoadOk active topology
          /\ out = before ++ emit_heartbeat (cycle_ts c) active topology)
  /\ (forall active topology,
        line_kind (heartbeat_line (cycle_ts c) active topology) = "heartbeat"
        /\ In (heartbeat_line (cycle_ts c) active topology)
              (emit_heartbeat (cycle_ts c) active topology)).
Proof.
  intros Hf Hnow.
  destruct c as [ts ld now]. simpl in Hnow |- *.
  split; [|split; [|intros; split; [reflexivity | now left]]].
  - intros active topology -> Honce. unfold main.
    destruct (cycle_loaded dumps args initial_state ts now active topology)
      as (out1 & ids & _ & Hc).
    rewrite (heartbeat_step_initial args initial_state ts now active topology
               eq_refl Hnow) in Hc.
    destruct (run_failed_prefix dumps args initial_state failed
                (mkCycle ts (LoadOk active topology) now :: rest) Honce Hf)
      as (errors & E).
    rewrite E. cbn [fst]. cbn [run]. rewrite Hc, Honce.
    destruct (run dumps args _ rest) as [out' o]. cbn [fst].
    exists (errors ++ out1 ++ fst (topology_step dumps ts initial_state topology)), out'.
    now rewrite <- !app_assoc.
  - intros out Honce Hrun. unfold main in Hrun. cbn [run] in Hrun.
    destruct ld as [exc|active topology].
    + unfold cycle in Hrun. cbn in Hrun. rewrite Honce in Hrun. discriminate.
    + destruct (cycle_loaded dumps args initial_state ts now active topology)
        as (out1 & ids & _ & Hc).
      rewrite (heartbeat_step_initial args initial_state ts now active topology
                 eq_refl Hnow) in Hc.
      rewrite Hc, Honce in Hrun. inversion Hrun; subst out.
      exists active, topology,
        (out1 ++ fst (topology_step dumps ts initial_state topology)).
      split; [reflexivity | now rewrite <- !app_assoc].
Qed.

Lemma first_completed_cycle_emits_heartbeat_witness :
  (0 <= 2)%Q
  /\ (exists before after,
        fst (main sample_dumps (mkArgs false 5 3600)
               ([mkCycle "T0" (LoadFailed "boom") 1]
                ++ mkCycle "T1" (LoadOk nine_sessions sample_topology) 2 :: []))
        = before ++ emit_heartbeat "T1" nine_sessions sample_topology ++ after)
  /\ (exists out before,
        main sample_dumps (mkArgs true 5 3600)
          [mkCycle "T1" (LoadOk nine_sessions sample_topology) 2] = (out, Exit 0)
        /\ out = before ++ emit_heartbeat "T1" nine_sessions sample_topology).
Proof.
  assert (0 <= 2)%Q as Hnow by (vm_compute; discriminate).
  split; [exact Hnow|]. split.
  - destruct (first_completed_cycle_emits_heartbeat sample_dumps (mkArgs false 5 3600)
                [mkCycle "T0" (LoadFailed "boom") 1] []
                (mkCycle "T1" (LoadOk nine_sessions sample_topology) 2)
                eq_refl Hnow) as [H _].
    exact (H nine_sessions sample_topology eq_refl eq_refl).
  - destruct (first_completed_cycle_emits_heartbeat sample_dumps (mkArgs true 5 3600)
                [] [] (mkCycle "T1" (LoadOk nine_sessions sample_topology) 2)
                eq_refl Hnow) as (_ & H & _).
    pose (out := fst (main sample_dumps (mkArgs true 5 3600)
                        [mkCycle "T1" (LoadOk nine_sessions sample_topology) 2])).
    assert (main sample_dumps (mkArgs true 5 3600)
              [mkCycle "T1" (LoadOk nine_sessions sample_topology) 2] = (out, Exit 0))
      as Hm by (vm_compute; reflexivity).
    destruct (H out eq_refl Hm) as (active & topology & before & Hl & Ho).
    inversion Hl; subst active topology.
    exists out, before. split; assumption.
Defined.

(** ** The loop as a whole *)

Section Cycles.
Variable dumps : Topology -> string.
Variable args : Args.

Lemma of_kind_sessions_step (kind ts : string) (st : State)
    (active : list ActiveSession) :
  kind <> "delta.sessions" -> kind <> "delta.sessions.detail" ->
  of_kind kind (fst (sessions_step ts st active)) = [].
Proof.
  intros H1 H2. unfold sessions_step. destruct (bool_decide _); [|reflexivity].
  destruct (emit_session_delta_ok ts (prev_session_ids st) active) as (items & _ & He).
  cbv zeta in He. rewrite He. cbn [fst]. rewrite of_kind_cons.
  change (line_kind (delta_line ts (List.length (map session_id active))
                       (sorted_set (set_of (map session_id active)
                                    ∖ set_of (prev_session_ids st)))
                       (sorted_set (set_of (prev_session_ids st)
                                    ∖ set_of (map session_id active)))))
    with "delta.sessions".
  destruct (String.eqb_spec "delta.sessions" kind); [congruence|].
  now apply of_kind_details.
Qed.

(** The lines of a turn whose loads succeeded, kind by kind. *)
Lemma of_kind_cycle_loaded (kind : string) (st : State) (ts : string) (now : Q)
    (active : list ActiveSession) (topology : Topology) :
  of_kind kind (fst (cycle dumps args st (mkCycle ts (LoadOk active topology) now)))
  = of_kind kind (fst (sessions_step ts st active))
    ++ of_kind kind (fst (topology_step dumps ts st topology))
    ++ of_kind kind (fst (heartbeat_step args ts st now active topology)).
Proof.
  destruct (cycle_loaded dumps args st ts now active topology) as (out1 & ids & Hs & Hc).
  rewrite Hc, Hs. cbn [fst]. now rewrite !of_kind_app.
Qed.


Lemma py_max_ge_r (a b : Q) : (b <= py_max a b)%Q.
Proof.
  unfold py_max. destruct (Qle_bool b a) eqn:E; [now apply Qle_bool_iff | apply Qle_refl].
Qed.

Lemma Qle_bool_false (a b : Q) : Qle_bool a b = false <-> (b < a)%Q.
Proof.
  split; intros H.
  - apply Qnot_le_lt. intros N. apply Qle_bool_iff in N. congruence.
  - destruct (Qle_bool a b) eqn:E; [|reflexivity].
    apply Qle_bool_iff in E. exfalso. now apply (Qlt_not_le b a).
Qed.

End Cycles.



(** A turn whose loads succeeded prints nothing exactly when the list of
    session ids and the topology are those kept from the turn before and the
    heartbeat is not due; such a turn of a looping monitor leaves the kept
    state as it was. *)
Theorem cycle_silent_iff (dumps : Topology -> string) (args : Args) (st : State)
    (ts : string) (now : Q) (active : list ActiveSession) (topology : Topology) :
  let c := mkCycle ts (LoadOk active topology) now in
  (fst (cycle dumps args st c) = []
   <-> map session_id active = prev_session_ids st
       /\ prev_topology st = Some topology
       /\ (now < next_heartbeat st)%Q)
  /\ (fst (cycle dumps args st c) = [] -> once args = false ->
      snd (cycle dumps args st c) = Continue st).
Proof.
  intros c. unfold c.
  destruct (cycle_loaded dumps args st ts now active topology) as (out1 & ids & Hs & E).
  rewrite E. cbn [fst snd].
  assert (out1 ++ fst (topology_step dumps ts st topology)
          ++ fst (heartbeat_step args ts st now active topology) = []
          <-> map session_id active = prev_session_ids st
              /\ prev_topology st = Some topology
              /\ (now < next_heartbeat st)%Q) as Hiff.
  { unfold sessions_step in Hs. unfold topology_step, heartbeat_step.
    rewrite <- Qle_bool_false.
    destruct (decide (map session_id active = prev_session_ids st)) as [E1|N1].
    2:{ rewrite bool_decide_eq_true_2 in Hs by exact N1.
        destruct (emit_session_delta_ok ts (prev_session_ids st) active)
          as (items & _ & He).
        cbv zeta in He. rewrite He in Hs. inversion Hs; subst out1.
        split; [discriminate | intros [? _]; contradiction]. }
    rewrite bool_decide_eq_false_2 in Hs by (intros N; now apply N).
    inversion Hs; subst out1. cbn [app].
    destruct (decide (prev_topology st = Some topology)) as [E2|N2].
    2:{ rewrite bool_decide_eq_true_2 by exact N2.
        split; [discriminate | intros (_ & ? & _); contradiction]. }
    rewrite (bool_decide_eq_false_2 (prev_topology st <> Some topology))
      by (intros N; now apply N).
    cbn [fst app].
    destruct (Qle_bool (next_heartbeat st) now); cbn [fst].
    - split; [discriminate | intros (_ & _ & ?); discriminate].
    - split; auto. }
  split; [exact Hiff|].
  intros H Honce. rewrite Honce. apply Hiff in H as (H1 & H2 & H3).
  unfold sessions_step in Hs. unfold topology_step, heartbeat_step.
  apply Qle_bool_false in H3. rewrite H3.
  rewrite bool_decide_eq_false_2 in Hs by (intros N; now apply N).
  rewrite (bool_decide_eq_false_2 (prev_topology st <> Some topology))
    by (intros N; now apply N).
  inversion Hs. cbn [snd]. now destruct st.
Qed.

(** In a turn whose loads succeeded the topology record is printed exactly
    when the topology differs from the one kept (always in the first such
    turn, when none is kept), and it is the only line of its kind; a looping
    monitor then keeps the topology of this turn. *)
Theorem topology_delta_on_change (dumps : Topology -> string) (args : Args)
    (st : State) (ts : string) (now : Q) (active : list ActiveSession)
    (topology : Topology) :
  let c := mkCycle ts (LoadOk active topology) now in
  of_kind "delta.git" (fst (cycle dumps args st c))
  = (if bool_decide (prev_topology st = Some topology) then []
     else [mkLine ts "delta.git" (dumps topology)])
  /\ (prev_topology st = None ->
      of_kind "delta.git" (fst (cycle dumps args st c))
      = [mkLine ts "delta.git" (dumps topology)])
  /\ (once args = false ->
      exists ids next,
        snd (cycle dumps args st c) = Continue (mkState ids (Some topology) next)).
Proof.
  intros c. unfold c.
  assert (of_kind "delta.git"
            (fst (cycle dumps args st (mkCycle ts (LoadOk active topology) now)))
          = (if bool_decide (prev_topology st = Some topology) then []
             else [mkLine ts "delta.git" (dumps topology)])) as Hk.
  { rewrite of_kind_cycle_loaded, of_kind_sessions_step, of_kind_heartbeat_step
      by discriminate.
    rewrite app_nil_r. cbn [app]. unfold topology_step.
    repeat case_bool_decide; try reflexivity; contradiction. }
  split; [exact Hk|]. split.
  - intros Hn. rewrite Hk, Hn. reflexivity.
  - intros Honce.
    destruct (cycle_loaded dumps args st ts now active topology)
      as (out1 & ids & _ & E).
    rewrite E, Honce. cbn [snd]. exists ids. eexists. f_equal. f_equal.
    unfold topology_step.
    destruct (decide (prev_topology st = Some topology)) as [E2|N2].
    + rewrite bool_decide_eq_false_2 by (intros N; now apply N). exact E2.
    + now rewrite bool_decide_eq_true_2 by exact N2.
Qed.

(** The two role counts of a heartbeat cover the active sessions only in
    part: together they are at most the number of active sessions, and equal
    to it exactly when every session's role is "primary" or "subagent". *)
Theorem summarize_roles_partial (active : list ActiveSession) :
  (fst (summarize_roles active) + snd (summarize_roles active)
   <= List.length active)%nat
  /\ (fst (summarize_roles active) + snd (summarize_roles active)
      = List.length active
      <-> Forall (fun item => role item = "primary" \/ role item = "subagent") active).
Proof.
  unfold summarize_roles. cbn [fst snd].
  induction active as [|a rest [IHle IHeq]]; [split; [reflexivity | split; auto]|].
  cbn [List.filter List.length].
  pose proof (List.filter_length_le (fun item => role item =? "primary") rest) as Hp.
  pose proof (List.filter_length_le (fun item => role item =? "subagent") rest) as Hs.
  destruct (String.eqb_spec (role a) "primary") as [E1|N1];
    destruct (String.eqb_spec (role a) "subagent") as [E2|N2];
    try congruence; cbn [List.length].
  - split; [lia|]. rewrite List.Forall_cons_iff, <- IHeq. split; [intros; split; auto; lia|].
    intros [_ H]. lia.
  - split; [lia|]. rewrite List.Forall_cons_iff, <- IHeq. split; [intros; split; auto; lia|].
    intros [_ H]. lia.
  - split; [lia|]. rewrite List.Forall_cons_iff. split; [lia|].
    intros [[?|?] _]; contradiction.
Qed.

(** ** The topology read from the report of git_coordination.py *)

Lemma sorted_perm_eq (l1 l2 : list string) :
  StronglySorted (fun a b => String.leb a b = true) l1 ->
  StronglySorted (fun a b => String.leb a b = true) l2 ->
  Permutation l1 l2 -> l1 = l2.
Proof.
  revert l2. induction l1 as [|a t1 IH]; intros l2 H1 H2 Hp.
  - apply Permutation_nil in Hp. now subst.
  - destruct l2 as [|b t2]; [symmetry in Hp; now apply Permutation_nil in Hp|].
    inversion H1 as [|? ? Ht1 Ha]; subst. inversion H2 as [|? ? Ht2 Hb]; subst.
    assert (a = b) as ->.
    { assert (In a (b :: t2)) as Hin1 by (eapply Permutation_in; [exact Hp | now left]).
      assert (In b (a :: t1)) as Hin2
        by (eapply Permutation_in; [symmetry; exact Hp | now left]).
      destruct Hin1 as [->|Hin1]; [reflexivity|].
      destruct Hin2 as [->|Hin2]; [reflexivity|].
      rewrite List.Forall_forall in Ha, Hb.
      apply String.leb_antisym; [now apply Ha | now apply Hb]. }
    f_equal. apply IH; [assumption | assumption |].
    now apply Permutation_cons_inv in Hp.
Qed.

Lemma sorted_strs_perm (l1 l2 : list string) :
  Permutation l1 l2 -> sorted_strs l1 = sorted_strs l2.
Proof.
  intros Hp. apply sorted_perm_eq; try apply sorted_strs_sorted.
  unfold sorted_strs.
  etransitivity; [symmetry; apply sort_by_perm|].
  etransitivity; [exact Hp | apply sort_by_perm].
Qed.

Lemma filter_perm {A} (p : A -> bool) (l1 l2 : list A) :
  Permutation l1 l2 -> Permutation (List.filter p l1) (List.filter p l2).
Proof.
  induction 1 as [|x l l' _ IH|x y l|l l' l'' _ IH1 _ IH2]; cbn [List.filter].
  - constructor.
  - destruct (p x); [now constructor | exact IH].
  - destruct (p x), (p y); try reflexivity. apply perm_swap.
  - now transitivity (List.filter p l').
Qed.

Lemma select_map {A} (to_json : A -> J.json) (cond : J.json -> option bool)
    (f : J.json -> option string) (flag : A -> bool) (g : A -> string) (l : list A) :
  (forall a, cond (to_json a) = Some (flag a)) ->
  (forall a, f (to_json a) = Some (g a)) ->
  select cond f (map to_json l) = Some (map g (List.filter flag l)).
Proof.
  intros Hc Hf. induction l as [|a rest IH]; [reflexivity|].
  cbn [map select List.filter]. rewrite Hc. cbn. destruct (flag a); [|exact IH].
  rewrite Hf. cbn. rewrite IH. reflexivity.
Qed.

(** The heartbeat monitor reads the report of git_coordination.py without
    fail: [normalize_topology] never raises on it.  The base ref is the one
    reported; the root counts as dirty when the status has more than one line
    that is not blank; the dirty worktrees are the "branch@path" labels of the
    worktrees reported dirty, the prunable ones the paths of those reported
    prunable, the diverged branches the names of the deltas that are ahead of
    and behind the base, each list in ascending order.  So the topology does
    not depend on the order of the branches and of the worktrees in the
    report, nor on the recommendations. *)
Theorem normalize_topology_of_report
    (repr : J.json -> string) (int_of_float : PrimFloat.float -> option Z)
    (base_ref repo_status : string)
    (deltas : list GitCoordination.BranchDelta)
    (worktrees : list GitCoordination.WorktreeState) (recs : list string) :
  normalize_topology repr int_of_float
    (GitCoordinationJson.as_json_payload base_ref repo_status deltas worktrees recs)
  = Some (mkTopology base_ref
            (1 <? List.length (status_lines repo_status))%nat
            (sorted_strs
               (map (fun w => GitCoordination.wt_branch w +:+ "@"
                              +:+ GitCoordination.path w)
                    (List.filter GitCoordination.dirty worktrees)))
            (sorted_strs
               (map GitCoordination.path
                    (List.filter GitCoordination.prunable worktrees)))
            (sorted_strs
               (map GitCoordination.branch
                    (List.filter GitCoordination.is_diverged deltas))))
  /\ (forall deltas' worktrees' recs',
        Permutation deltas deltas' -> Permutation worktrees worktrees' ->
        normalize_topology repr int_of_float
          (GitCoordinationJson.as_json_payload base_ref repo_status
             deltas' worktrees' recs')
        = normalize_topology repr int_of_float
            (GitCoordinationJson.as_json_payload base_ref repo_status
               deltas worktrees recs)).
Proof.
  assert (forall ds ws rs,
            normalize_topology repr int_of_float
              (GitCoordinationJson.as_json_payload base_ref repo_status ds ws rs)
            = Some (mkTopology base_ref
                      (1 <? List.length (status_lines repo_status))%nat
                      (sorted_strs
                         (map (fun w => GitCoordination.wt_branch w +:+ "@"
                                        +:+ GitCoordination.path w)
                              (List.filter GitCoordination.dirty ws)))
                      (sorted_strs
                         (map GitCoordination.path
                              (List.filter GitCoordination.prunable ws)))
                      (sorted_strs
                         (map GitCoordination.branch
                              (List.filter GitCoordination.is_diverged ds))))) as Heq.
  { intros ds ws rs. unfold normalize_topology, GitCoordinationJson.as_json_payload.
    cbn [get J.dict_get J.lookup_key String.eqb Ascii.eqb Bool.eqb
         mbind option_bind iterate J.py_str].
    rewrite (select_map GitCoordinationJson.worktree_json (flagged "dirty")
               (branch_at_path repr) GitCoordination.dirty
               (fun w => GitCoordination.wt_branch w +:+ "@" +:+ GitCoordination.path w))
      by reflexivity.
    cbn [mbind option_bind].
    rewrite (select_map GitCoordinationJson.worktree_json (flagged "prunable")
               (str_field repr "path") GitCoordination.prunable GitCoordination.path)
      by reflexivity.
    cbn [mbind option_bind].
    rewrite (select_map GitCoordinationJson.delta_json (row_diverged int_of_float)
               (str_field repr "branch") GitCoordination.is_diverged
               GitCoordination.branch).
    - reflexivity.
    - intros d. unfold row_diverged, GitCoordination.is_diverged. cbn.
      now destruct (GitCoordination.ahead_of_base d >? 0)%Z.
    - reflexivity. }
  split; [apply Heq|].
  intros deltas' worktrees' recs' Hd Hw. rewrite !Heq. f_equal. f_equal.
  - apply sorted_strs_perm, Permutation_map, filter_perm. now symmetry.
  - apply sorted_strs_perm, Permutation_map, filter_perm. now symmetry.
  - apply sorted_strs_perm, Permutation_map, filter_perm. now symmetry.
Qed.

(** A topology is only made of a JSON object, and its three lists are in
    ascending order whatever the report holds: a report that lists the same
    worktrees and branches in another order gives no other topology. *)
Theorem normalize_topology_sorted
    (repr : J.json -> string) (int_of_float : PrimFloat.float -> option Z)
    (raw : J.json) (topology : Topology) :
  normalize_topology repr int_of_float raw = Some topology ->
  (exists d, raw = J.JDict d
             /\ base_ref topology = J.py_str repr (J.dict_get d "base_ref" (J.JStr "")))
  /\ StronglySorted (fun a b => String.leb a b = true) (dirty_worktrees topology)
  /\ StronglySorted (fun a b => String.leb a b = true) (prunable_worktrees topology)
  /\ StronglySorted (fun a b => String.leb a b = true) (diverged topology).
Proof.
  unfold normalize_topology. intros H.
  destruct raw as [| | | | | |d]; try discriminate.
  cbn [get mbind option_bind] in H.
  repeat (apply bind_Some in H as (? & _ & H)).
  inversion H; subst; cbn [base_ref dirty_worktrees prunable_worktrees diverged].
  split; [eauto|]. repeat split; apply sorted_strs_sorted.
Qed.

Lemma normalize_topology_sorted_witness :
  normalize_topology SessionMonitor.sample_repr (fun _ => None)
    (J.JDict [("base_ref", J.JStr "main")])
  = Some (mkTopology "main" false [] [] [])
  /\ StronglySorted (fun a b => String.leb a b = true)
       (diverged (mkTopology "main" false [] [] [])).
Proof.
  assert (normalize_topology SessionMonitor.sample_repr (fun _ => None)
            (J.JDict [("base_ref", J.JStr "main")])
          = Some (mkTopology "main" false [] [] [])) as H by (vm_compute; reflexivity).
  split; [exact H|].
  apply (normalize_topology_sorted _ _ _ _ H).
Defined.

(** ** The active sessions read from the reports of session_monitor.py *)

Lemma started_desc_sorted (active : list ActiveSession) :
  StronglySorted (fun a b => String.leb (started_at b) (started_at a) = true)
    (sort_by (fun a b => String.leb (started_at b) (started_at a)) active).
Proof.
  apply Sorted_StronglySorted.
  - intros a b c Hab Hbc. exact (leb_trans _ _ _ Hbc Hab).
  - apply (sort_by_sorted (fun a b => String.leb (started_at b) (started_at a))).
    intros x y. destruct (String.leb_total (started_at x) (started_at y)); auto.
Qed.

Section Loaded.
Variable repr : J.json -> string.

Lemma active_rows_from (by_id : list (J.json * J.json)) (rows : list J.json) :
  forall active,
    active_rows repr by_id rows = Some active ->
    Forall (fun item =>
              exists row,
                In (J.JDict row) rows
                /\ J.truthy (J.dict_get row "active" J.JNull) = true
                /\ session_id item
                   = J.py_str repr (J.dict_get row "session_id" (J.JStr ""))
                /\ started_at item
                   = J.py_str repr (J.dict_get row "started_at" (J.JStr ""))
                /\ log_path item
                   = J.py_str repr (J.dict_get row "log_path" (J.JStr ""))) active
    /\ (List.length active <= List.length rows)%nat.
Proof.
  induction rows as [|row rest IH]; intros active H; cbn [active_rows] in H.
  - inversion H; subst. split; [constructor | reflexivity].
  - assert (forall l,
              active_rows repr by_id rest = Some l ->
              Forall (fun item =>
                        exists row0,
                          In (J.JDict row0) (row :: rest)
                          /\ J.truthy (J.dict_get row0 "active" J.JNull) = true
                          /\ session_id item
                             = J.py_str repr (J.dict_get row0 "session_id" (J.JStr ""))
                          /\ started_at item
                             = J.py_str repr (J.dict_get row0 "started_at" (J.JStr ""))
                          /\ log_path item
                             = J.py_str repr (J.dict_get row0 "log_path" (J.JStr ""))) l
              /\ (List.length l <= List.length rest)%nat) as Hrest.
    { intros l Hl. destruct (IH l Hl) as [Hf Hn]. split; [|exact Hn].
      eapply List.Forall_impl; [|exact Hf].
      intros item (row0 & Hin & Hrow0). exists row0. split; [now right | exact Hrow0]. }
    destruct row as [| | | | | |d]; try discriminate.
    unfold flagged, str_field in H. cbn [get fmap option_fmap option_map mbind option_bind] in H.
    destruct (J.truthy (J.dict_get d "active" J.JNull)) eqn:Ha; cbn [negb] in H.
    + apply bind_Some in H as (lts & _ & H). apply bind_Some in H as (lsm & _ & H).
      apply bind_Some in H as (l & Hl & H).
      inversion H; subst active. destruct (Hrest l Hl) as [Hf Hn].
      split; [|cbn; lia]. constructor; [|exact Hf].
      exists d. cbn. repeat split; auto.
    + destruct (Hrest active H) as [Hf Hn]. split; [exact Hf | cbn; lia].
Qed.

End Loaded.

(** Whatever the two reports hold, the sessions that [load_active_sessions]
    returns are in descending order of their start time, compared as text;
    each one is made of a row of the inventory that is an object with a truthy
    "active", and there are no more of them than rows. *)
Theorem load_active_sessions_sorted (repr : J.json -> string)
    (inventory activity : J.json) (active : list ActiveSession) :
  load_active_sessions repr inventory activity = Some active ->
  StronglySorted (fun a b => String.leb (started_at b) (started_at a) = true) active
  /\ exists d rows,
       inventory = J.JDict d
       /\ iterate (J.dict_get d "recent" (J.JList [])) = Some rows
       /\ Forall (fun item =>
                    exists row,
                      In (J.JDict row) rows
                      /\ J.truthy (J.dict_get row "active" J.JNull) = true
                      /\ session_id item
                         = J.py_str repr (J.dict_get row "session_id" (J.JStr ""))
                      /\ started_at item
                         = J.py_str repr (J.dict_get row "started_at" (J.JStr ""))
                      /\ log_path item
                         = J.py_str repr (J.dict_get row "log_path" (J.JStr ""))) active
       /\ (List.length active <= List.length rows)%nat.
Proof.
  unfold load_active_sessions. intros H.
  apply bind_Some in H as (alist & _ & H).
  apply bind_Some in H as (arows & _ & H).
  apply bind_Some in H as (by_id & _ & H).
  apply bind_Some in H as (recent & Hrecent & H).
  apply bind_Some in H as (rows & Hrows & H).
  apply bind_Some in H as (unsorted & Hactive & H).
  inversion H; subst active; clear H.
  split; [apply started_desc_sorted|].
  destruct inventory as [| | | | | |d]; try discriminate.
  cbn [get] in Hrecent. inversion Hrecent; subst recent.
  exists d, rows. split; [reflexivity|]. split; [exact Hrows|].
  destruct (active_rows_from repr by_id rows unsorted Hactive) as [Hf Hn].
  split; [|now rewrite sort_by_length].
  apply List.Forall_forall. intros item Hin. apply sort_by_In in Hin.
  rewrite List.Forall_forall in Hf. now apply Hf.
Qed.

Lemma load_active_sessions_sorted_witness :
  load_active_sessions SessionMonitor.sample_repr
    (J.JDict [("recent",
               J.JList [J.JDict [("session_id", J.JStr "a");
                                 ("started_at", J.JStr "2024-05-01T10:00:00Z");
                                 ("active", J.JBool true)];
                        J.JDict [("session_id", J.JStr "b");
                                 ("started_at", J.JStr "2024-05-02T10:00:00Z");
                                 ("active", J.JBool true)]])])
    (J.JDict [])
  = Some [mkActiveSession "b" "" "" "" "2024-05-02T10:00:00Z" "" "" "";
          mkActiveSession "a" "" "" "" "2024-05-01T10:00:00Z" "" "" ""]
  /\ StronglySorted (fun a b => String.leb (started_at b) (started_at a) = true)
       [mkActiveSession "b" "" "" "" "2024-05-02T10:00:00Z" "" "" "";
        mkActiveSession "a" "" "" "" "2024-05-01T10:00:00Z" "" "" ""].
Proof.
  assert (load_active_sessions SessionMonitor.sample_repr
            (J.JDict [("recent",
                       J.JList [J.JDict [("session_id", J.JStr "a");
                                         ("started_at", J.JStr "2024-05-01T10:00:00Z");
                                         ("active", J.JBool true)];
                                J.JDict [("session_id", J.JStr "b");
                                         ("started_at", J.JStr "2024-05-02T10:00:00Z");
                                         ("active", J.JBool true)]])])
            (J.JDict [])
          = Some [mkActiveSession "b" "" "" "" "2024-05-02T10:00:00Z" "" "" "";
                  mkActiveSession "a" "" "" "" "2024-05-01T10:00:00Z" "" "" ""]) as H
    by (vm_compute; reflexivity).
  split; [exact H|].
  apply (load_active_sessions_sorted _ _ _ _ H).
Defined.

Lemma find_app {A} (p : A -> bool) (l1 l2 : list A) :
  List.find p (l1 ++ l2)
  = match List.find p l1 with Some x => Some x | None => List.find p l2 end.
Proof.
  induction l1 as [|x t IH]; [reflexivity|]. cbn. destruct (p x); [reflexivity | exact IH].
Qed.

Section Reports.
Variable json_loads : string -> option J.json.
Variable repr : J.json -> string.
Variable w : J.world.

Lemma activity_rows_acts (records : list J.SessionRecord) :
  forall rows,
    J.activity_rows json_loads repr w records = Ok rows ->
    exists acts,
      Forall2 (fun r a => J.last_activity json_loads repr w (J.log_path r) = Ok a)
        records acts
      /\ rows = zip_with J.activity_row records acts.
Proof.
  induction records as [|r rest IH]; intros rows H; cbn [J.activity_rows] in H.
  - inversion H; subst. exists []. split; [constructor | reflexivity].
  - apply bind_Ok_inv in H as (a & Ha & H). apply bind_Ok_inv in H as (rs & Hrs & H).
    inversion H; subst rows. destruct (IH rs Hrs) as (acts & Hf & ->).
    exists (a :: acts). split; [now constructor | reflexivity].
Qed.

(** The row kept for an id is the one of the last record that has it. *)
Lemma activity_by_id_last (records : list J.SessionRecord) (acts : list (string * string)) :
  Forall2 (fun r a => J.last_activity json_loads repr w (J.log_path r) = Ok a)
    records acts ->
  forall stored,
    exists by_id,
      activity_by_id (zip_with J.activity_row records acts) stored = Some by_id
      /\ forall sid,
           match List.find (fun r' => J.session_id r' =? sid) (rev records) with
           | Some r' =>
               exists a',
                 J.last_activity json_loads repr w (J.log_path r') = Ok a'
                 /\ activity_of by_id sid = J.activity_row r' a'
           | None => activity_of by_id sid = activity_of stored sid
           end.
Proof.
  induction 1 as [|r a rest acts Ha Hrest IH]; intros stored.
  - exists stored. split; [reflexivity|]. intros sid. reflexivity.
  - cbn [zip_with activity_by_id].
    change (get (J.activity_row r a) "session_id" (J.JStr ""))
      with (Some (J.JStr (J.session_id r))).
    cbn [mbind option_bind hashable].
    destruct (IH ((J.JStr (J.session_id r), J.activity_row r a) :: stored))
      as (by_id & Hby & Hsid).
    exists by_id. split; [exact Hby|]. intros sid. specialize (Hsid sid).
    cbn [rev]. rewrite find_app.
    destruct (List.find (fun r' => J.session_id r' =? sid) (rev rest)) as [r'|];
      [exact Hsid|].
    rewrite Hsid. unfold activity_of. cbn [List.find fst snd J.is_str].
    destruct (J.session_id r =? sid); [eauto | reflexivity].
Qed.

Lemma active_rows_report (recent : list J.SessionRecord)
    (by_id : list (J.json * J.json)) :
  (forall sid,
     match List.find (fun r' => J.session_id r' =? sid) (rev recent) with
     | Some r' =>
         exists a',
           J.last_activity json_loads repr w (J.log_path r') = Ok a'
           /\ activity_of by_id sid = J.activity_row r' a'
     | None => activity_of by_id sid = J.JDict []
     end) ->
  forall l,
    (forall r, In r l -> In r recent) ->
    exists unsorted,
      active_rows repr by_id (map (J.inventory_row w) l) = Some unsorted
      /\ Forall2
           (fun r item =>
              session_id item = J.session_id r
              /\ role item = J.role r
              /\ branch item = J.git_branch r
              /\ parent_thread_id item = J.parent_thread_id r
              /\ started_at item = J.started_at r
              /\ log_path item = J.log_path r
              /\ exists r',
                   List.find (fun r' => J.session_id r' =? J.session_id r) (rev recent)
                   = Some r'
                   /\ J.last_activity json_loads repr w (J.log_path r')
                      = Ok (last_timestamp item, last_summary item))
           (List.filter (fun r => J.is_active w (J.log_path r)) l) unsorted.
Proof.
  intros Hby. induction l as [|r rest IH]; intros Hin.
  - exists []. split; [reflexivity | constructor].
  - destruct IH as (unsorted & Hrows & Hf); [intros r0 Hr0; apply Hin; now right|].
    cbn [map active_rows List.filter].
    change (flagged "active" (J.inventory_row w r))
      with (Some (J.is_active w (J.log_path r))).
    cbn [mbind option_bind].
    destruct (J.is_active w (J.log_path r)); cbn [negb]; [|eauto].
    change (str_field repr "session_id" (J.inventory_row w r))
      with (Some (J.session_id r)).
    change (str_field repr "role" (J.inventory_row w r)) with (Some (J.role r)).
    change (str_field repr "git_branch" (J.inventory_row w r))
      with (Some (J.git_branch r)).
    change (str_field repr "parent_thread_id" (J.inventory_row w r))
      with (Some (J.parent_thread_id r)).
    change (str_field repr "started_at" (J.inventory_row w r))
      with (Some (J.started_at r)).
    change (str_field repr "log_path" (J.inventory_row w r))
      with (Some (J.log_path r)).
    cbn [mbind option_bind].
    specialize (Hby (J.session_id r)).
    destruct (List.find (fun r' => J.session_id r' =? J.session_id r) (rev recent))
      as [r'|] eqn:Hfind.
    + destruct Hby as ([ts summary] & Ha & ->).
      change (str_field repr "last_timestamp" (J.activity_row r' (ts, summary)))
        with (Some ts).
      change (str_field repr "last_summary" (J.activity_row r' (ts, summary)))
        with (Some summary).
      cbn [mbind option_bind]. rewrite Hrows. cbn [mbind option_bind].
      eexists. split; [reflexivity|]. constructor; [|exact Hf].
      cbn [session_id role branch parent_thread_id started_at log_path
           last_timestamp last_summary].
      repeat split. exists r'. split; [exact Hfind | exact Ha].
    + exfalso. pose proof (find_none _ _ Hfind r) as Hn. cbn beta in Hn.
      rewrite String.eqb_refl in Hn.
      assert (In r (rev recent)) as Hr by (apply -> in_rev; apply Hin; now left).
      specialize (Hn Hr). discriminate.
Qed.

End Reports.

(** Fed with the two reports of session_monitor.py, taken on the same logs,
    [load_active_sessions] never raises.  It returns, sorted anew by start
    time as text, one session for each listed record whose log is active,
    with the fields of the record; the last timestamp and summary are those
    of the last listed record that has the same session id: of another log,
    when two logs carry one id. *)
Theorem load_active_sessions_of_reports
    (json_loads : string -> option J.json) (repr : J.json -> string)
    (fromisoformat : string -> option Z) (realpath : string -> string)
    (w : J.world) (project_root : string) (recent : Z)
    (inventory activity : J.json) :
  J.inventory_report json_loads repr fromisoformat realpath w project_root recent
  = Ok inventory ->
  J.activity_report json_loads repr fromisoformat realpath w project_root recent
  = Ok activity ->
  exists sessions active unsorted,
    J.discover_sessions json_loads repr fromisoformat realpath w project_root
    = Ok sessions
    /\ load_active_sessions repr inventory activity = Some active
    /\ Permutation unsorted active
    /\ Forall2
         (fun r item =>
            session_id item = J.session_id r
            /\ role item = J.role r
            /\ branch item = J.git_branch r
            /\ parent_thread_id item = J.parent_thread_id r
            /\ started_at item = J.started_at r
            /\ log_path item = J.log_path r
            /\ exists r',
                 List.find (fun r' => J.session_id r' =? J.session_id r)
                   (rev (J.recent_sessions recent sessions))
                 = Some r'
                 /\ J.last_activity json_loads repr w (J.log_path r')
                    = Ok (last_timestamp item, last_summary item))
         (List.filter (fun r => J.is_active w (J.log_path r))
            (J.recent_sessions recent sessions))
         unsorted.
Proof.
  unfold J.inventory_report, J.activity_report. intros Hinv Hact.
  apply bind_Ok_inv in Hinv as (sessions & Hd & Hinv).
  apply bind_Ok_inv in Hact as (sessions' & Hd' & Hact).
  rewrite Hd in Hd'. inversion Hd'; subst sessions'; clear Hd'.
  apply bind_Ok_inv in Hact as (rows & Hrows & Hact).
  inversion Hinv; subst inventory. inversion Hact; subst activity. clear Hinv Hact.
  destruct (activity_rows_acts json_loads repr w _ _ Hrows) as (acts & Hf & ->).
  destruct (activity_by_id_last json_loads repr w _ _ Hf []) as (by_id & Hby & Hsid).
  destruct (active_rows_report json_loads repr w (J.recent_sessions recent sessions)
              by_id Hsid (J.recent_sessions recent sessions) (fun r H => H))
    as (unsorted & Hrows' & Hfields).
  exists sessions,
    (sort_by (fun a b => String.leb (started_at b) (started_at a)) unsorted), unsorted.
  split; [exact Hd|]. split; [|split; [apply sort_by_perm | exact Hfields]].
  unfold load_active_sessions.
  cbn [get J.dict_get J.lookup_key String.eqb Ascii.eqb Bool.eqb mbind option_bind iterate].
  rewrite Hby. cbn [mbind option_bind]. rewrite Hrows'. reflexivity.
Qed.

Lemma load_active_sessions_of_reports_witness :
  exists inventory activity active,
    J.inventory_report J.sample_loads J.sample_repr J.sample_fromisoformat
      J.sample_realpath (J.sample_world [(J.log_a, J.text_a)]) "/x/proj" 5
    = Ok inventory
    /\ J.activity_report J.sample_loads J.sample_repr J.sample_fromisoformat
         J.sample_realpath (J.sample_world [(J.log_a, J.text_a)]) "/x/proj" 5
       = Ok activity
    /\ load_active_sessions J.sample_repr inventory activity = Some active.
Proof.
  pose (inv := J.inventory_report J.sample_loads J.sample_repr J.sample_fromisoformat
                 J.sample_realpath (J.sample_world [(J.log_a, J.text_a)]) "/x/proj" 5).
  pose (act := J.activity_report J.sample_loads J.sample_repr J.sample_fromisoformat
                 J.sample_realpath (J.sample_world [(J.log_a, J.text_a)]) "/x/proj" 5).
  assert (exists i, inv = Ok i) as [i Hi] by (vm_compute; eauto).
  assert (exists a, act = Ok a) as [a Ha] by (vm_compute; eauto).
  destruct (load_active_sessions_of_reports _ _ _ _ _ _ _ _ _ Hi Ha)
    as (sessions & active & unsorted & _ & Hl & _).
  exists i, a, active. split; [exact Hi|]. split; [exact Ha | exact Hl].
Defined.

(** ** The loop with its sleeps and its doubles *)

Section Sleeping.
Variable dumps : Topology -> string.
Variable args : Args.
Variable fadd : Q -> Q -> Q.


(** A turn whose loads succeeded prints the three blocks in order and never
    ends in an exception of its own. *)
Lemma rounded_cycle_loaded (st : State) (ts : string) (now : Q)
    (active : list ActiveSession) (topology : Topology) :
  exists out1 ids,
    sessions_step ts st active = (out1, Ok ids)
    /\ HeartbeatLoop.cycle dumps args fadd st (mkCycle ts (LoadOk active topology) now)
       = (out1 ++ fst (topology_step dumps ts st topology)
               ++ fst (HeartbeatLoop.heartbeat_step args fadd ts st now active topology),
          if once args then Exit 0
          else Continue
                 (mkState ids (snd (topology_step dumps ts st topology))
                    (snd (HeartbeatLoop.heartbeat_step args fadd ts st now
                            active topology)))).
Proof.
  unfold HeartbeatLoop.cycle. cbn [cycle_ts loaded now_mono].
  destruct (cycle_loaded dumps args st ts now active topology) as (out1 & ids & Hs & _).
  exists out1, ids. split; [exact Hs|]. rewrite Hs.
  destruct (topology_step dumps ts st topology),
    (HeartbeatLoop.heartbeat_step args fadd ts st now active topology).
  reflexivity.
Qed.

Lemma of_kind_rounded_cycle (kind : string) (st : State) (ts : string) (now : Q)
    (active : list ActiveSession) (topology : Topology) :
  of_kind kind
    (fst (HeartbeatLoop.cycle dumps args fadd st (mkCycle ts (LoadOk active topology) now)))
  = of_kind kind (fst (sessions_step ts st active))
    ++ of_kind kind (fst (topology_step dumps ts st topology))
    ++ of_kind kind
         (fst (HeartbeatLoop.heartbeat_step args fadd ts st now active topology)).
Proof.
  destruct (rounded_cycle_loaded st ts now active topology) as (out1 & ids & Hs & Hc).
  rewrite Hc, Hs. cbn [fst]. now rewrite !of_kind_app.
Qed.

Lemma rounded_cycle_failed (st : State) (c : Cycle) :
  is_failed c = true ->
  exists exc,
    HeartbeatLoop.cycle dumps args fadd st c
    = ([mkLine (cycle_ts c) "error" exc], if once args then Exit 2 else Continue st).
Proof.
  unfold is_failed, HeartbeatLoop.cycle. destruct (loaded c) as [exc|]; [|discriminate].
  eauto.
Qed.


End Sleeping.



Lemma sample_fadd_monotone (a b c : Q) :
  (b <= c)%Q -> (HeartbeatLoop.sample_fadd a b <= HeartbeatLoop.sample_fadd a c)%Q.
Proof.
  intros H. unfold HeartbeatLoop.sample_fadd.
  assert (Qfloor ((a + b) * 8 + (1 # 2)) <= Qfloor ((a + c) * 8 + (1 # 2)))%Z as Hz.
  { apply Qfloor_resp_le. apply Qplus_le_l. apply Qmult_le_compat_r; [|discriminate].
    now apply Qplus_le_r. }
  unfold Qle. cbn [Qnum Qden]. lia.
Qed.

(** The deadline of the next heartbeat is the double that the machine rounds
    "clock reading plus max(interval, 1)" to, so heartbeats are a second
    apart up to that rounding and no more: a turn in which the heartbeat is
    due prints it once and sets the deadline; a later successful turn prints a
    heartbeat if its clock reading has reached the deadline, and none if its
    reading is below the rounded "reading plus 1", also after failed turns in
    between.  (Rounding never reverses the order of two sums.) *)
Theorem heartbeat_spacing (dumps : Topology -> string) (args : Args)
    (fadd : Q -> Q -> Q) (st : State) (ts ts' : string) (now now' : Q)
    (active active' : list ActiveSession) (topology topology' : Topology)
    (failed : list HeartbeatLoop.Turn) (slept : bool) :
  once args = false ->
  (forall a b c, (b <= c)%Q -> (fadd a b <= fadd a c)%Q) ->
  forallb (fun t => is_failed (HeartbeatLoop.observed t)) failed = true ->
  (next_heartbeat st <= now)%Q ->
  exists out st1,
    HeartbeatLoop.cycle dumps args fadd st (mkCycle ts (LoadOk active topology) now)
    = (out, Continue st1)
    /\ of_kind "heartbeat" out = [heartbeat_line ts active topology]
    /\ next_heartbeat st1 = fadd now (py_max (heartbeat_interval args) 1)
    /\ ((now' < fadd now 1)%Q ->
        of_kind "heartbeat"
          (fst (HeartbeatLoop.run dumps args fadd st1
                  (failed ++ [HeartbeatLoop.mkTurn
                                (mkCycle ts' (LoadOk active' topology') now') slept])))
        = [])
    /\ ((fadd now (py_max (heartbeat_interval args) 1) <= now')%Q ->
        of_kind "heartbeat"
          (fst (HeartbeatLoop.cycle dumps args fadd st1
                  (mkCycle ts' (LoadOk active' topology') now')))
        = [heartbeat_line ts' active' topology']).
Proof.
  intros Honce Hmono Hf Hdue.
  destruct (rounded_cycle_loaded dumps args fadd st ts now active topology)
    as (out1 & ids & _ & E).
  rewrite Honce in E.
  pose proof (of_kind_rounded_cycle dumps args fadd "heartbeat" st ts now active topology)
    as Hk.
  rewrite of_kind_sessions_step, of_kind_topology_step in Hk by discriminate.
  rewrite E in Hk. cbn [fst app] in Hk.
  apply Qle_bool_iff in Hdue.
  assert (HeartbeatLoop.heartbeat_step args fadd ts st now active topology
          = (emit_heartbeat ts active topology,
             fadd now (py_max (heartbeat_interval args) 1))) as Hh
    by (unfold HeartbeatLoop.heartbeat_step; now rewrite Hdue).
  rewrite Hh in E, Hk. cbn [fst snd] in E, Hk.
  eexists _, _. split; [exact E|]. split; [rewrite Hk; reflexivity|].
  split; [reflexivity|].
  set (st1 := mkState ids _ _).
  assert (forall st2,
            of_kind "heartbeat"
              (fst (HeartbeatLoop.cycle dumps args fadd st2
                      (mkCycle ts' (LoadOk active' topology') now')))
            = of_kind "heartbeat"
                (fst (HeartbeatLoop.heartbeat_step args fadd ts' st2 now'
                        active' topology'))) as Hbeat.
  { intros st2. rewrite of_kind_rounded_cycle.
    now rewrite of_kind_sessions_step, of_kind_topology_step by discriminate. }
  split.
  - intros Hsoon.
    assert (forall st2, next_heartbeat st2 = next_heartbeat st1 ->
              of_kind "heartbeat"
                (fst (HeartbeatLoop.run dumps args fadd st2
                        (failed ++ [HeartbeatLoop.mkTurn
                                      (mkCycle ts' (LoadOk active' topology') now')
                                      slept])))
              = []) as Hgen; [|now apply Hgen].
    intros st2 Hn. induction failed as [|t failed IH].
    + cbn [app HeartbeatLoop.run HeartbeatLoop.observed HeartbeatLoop.sleep_returns].
      specialize (Hbeat st2).
      destruct (rounded_cycle_loaded dumps args fadd st2 ts' now' active' topology')
        as (out2 & ids2 & _ & E2).
      rewrite E2 in Hbeat |- *. rewrite Honce. cbn [fst] in Hbeat.
      assert (of_kind "heartbeat"
                (out2 ++ fst (topology_step dumps ts' st2 topology')
                      ++ fst (HeartbeatLoop.heartbeat_step args fadd ts' st2 now'
                                active' topology')) = []) as Hnone.
      { rewrite Hbeat. unfold HeartbeatLoop.heartbeat_step.
        assert (Qle_bool (next_heartbeat st2) now' = false) as Hlate.
        { apply Qle_bool_false. rewrite Hn. unfold st1. cbn [next_heartbeat].
          eapply Qlt_le_trans; [exact Hsoon|].
          apply Hmono. apply py_max_ge_r. }
        now rewrite Hlate. }
      destruct slept; cbn [fst]; [rewrite app_nil_r|]; exact Hnone.
    + cbn [forallb] in Hf. apply andb_prop in Hf as [Hc Hf].
      cbn [app HeartbeatLoop.run].
      destruct (rounded_cycle_failed dumps args fadd st2 (HeartbeatLoop.observed t) Hc)
        as (exc & Ec).
      rewrite Ec, Honce. specialize (IH Hf).
      destruct (HeartbeatLoop.sleep_returns t); [|reflexivity].
      destruct (HeartbeatLoop.run dumps args fadd st2 (failed ++ _)) as [out' o].
      cbn [fst app] in IH |- *. rewrite of_kind_cons. cbn [line_kind].
      change ("error" =? "heartbeat") with false. exact IH.
  - intros Hreached. rewrite Hbeat. unfold HeartbeatLoop.heartbeat_step.
    unfold st1. cbn [next_heartbeat].
    apply Qle_bool_iff in Hreached. rewrite Hreached. reflexivity.
Qed.

Lemma heartbeat_spacing_witness :
  (0 <= 0.2)%Q /\ (1.21 < HeartbeatLoop.sample_fadd 0.2 1)%Q
  /\ exists out st1,
       HeartbeatLoop.cycle sample_dumps (mkArgs false 5 0.1) HeartbeatLoop.sample_fadd
         initial_state (mkCycle "T1" (LoadOk nine_sessions sample_topology) 0.2)
       = (out, Continue st1)
       /\ of_kind "heartbeat"
            (fst (HeartbeatLoop.run sample_dumps (mkArgs false 5 0.1)
                    HeartbeatLoop.sample_fadd st1
                    ([HeartbeatLoop.mkTurn (mkCycle "T2" (LoadFailed "boom") 0.7) true]
                     ++ [HeartbeatLoop.mkTurn
                           (mkCycle "T3" (LoadOk nine_sessions sample_topology) 1.21)
                           true])))
          = [].
Proof.
  assert (0 <= 0.2)%Q as Hdue by (vm_compute; discriminate).
  assert (1.21 < HeartbeatLoop.sample_fadd 0.2 1)%Q as Hsoon by (vm_compute; reflexivity).
  split; [exact Hdue|]. split; [exact Hsoon|].
  destruct (heartbeat_spacing sample_dumps (mkArgs false 5 0.1)
              HeartbeatLoop.sample_fadd initial_state
              "T1" "T3" 0.2 1.21 nine_sessions nine_sessions
              sample_topology sample_topology
              [HeartbeatLoop.mkTurn (mkCycle "T2" (LoadFailed "boom") 0.7) true] true
              eq_refl sample_fadd_monotone eq_refl Hdue)
    as (out & st1 & E & _ & _ & H & _).
  exists out, st1. split; [exact E | exact (H Hsoon)].
Defined.

End HeartbeatMonitorProps.
